(** * uni-fixer: a college issue-reporting portal

    A shallow embedding of the portal's client handlers (React pages that
    call a Supabase backend) and of the database schema with its row-level
    security policies (the SQL migrations), followed by the properties of
    the behavioural specification that were checked against them (C1 to
    C10) and by further properties of the code (X1 to X23).

    Conventions.
    - A uuid is the string the client sees.  A timestamp is the number of
      milliseconds since the epoch ([Date.getTime()], [Date.now()]).
    - A table is the list of its rows, in storage order.  Columns that no
      handler reads or writes ([created_at], [updated_at], the surrogate
      [id] of [user_roles] and [upvotes], the [notifications] table) are
      left out.
    - [const { data, error } = await supabase...] is a backend call that
      never throws: it returns either an error object or the data.  The
      handlers turn an error into an exception with [throw], and their
      [catch] block turns the exception into a toast.
    - Every backend call is a network request.  The world carries a script
      [net] saying which of the coming requests are lost on the way; a
      property stated for every world holds for every pattern of network
      failures. *)

From Stdlib Require Import List Ascii String ZArith QArith Qround Bool Lia.
From Stdlib Require Import Permutation Sorted DecimalString.
Import ListNotations.

Local Open Scope string_scope.
Local Open Scope Z_scope.

(** ** Data model (the first migration) *)

Module Schema.

Definition uuid := string.
Definition timestamp := Z.

(** [CREATE TYPE public.app_role AS ENUM (...)] *)
Inductive app_role := student | teacher | hod | principal.

(** [CREATE TYPE public.issue_status AS ENUM (...)] *)
Inductive issue_status := pending | acknowledged | work_done.

Definition app_role_eqb (a b : app_role) : bool :=
  match a, b with
  | student, student | teacher, teacher | hod, hod | principal, principal => true
  | _, _ => false
  end.

Definition issue_status_eqb (a b : issue_status) : bool :=
  match a, b with
  | pending, pending | acknowledged, acknowledged | work_done, work_done => true
  | _, _ => false
  end.

Record department := mkDepartment {
  dept_id : uuid;
  dept_name : string;
  dept_code : string
}.

Record profile := mkProfile {
  profile_id : uuid;
  college_id : string;
  full_name : string;
  email : string;
  profile_department_id : option uuid
}.

Record user_role := mkUserRole {
  role_user_id : uuid;
  role : app_role
}.

Record issue := mkIssue {
  issue_id : uuid;
  reporter_id : uuid;
  department_id : uuid;
  room_no : string;
  item_id : string;
  title : string;
  description : option string;
  photo_url : option string;
  status : issue_status;
  is_priority : bool;
  reported_at : timestamp;
  deadline : timestamp;
  resolved_at : option timestamp
}.

Record upvote := mkUpvote {
  upvote_issue_id : uuid;
  upvote_user_id : uuid
}.

(** The database: the five tables the handlers use, and whether the second
    migration (the policy "Users can delete their own issues") has been
    applied.  Row-level security is enabled on every table, so a command
    without a policy sees no row. *)
Record Db := mkDb {
  departments : list department;
  profiles : list profile;
  user_roles : list user_role;
  issues : list issue;
  upvotes : list upvote;
  issues_delete_policy : bool
}.

Definition set_issues (l : list issue) (d : Db) : Db :=
  mkDb (departments d) (profiles d) (user_roles d) l (upvotes d)
       (issues_delete_policy d).

Definition set_upvotes (l : list upvote) (d : Db) : Db :=
  mkDb (departments d) (profiles d) (user_roles d) (issues d) l
       (issues_delete_policy d).

(** One day, and the interval ['30 days'] of the [deadline] default. *)
Definition ms_per_day_pos : positive := 86400000%positive.
Definition ms_per_day : Z := Zpos ms_per_day_pos.
Definition thirty_days : Z := 30 * ms_per_day.

(** [INSERT INTO public.departments (name, code) VALUES ...] *)
Definition default_departments (ids : list uuid) : list department :=
  map (fun p => mkDepartment (fst p) (fst (snd p)) (snd (snd p)))
      (combine ids
         [ ("Computer Science", "CS"); ("Electronics", "EC");
           ("Mechanical", "ME"); ("Civil", "CE"); ("Electrical", "EE") ]).

End Schema.
Export Schema.

(** ** Days remaining (IssueCard) *)

Module IssueCardView.

(** [Math.ceil((new Date(issue.deadline).getTime() - Date.now())
               / (1000 * 60 * 60 * 24))]
    The quotient is the exact rational; [Math.ceil] is [Qceiling]. *)
Definition daysRemaining (deadline now : timestamp) : Z :=
  Qceiling ((deadline - now) # ms_per_day_pos).

(** [issue.status !== 'work_done' && daysRemaining <= 7 && <Badge>..d left] *)
Definition days_left_badge (i : issue) (now : timestamp) : option Z :=
  if negb (issue_status_eqb (status i) work_done)
     && (daysRemaining (deadline i) now <=? 7)
  then Some (daysRemaining (deadline i) now)
  else None.

End IssueCardView.


(** ** The client's view of the backend: requests, errors, exceptions *)

Module Runtime.

(** The [error] object of a backend response. *)
Inductive pg_error :=
| FetchError (msg : string)      (* the request was lost on the way *)
| UniqueViolation                (* 23505, a UNIQUE or PRIMARY KEY constraint *)
| ForeignKeyViolation            (* 23503 *)
| NotNullViolation               (* 23502 *)
| RlsViolation                   (* 42501, new row violates a policy's check *)
| NoSingleRow                    (* PGRST116, [.single()] on zero or several rows *)
| StorageRejected (msg : string) (* an error object of the storage API *).

(** What a handler can throw: an error object it received
    ([throw error]) or [new Error(message)]. *)
Inductive exn :=
| Thrown (e : pg_error)
| JsError (message : string).

(** The signed-in user of the browser tab: [user] of [useAuth()], and
    [auth.uid()] on the backend side of the same session. *)
Definition Session := option uuid.

Record World := mkWorld {
  db : Db;
  bucket : list string;        (* keys of the objects in 'issue-photos' *)
  storage_url : string;        (* public base URL of the bucket *)
  clock : timestamp;           (* Date.now(), and now() of the database *)
  net : list (option string)   (* coming requests: None arrives, Some msg is lost *)
}.

Definition set_db (d : Db) (w : World) : World :=
  mkWorld d (bucket w) (storage_url w) (clock w) (net w).

Definition set_bucket (b : list string) (w : World) : World :=
  mkWorld (db w) b (storage_url w) (clock w) (net w).

Definition set_net (n : list (option string)) (w : World) : World :=
  mkWorld (db w) (bucket w) (storage_url w) (clock w) n.

(** A backend call: it never throws, it answers [{ data, error }]. *)
Definition Api (A : Type) := World -> (pg_error + A) * World.

(** Handler code: it can throw, and what it did to the world before the
    throw stays done. *)
Definition Handler (A : Type) := World -> (exn + A) * World.

(** One request: consume the next entry of the network script, and run the
    command on the backend when the request arrives. *)
Definition request {A} (exec : World -> (pg_error + A) * World) : Api A :=
  fun w =>
    match net w with
    | Some msg :: rest => (inl (FetchError msg), set_net rest w)
    | None :: rest => exec (set_net rest w)
    | [] => exec w
    end.

(** A command that touches only the database. *)
Definition on_db {A} (f : Db -> (pg_error + A) * Db) (w : World)
  : (pg_error + A) * World :=
  let '(r, d) := f (db w) in (r, set_db d w).

(** A read-only command. *)
Definition query {A} (f : Db -> pg_error + A) : Api A :=
  request (fun w => (f (db w), w)).

Definition ret {A} (a : A) : Handler A := fun w => (inr a, w).

Definition bind {A B} (c : Handler A) (k : A -> Handler B) : Handler B :=
  fun w =>
    match c w with
    | (inl e, w') => (inl e, w')
    | (inr a, w') => k a w'
    end.

Definition throw {A} (e : exn) : Handler A := fun w => (inl e, w).

(** [const { data, error } = await call] *)
Definition await {A} (c : Api A) : Handler (pg_error + A) :=
  fun w => let '(r, w') := c w in (inr r, w').

(** [if (error) throw error], then the data. *)
Definition or_throw {A} (r : pg_error + A) : Handler A :=
  match r with
  | inl e => throw (Thrown e)
  | inr a => ret a
  end.

(** [Date.now()], [new Date()] *)
Definition Date_now : Handler timestamp := fun w => (inr (clock w), w).

(** [try { body } catch (error) { handler(error) }]; the catch blocks of the
    handlers only build a toast from the error. *)
Definition try_catch {A} (body : Handler A) (handler : exn -> A)
  : World -> A * World :=
  fun w =>
    match body w with
    | (inr a, w') => (a, w')
    | (inl e, w') => (handler e, w')
    end.

(** [toast({ title, description, variant })]; a toast whose description is
    [error.message] is kept with the error it reports (its variant is
    'destructive'). *)
Inductive toast :=
| Toast (title description : string) (destructive : bool)
| ErrorToast (title : string) (cause : exn).

Definition is_destructive (t : toast) : bool :=
  match t with
  | Toast _ _ b => b
  | ErrorToast _ _ => true
  end.

Declare Scope handler_scope.
Delimit Scope handler_scope with handler.
Notation "x <- c ;; k" := (bind c (fun x => k))
  (at level 61, c at next level, right associativity) : handler_scope.
Notation "c ;;; k" := (bind c (fun _ => k))
  (at level 61, right associativity) : handler_scope.

(** [await Promise.all(l.map(async x => f x))] for an [f] that awaits
    requests: one run of [f] per element, results in the order of [l].
    The requests of the runs are taken from the network script one run
    after the other. *)
Fixpoint Promise_all_map {A B} (f : A -> Handler B) (l : list A)
  : Handler (list B) :=
  match l with
  | [] => ret []
  | x :: l' =>
      bind (f x) (fun y =>
      bind (Promise_all_map f l') (fun ys => ret (y :: ys)))
  end.

(** A stable insertion sort; [before a b] says that [a] may stay in front
    of [b].  [Array.prototype.sort] is stable by the language standard, so
    for a consistent comparison its result is this one, whatever algorithm
    the engine runs. *)
Fixpoint stable_insert {A} (before : A -> A -> bool) (x : A) (l : list A) : list A :=
  match l with
  | [] => [x]
  | y :: l' => if before x y then x :: l else y :: stable_insert before x l'
  end.

Fixpoint stable_sort {A} (before : A -> A -> bool) (l : list A) : list A :=
  match l with
  | [] => []
  | x :: l' => stable_insert before x (stable_sort before l')
  end.

(** [array.sort(compareFn)]: [a] stays in front of [b] unless
    [compareFn(a, b) > 0]. *)
Definition Array_sort {A} (compareFn : A -> A -> Z) (l : list A) : list A :=
  stable_sort (fun a b => compareFn a b <=? 0) l.

End Runtime.
Export Runtime.

(** ** The backend: policies, constraints and the commands the pages send *)

Module Backend.

(** [public.has_role(_user_id, _role)] *)
Definition has_role (d : Db) (u : uuid) (r : app_role) : bool :=
  existsb (fun x => String.eqb (role_user_id x) u && app_role_eqb (role x) r)
          (user_roles d).

(** "HoDs can update issues in their department":
    [has_role(auth.uid(), 'hod') AND department_id IN
       (SELECT department_id FROM profiles WHERE id = auth.uid())];
    a NULL department of the profile matches nothing. *)
Definition hod_can_update (d : Db) (uid : uuid) (i : issue) : bool :=
  has_role d uid hod &&
  existsb (fun p =>
             String.eqb (profile_id p) uid &&
             match profile_department_id p with
             | Some dep => String.eqb (department_id i) dep
             | None => false
             end)
          (profiles d).

(** "Principals can update any issue" *)
Definition principal_can_update (d : Db) (uid : uuid) (i : issue) : bool :=
  has_role d uid principal.

(** The UPDATE policies of [issues], both permissive and
    [TO authenticated]: a row passes when one of them accepts it. *)
Definition issues_update_policy (d : Db) (s : Session) (i : issue) : bool :=
  match s with
  | Some uid => hod_can_update d uid i || principal_can_update d uid i
  | None => false
  end.

(** "Users can delete their own issues" (second migration):
    [USING (reporter_id = auth.uid())].  Before that migration [issues] has
    no DELETE policy and no row passes. *)
Definition issues_delete_using (d : Db) (s : Session) (i : issue) : bool :=
  issues_delete_policy d &&
  match s with
  | Some uid => String.eqb (reporter_id i) uid
  | None => false
  end.

(** "Users can create issues": [WITH CHECK (reporter_id = auth.uid())] *)
Definition issues_insert_check (s : Session) (i : issue) : bool :=
  match s with
  | Some uid => String.eqb (reporter_id i) uid
  | None => false
  end.

(** "Users can create upvotes" / "Users can delete their own upvotes":
    [user_id = auth.uid()] *)
Definition upvotes_own (s : Session) (u : upvote) : bool :=
  match s with
  | Some uid => String.eqb (upvote_user_id u) uid
  | None => false
  end.

(** "Users can view their own roles" or "Principals can view all roles" *)
Definition user_roles_select_using (d : Db) (s : Session) (r : user_role) : bool :=
  match s with
  | Some uid => String.eqb (role_user_id r) uid || has_role d uid principal
  | None => false
  end.

(** SELECT policies [TO authenticated USING (true)] of departments, issues
    and upvotes. *)
Definition visible {A} (s : Session) (rows : list A) : list A :=
  match s with
  | Some _ => rows
  | None => []
  end.

(** [.single()]: exactly one row, or the error PGRST116. *)
Definition single {A} (rows : list A) : pg_error + A :=
  match rows with
  | [r] => inr r
  | _ => inl NoSingleRow
  end.

(** ORDER BY.  The backend promises an answer that holds the rows, each
    once, in an order that respects the key ([ordered_rows] in the
    observations); among rows with equal keys any order can come back, and
    not the same one in every query.  This function is one such answer,
    with equal keys in storage order.  What is meant to hold of every
    answer of the backend is stated for every list with [ordered_rows],
    not for this function. *)
Definition order_by {A} (before : A -> A -> bool) (rows : list A) : list A :=
  stable_sort before rows.

(** *** issues *)

(** The object passed to [.update(...)]: [status] always, [resolved_at]
    only when the spread adds it. *)
Record issue_patch := mkPatch {
  patch_status : issue_status;
  patch_resolved_at : option timestamp
}.

Definition apply_patch (p : issue_patch) (i : issue) : issue :=
  mkIssue (issue_id i) (reporter_id i) (department_id i) (room_no i)
          (item_id i) (title i) (description i) (photo_url i)
          (patch_status p) (is_priority i) (reported_at i) (deadline i)
          (match patch_resolved_at p with
           | Some t => Some t
           | None => resolved_at i
           end).

(** [UPDATE issues SET ... WHERE id = $1] under the UPDATE policies: the
    rows that the policies do not accept are skipped without an error; the
    new version of an updated row must pass the policies again (a policy
    without WITH CHECK checks new rows with its USING expression), or the
    command fails as a whole. *)
Definition update_issues (s : Session) (id : uuid) (p : issue_patch) (d : Db)
  : (pg_error + unit) * Db :=
  let target i := String.eqb (issue_id i) id && issues_update_policy d s i in
  if forallb (fun i => issues_update_policy d s (apply_patch p i))
             (filter target (issues d))
  then (inr tt,
        set_issues (map (fun i => if target i then apply_patch p i else i)
                        (issues d)) d)
  else (inl RlsViolation, d).

(** [SELECT reporter_id FROM issues WHERE id = $1], [.single()] *)
Definition select_issue_reporter (s : Session) (id : uuid) (d : Db)
  : pg_error + uuid :=
  single (map reporter_id
              (filter (fun i => String.eqb (issue_id i) id)
                      (visible s (issues d)))).

(** [DELETE FROM issues WHERE id = $1 AND reporter_id = $2 RETURNING *]
    under the DELETE policy; the upvotes of a deleted issue go with it
    ([ON DELETE CASCADE]). *)
Definition delete_issues (s : Session) (id reporter : uuid) (d : Db)
  : (pg_error + list issue) * Db :=
  let target i :=
    String.eqb (issue_id i) id && String.eqb (reporter_id i) reporter &&
    issues_delete_using d s i in
  let deleted := filter target (issues d) in
  (inr deleted,
   set_upvotes
     (filter (fun u => negb (existsb (fun i => String.eqb (issue_id i)
                                                  (upvote_issue_id u))
                                     deleted))
             (upvotes d))
     (set_issues (filter (fun i => negb (target i)) (issues d)) d)).

(** [SELECT id FROM issues WHERE id = $1] with [count: 'exact'] *)
Definition count_issues (s : Session) (id : uuid) (d : Db) : pg_error + nat :=
  inr (List.length (filter (fun i => String.eqb (issue_id i) id)
                      (visible s (issues d)))).

(** The object passed to [.insert(...)] on issues. *)
Record issue_insert := mkIssueInsert {
  ins_reporter_id : option uuid;   (* user?.id *)
  ins_department_id : string;
  ins_room_no : string;
  ins_item_id : string;
  ins_title : string;
  ins_description : string;
  ins_photo_url : option string
}.

(** [INSERT INTO issues (...)]: the column defaults fill in [id] (the
    [new_id] that gen_random_uuid() draws), [status], [is_priority],
    [reported_at], [deadline] and [resolved_at].  The new row is checked
    in the order of the backend: first row-level security (no INSERT
    policy applies without a session, and with one the policy's
    [reporter_id = auth.uid()] is not true of a NULL [reporter_id]), then
    the NOT NULL constraints (which a row that passed the policy meets),
    then the primary key, then the foreign keys. *)
Definition insert_issue (s : Session) (new_id : uuid) (now : timestamp)
    (v : issue_insert) (d : Db) : (pg_error + unit) * Db :=
  match s, ins_reporter_id v with
  | Some _, Some rep =>
      let row := mkIssue new_id rep (ins_department_id v) (ins_room_no v)
                         (ins_item_id v) (ins_title v)
                         (Some (ins_description v)) (ins_photo_url v)
                         pending false now (now + thirty_days) None in
      if negb (issues_insert_check s row) then (inl RlsViolation, d)
      else if existsb (fun i => String.eqb (issue_id i) new_id) (issues d)
      then (inl UniqueViolation, d)
      else if negb (existsb (fun p => String.eqb (profile_id p) rep) (profiles d)
                    && existsb (fun x => String.eqb (dept_id x) (ins_department_id v))
                               (departments d))
      then (inl ForeignKeyViolation, d)
      else (inr tt, set_issues (issues d ++ [row]) d)
  | _, _ => (inl RlsViolation, d)
  end.

(** [SELECT * FROM issues], with [WHERE department_id = $1] and with
    [ORDER BY reported_at DESC] when asked. *)
Definition select_issues (s : Session) (dept : option uuid) (recent_first : bool)
    (d : Db) : pg_error + list issue :=
  let rows := visible s (issues d) in
  let rows :=
    match dept with
    | Some x => filter (fun i => String.eqb (department_id i) x) rows
    | None => rows
    end in
  inr (if recent_first
       then order_by (fun a b => reported_at b <=? reported_at a) rows
       else rows).

(** *** upvotes *)

Definition same_upvote (i u : uuid) (x : upvote) : bool :=
  String.eqb (upvote_issue_id x) i && String.eqb (upvote_user_id x) u.

(** [INSERT INTO upvotes (issue_id, user_id)]: insert policy, then
    [UNIQUE(issue_id, user_id)], then the two foreign keys. *)
Definition insert_upvote (s : Session) (v : upvote) (d : Db)
  : (pg_error + unit) * Db :=
  if negb (upvotes_own s v) then (inl RlsViolation, d)
  else if existsb (same_upvote (upvote_issue_id v) (upvote_user_id v)) (upvotes d)
  then (inl UniqueViolation, d)
  else if negb (existsb (fun i => String.eqb (issue_id i) (upvote_issue_id v))
                        (issues d)
                && existsb (fun p => String.eqb (profile_id p) (upvote_user_id v))
                           (profiles d))
  then (inl ForeignKeyViolation, d)
  else (inr tt, set_upvotes (upvotes d ++ [v]) d).

(** [DELETE FROM upvotes WHERE issue_id = $1 AND user_id = $2] under the
    delete policy. *)
Definition delete_upvotes (s : Session) (i u : uuid) (d : Db)
  : (pg_error + unit) * Db :=
  (inr tt,
   set_upvotes (filter (fun x => negb (same_upvote i u x && upvotes_own s x))
                       (upvotes d)) d).

(** [SELECT * FROM upvotes WHERE issue_id = $1] with
    [{ count: 'exact', head: true }] *)
Definition count_upvotes (s : Session) (i : uuid) (d : Db) : pg_error + nat :=
  inr (List.length (filter (fun x => String.eqb (upvote_issue_id x) i)
                      (visible s (upvotes d)))).

(** [SELECT id FROM upvotes WHERE issue_id = $1 AND user_id = $2],
    [.single()] *)
Definition select_own_upvote (s : Session) (i u : uuid) (d : Db)
  : pg_error + upvote :=
  single (filter (same_upvote i u) (visible s (upvotes d))).

(** *** user_roles and departments *)

(** [SELECT role FROM user_roles WHERE user_id = $1], [.single()] *)
Definition select_role (s : Session) (u : uuid) (d : Db) : pg_error + app_role :=
  single (map role
              (filter (fun r => String.eqb (role_user_id r) u)
                      (filter (user_roles_select_using d s) (user_roles d)))).

(** [SELECT role FROM user_roles WHERE user_id = $1 AND role = $2],
    [.single()] *)
Definition select_role_eq (s : Session) (u : uuid) (r0 : app_role) (d : Db)
  : pg_error + app_role :=
  single (map role
              (filter (fun r => String.eqb (role_user_id r) u
                                && app_role_eqb (role r) r0)
                      (filter (user_roles_select_using d s) (user_roles d)))).

(** [SELECT * FROM departments ORDER BY name], with [WHERE code IN (...)]
    when [codes] is given. *)
Definition select_departments (s : Session) (codes : option (list string))
    (d : Db) : pg_error + list department :=
  let rows := visible s (departments d) in
  let rows :=
    match codes with
    | Some cs => filter (fun x => existsb (String.eqb (dept_code x)) cs) rows
    | None => rows
    end in
  inr (order_by (fun a b => String.leb (dept_name a) (dept_name b)) rows).

(** *** storage *)

(** [storage.from('issue-photos').upload(path, file)]: "Authenticated
    users can upload issue photos"; without [upsert] an existing key is
    refused. *)
Definition storage_upload (s : Session) (path : string) (w : World)
  : (pg_error + unit) * World :=
  match s with
  | None => (inl (StorageRejected "new row violates row-level security policy"), w)
  | Some _ =>
      if existsb (String.eqb path) (bucket w)
      then (inl (StorageRejected "The resource already exists"), w)
      else (inr tt, set_bucket (bucket w ++ [path]) w)
  end.

(** [storage.from('issue-photos').getPublicUrl(path)]: no request, the URL
    is put together on the client. *)
Definition getPublicUrl (w : World) (path : string) : string :=
  storage_url w ++ "/object/public/issue-photos/" ++ path.

End Backend.
Export Backend.

(** ** The pages *)

Local Open Scope handler_scope.

(** [supabase.auth.getUser()]: a request; [user] is null when it fails. *)
Definition auth_getUser (s : Session) : Handler Session :=
  r <- await (request (fun w => (inr s, w))) ;;
  ret (match r with
       | inr user => user
       | inl _ => None
       end).

(** *** IssueCard.tsx *)

Module IssueCard.

(** [handleUpvote] of a card with the props [issue] and [hasUpvoted], up to
    and including the call of [onUpvoteChange()]. *)
Definition handleUpvote_try (s : Session) (issue : issue) (hasUpvoted : bool)
  : Handler unit :=
  user <- auth_getUser s ;;
  match user with
  | None => throw (JsError "Not authenticated")
  | Some uid =>
      if hasUpvoted
      then r <- await (request (on_db (delete_upvotes s (issue_id issue) uid))) ;;
           or_throw r
      else r <- await (request (on_db (insert_upvote s
                                         (mkUpvote (issue_id issue) uid)))) ;;
           or_throw r
  end.

(** The whole handler: the toast it shows, if any, and whether it called
    [onUpvoteChange()]. *)
Definition handleUpvote (s : Session) (issue : issue) (hasUpvoted : bool)
  : World -> (option toast * bool) * World :=
  try_catch (handleUpvote_try s issue hasUpvoted ;;; ret (None, true))
            (fun error => (Some (ErrorToast "Error" error), false)).

End IssueCard.

(** *** Index.tsx *)

Module Index.

(** ['upvotes' | 'recent'] *)
Inductive sort_mode := upvotes_mode | recent_mode.

(** [{ ...issue, upvoteCount, hasUpvoted }] *)
Record feed_item := mkFeedItem {
  fi_issue : issue;
  upvoteCount : nat;
  hasUpvoted : bool
}.

(** The callback of [data.map(async (issue) => ...)]: two requests, whose
    errors are not looked at ([count || 0], [!!userUpvote]). *)
Definition with_upvotes (u : uuid) (issue : issue) : Handler feed_item :=
  c <- await (query (count_upvotes (Some u) (issue_id issue))) ;;
  v <- await (query (select_own_upvote (Some u) (issue_id issue) u)) ;;
  ret (mkFeedItem issue
         (match c with inr n => n | inl _ => 0%nat end)
         (match v with inr _ => true | inl _ => false end)).

(** [(a, b) => b.upvoteCount - a.upvoteCount] *)
Definition by_upvoteCount (a b : feed_item) : Z :=
  Z.of_nat (upvoteCount b) - Z.of_nat (upvoteCount a).

(** What the query function does with the rows it received. *)
Definition feed_of_rows (u : uuid) (sortBy : sort_mode) (data : list issue)
  : Handler (list feed_item) :=
  issuesWithUpvotes <- Promise_all_map (with_upvotes u) data ;;
  ret (match sortBy with
       | upvotes_mode => Array_sort by_upvoteCount issuesWithUpvotes
       | recent_mode => issuesWithUpvotes
       end).

(** [queryFn] of the ['issues', sortBy] query, for the signed-in user [u]
    (the query is enabled only when there is one). *)
Definition issues_queryFn (u : uuid) (sortBy : sort_mode)
  : Handler (list feed_item) :=
  r <- await (query (select_issues (Some u) None
                       (match sortBy with
                        | recent_mode => true
                        | upvotes_mode => false
                        end))) ;;
  data <- or_throw r ;;
  feed_of_rows u sortBy data.

(** The page: the sort tab and the data of the issues query. *)
Record page := mkPage {
  sortBy : sort_mode;
  feed : list feed_item
}.

(** [refetch()]: one run of the query function; when it fails the page
    keeps the data it has. *)
Definition refetch (u : uuid) (p : page) (w : World) : page * World :=
  match issues_queryFn u (sortBy p) w with
  | (inr data, w') => (mkPage (sortBy p) data, w')
  | (inl _, w') => (p, w')
  end.

(** The card of the issue [id] on the page. *)
Definition card_of (id : uuid) (p : page) : option feed_item :=
  find (fun item => String.eqb (issue_id (fi_issue item)) id) (feed p).

(** A click on the upvote button of the card rendered for [item]:
    [<IssueCard issue={issue} hasUpvoted={issue.hasUpvoted}
                onUpvoteChange={refetch} />]
    The handler calls [onUpvoteChange()] and does not wait for it: when
    the click ends, the page shows what it showed and the button is
    enabled again.  The boolean says whether a refetch was started; the
    page changes when that refetch completes, which is the step [refetch]. *)
Definition click_upvote (u : uuid) (item : feed_item) (w : World)
  : (option toast * bool) * World :=
  IssueCard.handleUpvote (Some u) (fi_issue item) (hasUpvoted item) w.

(** The upvote toggle as the user has it: a click on the card of the issue,
    when the page shows one. *)
Definition toggle_upvote (u : uuid) (id : uuid) (p : page) (w : World)
  : (option toast * bool) * World :=
  match card_of id p with
  | Some item => click_upvote u item w
  | None => ((None, false), w)
  end.

(** The fields of the "Report New Issue" dialog; [photo] is the name of the
    chosen file. *)
Record form := mkForm {
  roomNo : string;
  itemId : string;
  form_title : string;
  form_description : string;
  photo : option string;
  departmentId : string
}.

(** [name.split('.').pop()]: what follows the last dot, the whole name when
    it has none. *)
Fixpoint split_pop (acc name : string) : string :=
  match name with
  | EmptyString => acc
  | String c rest =>
      if Ascii.eqb c "."%char
      then split_pop EmptyString rest
      else split_pop (acc ++ String c EmptyString) rest
  end.

(** [${user?.id}] *)
Definition user_id_text (s : Session) : string :=
  match s with
  | Some uid => uid
  | None => "undefined"
  end.

(** [`${user?.id}/${Date.now()}.${fileExt}`] *)
Definition photo_key (s : Session) (now : timestamp) (name : string) : string :=
  user_id_text s ++ "/" ++ NilEmpty.string_of_int (Z.to_int now) ++ "."
  ++ split_pop EmptyString name.

(** The photo part of [handleSubmitIssue]: the value of [photoUrl]. *)
Definition upload_photo (s : Session) (f : form) : Handler (option string) :=
  match photo f with
  | Some name =>
      now <- Date_now ;;
      let fileName := photo_key s now name in
      r <- await (request (storage_upload s fileName)) ;;
      or_throw r ;;;
      fun w => (inr (Some (getPublicUrl w fileName)), w)
  | None => ret None
  end.

(** [handleSubmitIssue]; [new_id] is the id the backend draws for the row.
    After the toast the dialog is closed, the form reset and the feed
    refetched; none of it writes to the backend. *)
Definition handleSubmitIssue (s : Session) (new_id : uuid) (f : form)
  : World -> toast * World :=
  try_catch
    (photoUrl <- upload_photo s f ;;
     r <- await (request (fun w =>
            on_db (insert_issue s new_id (clock w)
                     (mkIssueInsert s (departmentId f) (roomNo f) (itemId f)
                                    (form_title f) (form_description f)
                                    photoUrl)) w)) ;;
     or_throw r ;;;
     ret (Toast "Issue reported" "Your issue has been successfully reported."
                false))
    (fun error => ErrorToast "Error" error).

(** The departments query of the report dialog. *)
Definition departments_queryFn (s : Session) : Handler (list department) :=
  r <- await (query (select_departments s None)) ;;
  or_throw r.

End Index.

(** *** Profile.tsx *)

Module Profile.

Definition handleDeleteIssue_try (user : uuid) (issueId : uuid) : Handler toast :=
  let s := Some user in
  issueCheck <- await (query (select_issue_reporter s issueId)) ;;
  match issueCheck with
  | inr reporter =>
      if negb (String.eqb reporter user)
      then throw (JsError "You are not the reporter of this issue")
      else ret tt
  | inl _ => ret tt
  end ;;;
  del <- await (request (on_db (delete_issues s issueId user))) ;;
  or_throw del ;;;
  chk <- await (query (count_issues s issueId)) ;;
  remainingCount <- or_throw chk ;;
  if (0 <? remainingCount)%nat
  then throw (JsError "Delete did not apply due to permissions")
  else
    (* the query caches are patched and invalidated here; the database is
       not written again *)
    ret (Toast "Issue deleted" "Your report has been removed." false).

(** [handleDeleteIssue(issueId)]; nothing happens without a user. *)
Definition handleDeleteIssue (user : Session) (issueId : uuid)
  : World -> option toast * World :=
  match user with
  | None => fun w => (None, w)
  | Some u =>
      try_catch (t <- handleDeleteIssue_try u issueId ;; ret (Some t))
                (fun error => Some (ErrorToast "Delete failed" error))
  end.

End Profile.

(** *** Header.tsx (the revision with the role query and the dashboard buttons) *)

Module Header.

(** [queryFn] of the ['user-role', user?.id] query:
    [if (error) return null; return data?.role]; without a user the query
    is not enabled and [userRole] is undefined. *)
Definition userRole (user : Session) : World -> option app_role * World :=
  match user with
  | None => fun w => (None, w)
  | Some u =>
      fun w =>
        match query (select_role user u) w with
        | (inl _, w') => (None, w')
        | (inr r, w') => (Some r, w')
        end
  end.

(** The dashboard buttons of the navigation bar:
    [userRole === 'hod' && ...], [userRole === 'principal' && ...]; each is
    given by the route it opens. *)
Definition dashboard_links (userRole : option app_role) : list string :=
  (match userRole with Some hod => ["/hod"] | _ => [] end) ++
  (match userRole with Some principal => ["/principal"] | _ => [] end).

End Header.

(** *** HodDashboard.tsx and PrincipalDashboard.tsx *)

Module Dashboard.

(** The role check of a dashboard:
    [.eq('user_id', user.id).eq('role', r).single().then(({ data }) => ...)]:
    the value [hasHodRole] or [hasPrincipalRole] gets, and the toast. *)
Definition roleCheck (r : app_role) (denied : string) (user : uuid)
  : World -> (bool * option toast) * World :=
  fun w =>
    match query (select_role_eq (Some user) user r) w with
    | (inr _, w') => ((true, None), w')
    | (inl _, w') => ((false, Some (Toast "Access Denied" denied true)), w')
    end.

(** [handleStatusChange(issueId, newStatus)], the same text in both
    dashboards; [refetch()] follows the first toast and only reads. *)
Definition handleStatusChange (s : Session) (issueId : uuid)
    (newStatus : issue_status) : World -> toast * World :=
  try_catch
    (now <- Date_now ;;
     r <- await (request (on_db (update_issues s issueId
            (mkPatch newStatus
               (if issue_status_eqb newStatus work_done
                then Some now else None))))) ;;
     or_throw r ;;;
     ret (Toast "Status Updated" "Issue status has been updated successfully."
                false))
    (fun error => ErrorToast "Update Failed" error).

End Dashboard.

Module HodDashboard.

Definition roleCheck : uuid -> World -> (bool * option toast) * World :=
  Dashboard.roleCheck hod "You do not have HOD access.".

Definition handleStatusChange := Dashboard.handleStatusChange.

End HodDashboard.

Module PrincipalDashboard.

Definition roleCheck : uuid -> World -> (bool * option toast) * World :=
  Dashboard.roleCheck principal "You do not have Principal access.".

(** "Fetch all departments":
    [.from('departments').select('*').in('code', ['CS', 'EE', 'ME', 'HU'])
     .order('name')] *)
Definition departments_queryFn (s : Session) : Handler (list department) :=
  r <- await (query (select_departments s (Some ["CS"; "EE"; "ME"; "HU"]))) ;;
  or_throw r.

(** "Fetch all issues"; [selectedDepartment] is [None] for 'all'. *)
Definition issues_queryFn (s : Session) (selectedDepartment : option uuid)
  : Handler (list issue) :=
  r <- await (query (select_issues s selectedDepartment true)) ;;
  or_throw r.

(** One entry of [departmentStats]: [{ ...dept, total, pending }] *)
Record department_stat := mkStat {
  stat_dept : department;
  stat_total : nat;
  stat_pending : nat
}.

Definition departmentStats (departments : list department) (issues : list issue)
  : list department_stat :=
  map (fun dept =>
         mkStat dept
           (List.length (filter (fun i => String.eqb (department_id i) (dept_id dept))
                                issues))
           (List.length (filter (fun i => String.eqb (department_id i) (dept_id dept)
                                          && issue_status_eqb (status i) pending)
                                issues)))
      departments.

(** The values of the "Filter by Department" select besides 'all'. *)
Definition filter_options (departments : list department) : list uuid :=
  map dept_id departments.

Definition handleStatusChange := Dashboard.handleStatusChange.

End PrincipalDashboard.

Local Close Scope handler_scope.

(** ** Observations and invariants used in the statements *)

Module Observations.

(** The number of upvotes of an issue: the rows of [upvotes] that name it. *)
Definition upvote_count (d : Db) (i : uuid) : nat :=
  List.length (filter (fun x => String.eqb (upvote_issue_id x) i) (upvotes d)).

(** Whether there is an upvote row of the user for the issue. *)
Definition has_upvoted (d : Db) (i u : uuid) : bool :=
  existsb (same_upvote i u) (upvotes d).

(** [UNIQUE(issue_id, user_id)] on [upvotes]. *)
Definition upvotes_unique (d : Db) : Prop :=
  forall i u, (List.length (filter (same_upvote i u) (upvotes d)) <= 1)%nat.

(** [PRIMARY KEY (id)] on [issues]. *)
Definition issues_pkey (d : Db) : Prop :=
  NoDup (map issue_id (issues d)).

(** The two halves of "resolved_at is non-null iff status = work_done". *)
Definition done_implies_resolved (i : issue) : Prop :=
  status i = work_done -> resolved_at i <> None.

Definition resolved_iff_done (i : issue) : Prop :=
  resolved_at i <> None <-> status i = work_done.

(** The effect of one status write on a row: [status] and, for
    [work_done], [resolved_at] change together; nothing else changes. *)
Definition status_written (st : issue_status) (now : timestamp) (i i' : issue)
  : Prop :=
  i' = mkIssue (issue_id i) (reporter_id i) (department_id i) (room_no i)
               (item_id i) (title i) (description i) (photo_url i)
               st (is_priority i) (reported_at i) (deadline i)
               (match st with
                | work_done => Some now
                | _ => resolved_at i
                end).

(** Who may set the status of an issue: an HoD whose own department is the
    department of the issue, or a principal. *)
Definition may_set_status (d : Db) (s : Session) (i : issue) : Prop :=
  exists uid,
    s = Some uid /\
    (has_role d uid principal = true \/
     (has_role d uid hod = true /\
      exists p, In p (profiles d) /\ profile_id p = uid /\
                profile_department_id p = Some (department_id i))).

(** The toasts that report success. *)
Definition status_updated : toast :=
  Toast "Status Updated" "Issue status has been updated successfully." false.

Definition issue_deleted : toast :=
  Toast "Issue deleted" "Your report has been removed." false.

Definition issue_reported : toast :=
  Toast "Issue reported" "Your issue has been successfully reported." false.

(** The two permission failures of the delete handler. *)
Definition not_the_reporter : exn :=
  JsError "You are not the reporter of this issue".

Definition delete_did_not_apply : exn :=
  JsError "Delete did not apply due to permissions".

(** The object the status handler passes to [.update(...)] at time [now]. *)
Definition status_patch (st : issue_status) (now : timestamp) : issue_patch :=
  mkPatch st (if issue_status_eqb st work_done then Some now else None).

(** The card the feed builds for an issue when its two requests arrive. *)
Definition card (d : Db) (u : uuid) (i : issue) : Index.feed_item :=
  Index.mkFeedItem i
    (upvote_count d (issue_id i))
    (match select_own_upvote (Some u) (issue_id i) u d with
     | inr _ => true
     | inl _ => false
     end).

(** The feed of a database when every request arrives. *)
Definition feed_now (d : Db) (u : uuid) (mode : Index.sort_mode)
  : list Index.feed_item :=
  match mode with
  | Index.upvotes_mode =>
      Array_sort Index.by_upvoteCount (map (card d u) (issues d))
  | Index.recent_mode =>
      map (card d u)
          (order_by (fun a b => reported_at b <=? reported_at a) (issues d))
  end.

(** The database after a toggle of the upvote of user [u] for issue [id]:
    the row of the pair deleted when there is one, inserted otherwise. *)
Definition toggled_db (d : Db) (id u : uuid) : Db :=
  if has_upvoted d id u
  then set_upvotes (filter (fun x => negb (same_upvote id u x)) (upvotes d)) d
  else set_upvotes (upvotes d ++ [mkUpvote id u]) d.

(** Descending order of a feed by upvote count, of rows by report time. *)
Definition upvotes_desc (a b : Index.feed_item) : Prop :=
  (Index.upvoteCount b <= Index.upvoteCount a)%nat.

Definition recent_first (a b : issue) : Prop :=
  reported_at b <= reported_at a.

End Observations.
Export Observations.

(** ** Example data *)

Module Example.

Definition an_issue (id reporter dept : uuid) (st : issue_status)
    (at_ : timestamp) (resolved : option timestamp) : issue :=
  mkIssue id reporter dept "B216" "FAN-01" "Fan not working" None None
          st false at_ (at_ + thirty_days) resolved.

(** The default departments; a student, the HoD of Computer Science, the
    principal, and a user who is both HoD (of Mechanical) and principal;
    three issues and three upvotes. *)
Definition college : Db :=
  mkDb (default_departments ["d-cs"; "d-ec"; "d-me"; "d-ce"; "d-ee"])
       [ mkProfile "alice" "STU001" "Alice" "alice@college" (Some "d-cs");
         mkProfile "bob" "HOD001" "Bob" "bob@college" (Some "d-cs");
         mkProfile "carol" "PRIN001" "Carol" "carol@college" None;
         mkProfile "dave" "HOD002" "Dave" "dave@college" (Some "d-me") ]
       [ mkUserRole "alice" student; mkUserRole "bob" hod;
         mkUserRole "carol" principal;
         mkUserRole "dave" hod; mkUserRole "dave" principal ]
       [ an_issue "i1" "alice" "d-cs" pending 1000 None;
         an_issue "i2" "alice" "d-me" work_done 2000 (Some 2500);
         an_issue "i3" "bob" "d-cs" pending 1500 None ]
       [ mkUpvote "i1" "bob"; mkUpvote "i2" "alice"; mkUpvote "i2" "bob" ]
       true.

Definition world : World :=
  mkWorld college [] "https://project.supabase.co/storage/v1" 5000 [].

(** The same college before the second migration. *)
Definition world_without_delete_policy : World :=
  set_db (mkDb (departments college) (profiles college) (user_roles college)
               (issues college) (upvotes college) false) world.

Definition i1 : issue := an_issue "i1" "alice" "d-cs" pending 1000 None.
Definition i2 : issue := an_issue "i2" "alice" "d-me" work_done 2000 (Some 2500).

(** Four cards with 3, 1, 5 and 3 upvotes, in the order they arrived. *)
Definition cards : list Index.feed_item :=
  [ Index.mkFeedItem (an_issue "a" "alice" "d-cs" pending 10 None) 3 false;
    Index.mkFeedItem (an_issue "b" "alice" "d-cs" pending 20 None) 1 false;
    Index.mkFeedItem (an_issue "c" "alice" "d-cs" pending 30 None) 5 false;
    Index.mkFeedItem (an_issue "d" "alice" "d-cs" pending 40 None) 3 false ].

End Example.

(** ** More of the backend *)

Module BackendMore.

(** [.maybeSingle()]: no row is fine, several rows are the error PGRST116. *)
Definition maybeSingle {A} (rows : list A) : pg_error + option A :=
  match rows with
  | [] => inr None
  | [r] => inr (Some r)
  | _ => inl NoSingleRow
  end.

(** [SELECT id FROM upvotes WHERE issue_id = $1 AND user_id = $2],
    [.maybeSingle()] *)
Definition select_own_upvote_maybe (s : Session) (i u : uuid) (d : Db)
  : pg_error + option upvote :=
  maybeSingle (filter (same_upvote i u) (visible s (upvotes d))).

(** [SELECT * FROM issues WHERE reporter_id = $1], with
    [ORDER BY reported_at DESC] when asked. *)
Definition select_issues_of_reporter (s : Session) (reporter : uuid)
    (recent_first : bool) (d : Db) : pg_error + list issue :=
  let rows := filter (fun i => String.eqb (reporter_id i) reporter)
                     (visible s (issues d)) in
  inr (if recent_first
       then order_by (fun a b => reported_at b <=? reported_at a) rows
       else rows).

(** [SELECT department_id FROM profiles WHERE id = $1], [.single()];
    profiles are readable by every authenticated user. *)
Definition select_profile_department (s : Session) (u : uuid) (d : Db)
  : pg_error + option uuid :=
  single (map profile_department_id
              (filter (fun p => String.eqb (profile_id p) u)
                      (visible s (profiles d)))).

(** [string_to_array(name, sep)]: the parts of a string between the
    separators. *)
Fixpoint split_on (sep : ascii) (acc name : string) : list string :=
  match name with
  | EmptyString => [acc]
  | String c rest =>
      if Ascii.eqb c sep
      then acc :: split_on sep EmptyString rest
      else split_on sep (acc ++ String c EmptyString) rest
  end.

(** [storage.foldername(name)]: the folders of an object key, that is its
    parts between slashes without the last one (the file name). *)
Definition storage_foldername (name : string) : list string :=
  removelast (split_on "/"%char EmptyString name).

(** "Users can update their own issue photos" and "Users can delete their
    own issue photos":
    [auth.uid()::text = (storage.foldername(name))[1]]; an object without a
    folder belongs to nobody. *)
Definition storage_owner (s : Session) (name : string) : bool :=
  match s, storage_foldername name with
  | Some uid, folder :: _ => String.eqb uid folder
  | _, _ => false
  end.

(** *** accounts *)

Definition set_profiles (l : list profile) (d : Db) : Db :=
  mkDb (departments d) l (user_roles d) (issues d) (upvotes d)
       (issues_delete_policy d).

(** A row of [auth.users] as the sign-up trigger reads it: [NEW.id],
    [NEW.email] and the two entries of [NEW.raw_user_meta_data] it takes
    with [->>]; an entry that is missing reads as NULL. *)
Record auth_user := mkAuthUser {
  au_id : uuid;
  au_email : option string;
  meta_college_id : option string;
  meta_full_name : option string
}.

(** [public.handle_new_user()], run AFTER INSERT ON auth.users:
    [INSERT INTO profiles (id, college_id, full_name, email)].  The three
    text columns are NOT NULL, [id] is the primary key, [college_id] is
    UNIQUE; [department_id] is not given and stays NULL.  The function is
    SECURITY DEFINER, so no policy applies. *)
Definition handle_new_user (NEW : auth_user) (d : Db) : (pg_error + unit) * Db :=
  match meta_college_id NEW, meta_full_name NEW, au_email NEW with
  | Some cid, Some name, Some mail =>
      if existsb (fun p => String.eqb (profile_id p) (au_id NEW)
                           || String.eqb (college_id p) cid)
                 (profiles d)
      then (inl UniqueViolation, d)
      else (inr tt,
            set_profiles (profiles d ++ [mkProfile (au_id NEW) cid name mail None])
                         d)
  | _, _, _ => (inl NotNullViolation, d)
  end.

(** "Users can update their own profile": [USING (auth.uid() = id)] *)
Definition profiles_update_using (s : Session) (p : profile) : bool :=
  match s with
  | Some uid => String.eqb uid (profile_id p)
  | None => false
  end.

(** [UPDATE profiles SET department_id = $2 WHERE id = $1] (the sign-up
    form, after the account is made) under the update policy: a row the
    policy does not accept is skipped without an error; the department of
    an updated row must exist (foreign key). *)
Definition update_profile_department (s : Session) (id dept : uuid) (d : Db)
  : (pg_error + unit) * Db :=
  let target p := String.eqb (profile_id p) id && profiles_update_using s p in
  if existsb target (profiles d)
     && negb (existsb (fun x => String.eqb (dept_id x) dept) (departments d))
  then (inl ForeignKeyViolation, d)
  else (inr tt,
        set_profiles
          (map (fun p => if target p
                         then mkProfile (profile_id p) (college_id p)
                                        (full_name p) (email p) (Some dept)
                         else p)
               (profiles d)) d).

End BackendMore.
Export BackendMore.

(** ** More of the pages *)

Local Open Scope handler_scope.

(** *** Profile.tsx: the list of the user's own reports *)

Module ProfilePage.

(** The callback of [data.map(async (issue) => ...)] of this page: the own
    upvote is read with [.maybeSingle()]. *)
Definition with_upvotes (u : uuid) (issue : issue) : Handler Index.feed_item :=
  c <- await (query (count_upvotes (Some u) (issue_id issue))) ;;
  v <- await (query (select_own_upvote_maybe (Some u) (issue_id issue) u)) ;;
  ret (Index.mkFeedItem issue
         (match c with inr n => n | inl _ => 0%nat end)
         (match v with inr (Some _) => true | _ => false end)).

(** [queryFn] of the ['my-issues', user?.id, sortBy] query. *)
Definition issues_queryFn (u : uuid) (sortBy : Index.sort_mode)
  : Handler (list Index.feed_item) :=
  r <- await (query (select_issues_of_reporter (Some u) u
                       (match sortBy with
                        | Index.recent_mode => true
                        | Index.upvotes_mode => false
                        end))) ;;
  data <- or_throw r ;;
  issuesWithUpvotes <- Promise_all_map (with_upvotes u) data ;;
  ret (match sortBy with
       | Index.upvotes_mode => Array_sort Index.by_upvoteCount issuesWithUpvotes
       | Index.recent_mode => issuesWithUpvotes
       end).

End ProfilePage.

(** *** HodDashboard.tsx: what the page lists *)

Module HodDashboardPage.

(** [queryFn] of the ['hod-profile', user?.id] query. *)
Definition profile_queryFn (u : uuid) : Handler (option uuid) :=
  r <- await (query (select_profile_department (Some u) u)) ;;
  or_throw r.

(** [queryFn] of the ['hod-issues', profile?.department_id] query. *)
Definition issues_queryFn (u : uuid) (department_id : uuid)
  : Handler (list issue) :=
  r <- await (query (select_issues (Some u) (Some department_id) true)) ;;
  or_throw r.

(** The issues the page lists once its effect and its queries have run: the
    role check, then the profile query ([enabled: !!user && hasHodRole]),
    then the issues query ([enabled: !!profile?.department_id]).  [None]
    when the page has no list. *)
Definition load (u : uuid) (w : World) : option (list issue) * World :=
  match HodDashboard.roleCheck u w with
  | ((true, _), w1) =>
      match profile_queryFn u w1 with
      | (inr (Some dept), w2) =>
          match issues_queryFn u dept w2 with
          | (inr l, w3) => (Some l, w3)
          | (inl _, w3) => (None, w3)
          end
      | (_, w2) => (None, w2)
      end
  | ((false, _), w1) => (None, w1)
  end.

(** [stats]: [issues?.length || 0] and the three status counts. *)
Record stats := mkStats {
  stats_total : nat;
  stats_pending : nat;
  stats_acknowledged : nat;
  stats_resolved : nat
}.

Definition count_where (p : issue -> bool) (issues : option (list issue)) : nat :=
  match issues with
  | Some l => List.length (filter p l)
  | None => 0%nat
  end.

Definition stats_of (issues : option (list issue)) : stats :=
  mkStats (count_where (fun _ => true) issues)
          (count_where (fun i => issue_status_eqb (status i) pending) issues)
          (count_where (fun i => issue_status_eqb (status i) acknowledged) issues)
          (count_where (fun i => issue_status_eqb (status i) work_done) issues).

End HodDashboardPage.

(** *** PrincipalDashboard.tsx: what the page shows *)

Module PrincipalDashboardPage.

(** The department list and the issue list once the role check and the two
    queries ([enabled: hasPrincipalRole]) have run. *)
Definition load (u : uuid) (selectedDepartment : option uuid) (w : World)
  : (option (list department) * option (list issue)) * World :=
  match PrincipalDashboard.roleCheck u w with
  | ((true, _), w1) =>
      let '(ds, w2) := PrincipalDashboard.departments_queryFn (Some u) w1 in
      let '(rows, w3) :=
        PrincipalDashboard.issues_queryFn (Some u) selectedDepartment w2 in
      ((match ds with inr l => Some l | inl _ => None end,
        match rows with inr l => Some l | inl _ => None end), w3)
  | ((false, _), w1) => ((None, None), w1)
  end.

(** [stats]: the four numbers of the HoD page and [priority]. *)
Record stats := mkStats {
  stats_total : nat;
  stats_pending : nat;
  stats_acknowledged : nat;
  stats_resolved : nat;
  stats_priority : nat
}.

Definition stats_of (issues : option (list issue)) : stats :=
  mkStats (HodDashboardPage.count_where (fun _ => true) issues)
          (HodDashboardPage.count_where
             (fun i => issue_status_eqb (status i) pending) issues)
          (HodDashboardPage.count_where
             (fun i => issue_status_eqb (status i) acknowledged) issues)
          (HodDashboardPage.count_where
             (fun i => issue_status_eqb (status i) work_done) issues)
          (HodDashboardPage.count_where is_priority issues).

End PrincipalDashboardPage.

(** *** Auth.tsx: the sign-up form *)

Module AuthPage.

(** The fields of the sign-up form that reach the backend. *)
Record signup_form := mkSignupForm {
  signupEmail : string;
  collegeId : string;
  fullName : string;
  signup_departmentId : string
}.

(** [supabase.auth.signUp({ email, password,
       options: { data: { college_id, full_name } } })],
    a request to the auth service.  When the service takes the request it
    inserts a row into [auth.users], with the id [new_id] it draws, the
    address, and the two entries as metadata; the insert runs the trigger
    [handle_new_user], and an error of the trigger is the error of the
    call (no account is made then).  The answer carries [data.user].
    What else makes the service refuse (an address that is registered, a
    weak password) is not in this repository: for the database such a
    refusal is a request that did not arrive, and the script [net] stands
    for both. *)
Definition auth_signUp (new_id : uuid) (f : signup_form) : Api (option uuid) :=
  request (on_db (fun d =>
    match handle_new_user
            (mkAuthUser new_id (Some (signupEmail f)) (Some (collegeId f))
                        (Some (fullName f))) d with
    | (inl e, d') => (inl e, d')
    | (inr _, d') => (inr (Some new_id), d')
    end)).

(** [handleSignup].  [session] is the session the client has once signUp
    has answered: that of the new user where the project signs a user in
    at once, none where it first asks to confirm the address (a setting of
    the project, not of the repository).  [data.user && departmentId]: an
    empty department is falsy. *)
Definition handleSignup (new_id : uuid) (session : Session) (f : signup_form)
  : World -> toast * World :=
  try_catch
    (r <- await (auth_signUp new_id f) ;;
     data_user <- or_throw r ;;
     match data_user with
     | Some user =>
         if String.eqb (signup_departmentId f) EmptyString
         then ret tt
         else profileError <-
                await (request (on_db (update_profile_department
                                         session user (signup_departmentId f)))) ;;
              or_throw profileError
     | None => ret tt
     end ;;;
     ret (Toast "Account created!" "You can now log in with your credentials."
                false))
    (fun error => ErrorToast "Signup failed" error).

End AuthPage.

Local Close Scope handler_scope.

(** ** The portal as a whole: its handlers as actions *)

Module Portal.

(** One call of a handler that writes to the backend, with the arguments
    the page gives it.  (The log-in form writes nothing to the tables.) *)
Inductive action :=
| ClickUpvote (s : Session) (issue : issue) (hasUpvoted : bool)
| SubmitIssue (s : Session) (new_id : uuid) (f : Index.form)
| DeleteIssue (user : Session) (issueId : uuid)
| ChangeStatus (s : Session) (issueId : uuid) (newStatus : issue_status)
| SignUp (new_id : uuid) (session : Session) (f : AuthPage.signup_form).

Definition step (a : action) (w : World) : World :=
  match a with
  | ClickUpvote s issue hasUpvoted =>
      snd (IssueCard.handleUpvote s issue hasUpvoted w)
  | SubmitIssue s new_id f => snd (Index.handleSubmitIssue s new_id f w)
  | DeleteIssue user issueId => snd (Profile.handleDeleteIssue user issueId w)
  | ChangeStatus s issueId newStatus =>
      snd (Dashboard.handleStatusChange s issueId newStatus w)
  | SignUp new_id session f => snd (AuthPage.handleSignup new_id session f w)
  end.

Definition run (l : list action) (w : World) : World :=
  fold_left (fun w a => step a w) l w.

End Portal.

(** ** More observations *)

Module Invariants.

(** [UNIQUE(user_id, role)] on [user_roles]. *)
Definition user_roles_unique (d : Db) : Prop :=
  forall u r,
    (List.length (filter (fun x => String.eqb (role_user_id x) u
                                   && app_role_eqb (role x) r)
                         (user_roles d)) <= 1)%nat.

(** The foreign keys of [upvotes] and of [issues]. *)
Definition upvotes_reference (d : Db) : Prop :=
  forall x, In x (upvotes d) ->
    (exists i, In i (issues d) /\ issue_id i = upvote_issue_id x) /\
    (exists p, In p (profiles d) /\ profile_id p = upvote_user_id x).

Definition issues_reference (d : Db) : Prop :=
  forall i, In i (issues d) ->
    (exists p, In p (profiles d) /\ profile_id p = reporter_id i) /\
    (exists x, In x (departments d) /\ dept_id x = department_id i).

(** The foreign key of [user_roles]. *)
Definition user_roles_reference (d : Db) : Prop :=
  forall r, In r (user_roles d) ->
    exists p, In p (profiles d) /\ profile_id p = role_user_id r.

(** The constraints of the schema on the two tables the handlers write. *)
Definition constraints (d : Db) : Prop :=
  issues_pkey d /\ upvotes_unique d /\ upvotes_reference d /\ issues_reference d.

(** Two versions of a row that differ at most in [status] and
    [resolved_at]. *)
Definition same_report (i i' : issue) : Prop :=
  issue_id i' = issue_id i /\ reporter_id i' = reporter_id i /\
  department_id i' = department_id i /\ room_no i' = room_no i /\
  item_id i' = item_id i /\ title i' = title i /\
  description i' = description i /\ photo_url i' = photo_url i /\
  is_priority i' = is_priority i /\ reported_at i' = reported_at i /\
  deadline i' = deadline i.

(** A later version of a row: the same report, a resolution time once set
    is still set, and "work_done implies resolved" is kept. *)
Definition later_version (i i' : issue) : Prop :=
  same_report i i' /\
  (resolved_at i <> None -> resolved_at i' <> None) /\
  (done_implies_resolved i -> done_implies_resolved i').

(** The row is the report that the action submitted: the action is a
    submission in a session of the row's reporter, with the row's id and
    the row's content. *)
Definition submitted_by (a : Portal.action) (i : issue) : Prop :=
  match a with
  | Portal.SubmitIssue s new_id f =>
      s = Some (reporter_id i) /\ issue_id i = new_id /\
      department_id i = Index.departmentId f /\ room_no i = Index.roomNo f /\
      item_id i = Index.itemId f /\ title i = Index.form_title f /\
      description i = Some (Index.form_description f) /\
      is_priority i = false /\ deadline i = reported_at i + thirty_days
  | _ => False
  end.

(** What ORDER BY promises of its answer: the rows, each once, with every
    row in front of the rows it has to come before; the order of rows with
    equal keys is left open. *)
Definition ordered_rows {A} (R : A -> A -> Prop) (rows answer : list A) : Prop :=
  Permutation rows answer /\ StronglySorted R answer.

(** The accounts of [d] are kept in [d']: the same departments, roles and
    state of the delete policy, and the profiles of [d], as they are,
    followed by profiles with other ids. *)
Definition accounts_kept (d d' : Db) : Prop :=
  departments d' = departments d /\ user_roles d' = user_roles d /\
  issues_delete_policy d' = issues_delete_policy d /\
  exists added,
    profiles d' = (profiles d ++ added)%list /\
    forall p q, In p (profiles d) -> In q added -> profile_id q <> profile_id p.

(** An action that is not a sign-up. *)
Definition no_signup (a : Portal.action) : Prop :=
  match a with
  | Portal.SignUp _ _ _ => False
  | _ => True
  end.

(** A card that does not overstate: its count is the number of upvote rows
    of its issue, or 0; it says "upvoted" only when the row of the user is
    there. *)
Definition card_sound (d : Db) (u : uuid) (item : Index.feed_item) : Prop :=
  (Index.upvoteCount item = upvote_count d (issue_id (Index.fi_issue item)) \/
   Index.upvoteCount item = 0%nat) /\
  (Index.hasUpvoted item = true ->
   has_upvoted d (issue_id (Index.fi_issue item)) u = true).

(** Handler code that leaves the photo bucket as it is. *)
Definition keeps_bucket {A} (c : Handler A) : Prop :=
  forall w, bucket (snd (c w)) = bucket w.

(** A string without the character [c]. *)
Fixpoint without (c : ascii) (s : string) : bool :=
  match s with
  | EmptyString => true
  | String a rest => negb (Ascii.eqb a c) && without c rest
  end.

End Invariants.
Export Invariants.

(** * Properties *)

(** ** Requests *)

Section Requests.

Context {A : Type}.

Lemma request_arrives (exec : World -> (pg_error + A) * World) w :
  net w = [] -> request exec w = exec w.
Proof. unfold request. intros ->. reflexivity. Qed.

Lemma query_arrives (f : Db -> pg_error + A) w :
  net w = [] -> query f w = (f (db w), w).
Proof. intros H. unfold query. rewrite request_arrives by exact H. reflexivity. Qed.

(** Where a request stands in the network script. *)
Lemma request_cases (exec : World -> (pg_error + A) * World) w :
  (exists msg rest, net w = Some msg :: rest /\
                    request exec w = (inl (FetchError msg), set_net rest w)) \/
  (exists w0, db w0 = db w /\ bucket w0 = bucket w /\ clock w0 = clock w /\
              storage_url w0 = storage_url w /\
              (forall msg rest, net w <> Some msg :: rest) /\
              request exec w = exec w0).
Proof.
  unfold request. destruct (net w) as [|[msg|] rest] eqn:E.
  - right. exists w. repeat split; congruence.
  - left. exists msg, rest. split; reflexivity.
  - right. exists (set_net rest w). repeat split; congruence.
Qed.

Lemma query_db (f : Db -> pg_error + A) w :
  db (snd (query f w)) = db w.
Proof.
  unfold query, request. destruct (net w) as [|[msg|] rest]; reflexivity.
Qed.

End Requests.

Lemma set_issues_same d : set_issues (issues d) d = d.
Proof. destruct d; reflexivity. Qed.

Lemma set_upvotes_same d : set_upvotes (upvotes d) d = d.
Proof. destruct d; reflexivity. Qed.

Lemma set_db_same w : set_db (db w) w = w.
Proof. destruct w; reflexivity. Qed.

Lemma filter_all {A} (f : A -> bool) l :
  (forall x, In x l -> f x = true) -> filter f l = l.
Proof.
  induction l as [|a l IH]; simpl; intros H; [reflexivity|].
  rewrite (H a (or_introl eq_refl)). f_equal. apply IH. intros x Hx. apply H. now right.
Qed.

Lemma map_id_on {A} (f : A -> A) l :
  (forall x, In x l -> f x = x) -> map f l = l.
Proof.
  induction l as [|a l IH]; simpl; intros H; [reflexivity|].
  rewrite (H a (or_introl eq_refl)). f_equal. apply IH. intros x Hx. apply H. now right.
Qed.

Lemma Forall2_map_self {A} (R : A -> A -> Prop) (f : A -> A) l :
  (forall x, In x l -> R x (f x)) -> Forall2 R l (map f l).
Proof.
  induction l as [|a l IH]; simpl; intros H; constructor.
  - apply H. now left.
  - apply IH. intros x Hx. apply H. now right.
Qed.

Lemma Forall2_Forall_r {A} (R : A -> A -> Prop) (P Q : A -> Prop) l l' :
  Forall2 R l l' -> Forall P l ->
  (forall x y, In x l -> P x -> R x y -> Q y) -> Forall Q l'.
Proof.
  induction 1 as [|x y l l' Hxy _ IH]; intros HP HQ; constructor.
  - inversion HP; subst. apply (HQ x y); [now left|assumption|assumption].
  - inversion HP; subst. apply IH; [assumption|].
    intros a b Ha. apply HQ. now right.
Qed.

(** ** Status changes (both dashboards) *)

Section StatusChange.

Variables (s : Session) (id : uuid) (st : issue_status).

Lemma update_policy_patched d p i :
  issues_update_policy d s (apply_patch p i) = issues_update_policy d s i.
Proof. destruct s; reflexivity. Qed.

(** The update never fails: rows outside the policies are skipped, and an
    updated row keeps its department, so it passes the policies again. *)
Lemma update_issues_answer d p :
  update_issues s id p d =
  (inr tt,
   set_issues
     (map (fun i => if String.eqb (issue_id i) id && issues_update_policy d s i
                    then apply_patch p i else i)
          (issues d)) d).
Proof.
  unfold update_issues.
  replace (forallb _ _) with true; [reflexivity|].
  symmetry. apply forallb_forall. intros i Hi.
  apply filter_In in Hi as [_ Hi]. rewrite update_policy_patched.
  now apply andb_prop in Hi as [_ Hi].
Qed.

Lemma update_policy_may_set_status d i :
  issues_update_policy d s i = true -> may_set_status d s i.
Proof.
  unfold issues_update_policy, may_set_status. destruct s as [uid|]; [|discriminate].
  intros H. exists uid. split; [reflexivity|].
  apply orb_prop in H as [H|H].
  - right. unfold hod_can_update in H. apply andb_prop in H as [Hr Hp].
    split; [exact Hr|].
    apply existsb_exists in Hp as (p & Hin & Hp).
    apply andb_prop in Hp as [Hid Hdep].
    exists p. split; [exact Hin|]. split; [now apply String.eqb_eq|].
    destruct (profile_department_id p) as [dep|]; [|discriminate].
    apply String.eqb_eq in Hdep. now subst.
  - left. exact H.
Qed.

Lemma may_set_status_update_policy d i :
  may_set_status d s i -> issues_update_policy d s i = true.
Proof.
  intros (uid & -> & [Hp|(Hh & p & Hin & Hid & Hdep)]); simpl.
  - unfold principal_can_update. rewrite Hp. apply orb_true_r.
  - unfold hod_can_update. rewrite Hh. simpl. apply orb_true_iff. left.
    apply existsb_exists. exists p. split; [exact Hin|].
    rewrite Hdep. subst uid. now rewrite !String.eqb_refl.
Qed.

Lemma apply_patch_written now i :
  status_written st now i (apply_patch (status_patch st now) i).
Proof. unfold status_written, apply_patch, status_patch. destruct st; reflexivity. Qed.

(** What one run of the handler does, by the fate of its request. *)
Lemma handleStatusChange_run w :
  (exists msg rest,
      net w = Some msg :: rest /\
      Dashboard.handleStatusChange s id st w =
      (ErrorToast "Update Failed" (Thrown (FetchError msg)), set_net rest w)) \/
  (exists n,
      (forall msg rest, net w <> Some msg :: rest) /\
      Dashboard.handleStatusChange s id st w =
      (status_updated,
       set_db (snd (update_issues s id (status_patch st (clock w)) (db w))) (set_net n w))).
Proof.
  unfold Dashboard.handleStatusChange, try_catch, bind, Date_now, await, request.
  fold (status_patch st (clock w)).
  destruct (net w) as [|[msg|] rest] eqn:E.
  - right. exists []. split; [congruence|].
    assert (set_net [] w = w) as -> by (destruct w; simpl in *; subst; reflexivity).
    unfold on_db. rewrite !update_issues_answer. reflexivity.
  - left. exists msg, rest. split; reflexivity.
  - right. exists rest. split; [congruence|].
    unfold on_db. rewrite !update_issues_answer. reflexivity.
Qed.

(** Row by row: a row is left as it is, or it is the issue [id], the actor
    may set its status, and it is rewritten by the one write. *)
Lemma handleStatusChange_rows w :
  Forall2 (fun i i' =>
             i' = i \/
             (issue_id i = id /\ may_set_status (db w) s i /\
              status_written st (clock w) i i'))
          (issues (db w))
          (issues (db (snd (Dashboard.handleStatusChange s id st w)))).
Proof.
  destruct (handleStatusChange_run w) as [(msg & rest & _ & ->)|(n & _ & ->)]; simpl.
  - rewrite <- (map_id (issues (db w))) at 2.
    apply Forall2_map_self. intros; now left.
  - rewrite update_issues_answer. simpl.
    apply Forall2_map_self. intros i _.
    destruct (String.eqb (issue_id i) id) eqn:Eid; simpl; [|now left].
    destruct (issues_update_policy (db w) s i) eqn:Epol; [|now left].
    right. split; [now apply String.eqb_eq|].
    split; [now apply update_policy_may_set_status|apply apply_patch_written].
Qed.

Lemma handleStatusChange_unauthorized w :
  (forall i, In i (issues (db w)) -> issue_id i = id ->
             ~ may_set_status (db w) s i) ->
  db (snd (Dashboard.handleStatusChange s id st w)) = db w.
Proof.
  intros Hno.
  destruct (handleStatusChange_run w) as [(msg & rest & _ & ->)|(n & _ & ->)]; simpl.
  - reflexivity.
  - rewrite update_issues_answer. simpl.
    rewrite map_id_on; [apply set_issues_same|].
    intros i Hi. destruct (String.eqb (issue_id i) id) eqn:Eid; simpl; [|reflexivity].
    destruct (issues_update_policy (db w) s i) eqn:Epol; [|reflexivity].
    exfalso. apply (Hno i Hi); [now apply String.eqb_eq|].
    now apply update_policy_may_set_status.
Qed.

End StatusChange.

Section StatusChangeClaims.

Variables (w : World) (s : Session) (id : uuid) (st : issue_status).

Lemma status_written_done_implies_resolved now i i' :
  status_written st now i i' -> done_implies_resolved i -> done_implies_resolved i'.
Proof.
  unfold status_written, done_implies_resolved. intros -> H. simpl.
  destruct st; intros E; try discriminate E. discriminate.
Qed.

(** C1 (as amended).  A status write of the dashboards rewrites a row in
    one piece: the new status and, when the new status is work_done,
    resolved_at = now; for another status resolved_at stays as it was.
    Hence "status = work_done implies resolved_at non-null" holds after
    every status change, and the full equivalence "resolved_at non-null iff
    status = work_done" holds after every status change that does not move
    an issue away from work_done. *)
Theorem C1_status_write_sets_resolved_at :
  Forall done_implies_resolved (issues (db w)) ->
  Forall2 (fun i i' => i' = i \/ status_written st (clock w) i i')
          (issues (db w))
          (issues (db (snd (Dashboard.handleStatusChange s id st w)))) /\
  Forall done_implies_resolved
         (issues (db (snd (Dashboard.handleStatusChange s id st w)))) /\
  (Forall resolved_iff_done (issues (db w)) ->
   (forall i, In i (issues (db w)) -> issue_id i = id ->
              status i = work_done -> st = work_done) ->
   Forall resolved_iff_done
          (issues (db (snd (Dashboard.handleStatusChange s id st w))))).
Proof.
  intros Hinv. pose proof (handleStatusChange_rows s id st w) as Hrows.
  split; [|split].
  - eapply Forall2_impl; [|exact Hrows]. simpl. intros a b [->|(_ & _ & H)]; auto.
  - eapply Forall2_Forall_r; [exact Hrows|exact Hinv|]. simpl.
    intros x y _ Hx [->|(_ & _ & H)]; [exact Hx|].
    eapply status_written_done_implies_resolved; eauto.
  - intros Hiff Hstay.
    assert (Hin : Forall (fun i => In i (issues (db w)) /\ resolved_iff_done i)
                         (issues (db w))).
    { apply Forall_forall. intros i Hi. split; [exact Hi|].
      now apply (proj1 (Forall_forall _ _) Hiff). }
    eapply Forall2_Forall_r; [exact Hrows|exact Hin|]. simpl.
    intros x y _ [Hx Hxi] [->|(Hid & _ & H)]; [exact Hxi|].
    unfold status_written in H. subst y. unfold resolved_iff_done in *. simpl.
    destruct st eqn:Est.
    + split; [|discriminate]. intros Hres. apply Hxi in Hres.
      now apply (Hstay x Hx Hid).
    + split; [|discriminate]. intros Hres. apply Hxi in Hres.
      now apply (Hstay x Hx Hid).
    + split; [reflexivity|discriminate].
Qed.

(** C2 (as amended).  A status update changes an issue only if the actor
    is an HoD whose own department is the department of the issue, or a
    principal, and for such an actor an update that reaches the backend
    does change it.  An update by any other actor changes nothing; the
    backend answers it without an error (the update policies filter rows,
    they do not reject the command). *)
Theorem C2_status_update_only_by_hod_or_principal :
  Forall2 (fun i i' => i' = i \/ (issue_id i = id /\ may_set_status (db w) s i))
          (issues (db w))
          (issues (db (snd (Dashboard.handleStatusChange s id st w)))) /\
  (forall i, In i (issues (db w)) -> issue_id i = id ->
             may_set_status (db w) s i ->
             (forall msg rest, net w <> Some msg :: rest) ->
             exists i',
               In i' (issues (db (snd (Dashboard.handleStatusChange s id st w)))) /\
               status_written st (clock w) i i') /\
  ((forall i, In i (issues (db w)) -> issue_id i = id ->
              ~ may_set_status (db w) s i) ->
   db (snd (Dashboard.handleStatusChange s id st w)) = db w /\
   forall p, update_issues s id p (db w) = (inr tt, db w)).
Proof.
  split; [|split].
  - pose proof (handleStatusChange_rows s id st w) as Hrows.
    eapply Forall2_impl; [|exact Hrows]. simpl. intros a b [->|(? & ? & _)]; auto.
  - intros i Hi Hid Hmay Hnet.
    destruct (handleStatusChange_run s id st w) as [(msg & rest & E & _)|(n & _ & ->)].
    + exfalso. exact (Hnet _ _ E).
    + simpl. rewrite update_issues_answer. simpl.
      eexists. split.
      * apply in_map_iff. exists i. split; [reflexivity|exact Hi].
      * simpl. subst id. rewrite String.eqb_refl.
        rewrite (may_set_status_update_policy s _ _ Hmay). simpl.
        apply apply_patch_written.
  - intros Hno. split; [now apply handleStatusChange_unauthorized|].
    intros p. rewrite update_issues_answer. f_equal.
    rewrite map_id_on; [apply set_issues_same|].
    intros i Hi. destruct (String.eqb (issue_id i) id) eqn:Eid; simpl; [|reflexivity].
    destruct (issues_update_policy (db w) s i) eqn:Epol; [|reflexivity].
    exfalso. apply (Hno i Hi); [now apply String.eqb_eq|].
    now apply update_policy_may_set_status.
Qed.

End StatusChangeClaims.

Lemma college_resolved_iff_done :
  Forall resolved_iff_done (issues (db Example.world)).
Proof.
  repeat (first [apply Forall_nil | apply Forall_cons]);
    unfold resolved_iff_done; simpl; split; intros; congruence.
Qed.

(** The principal moves the resolved issue i2 back to pending: the status
    changes, resolved_at stays, and the equivalence of C1 no longer holds. *)
Lemma C1_counterexample :
  Forall resolved_iff_done (issues (db Example.world)) /\
  ~ Forall resolved_iff_done
      (issues (db (snd (Dashboard.handleStatusChange (Some "carol") "i2" pending
                          Example.world)))).
Proof.
  split; [exact college_resolved_iff_done|].
  intros H. vm_compute in H.
  inversion H as [|? ? _ H1]; subst. inversion H1 as [|? ? [H2 _] _]; subst.
  simpl in H2. discriminate H2. discriminate.
Qed.

Lemma C1_witness :
  Forall done_implies_resolved
    (issues (db (snd (Dashboard.handleStatusChange (Some "carol") "i1" work_done
                        Example.world)))) /\
  Forall resolved_iff_done
    (issues (db (snd (Dashboard.handleStatusChange (Some "carol") "i1" work_done
                        Example.world)))).
Proof.
  destruct (C1_status_write_sets_resolved_at Example.world (Some "carol") "i1"
              work_done) as (_ & H1 & H2).
  - repeat (first [apply Forall_nil | apply Forall_cons]);
      unfold done_implies_resolved; simpl; intros; congruence.
  - split; [exact H1|]. apply H2.
    + exact college_resolved_iff_done.
    + reflexivity.
Defined.

Lemma bob_may_not_set_status_of_i2 i :
  In i (issues (db Example.world)) -> issue_id i = "i2" ->
  ~ may_set_status (db Example.world) (Some "bob") i.
Proof.
  intros [<-|[<-|[<-|[]]]] Hid H; try discriminate Hid.
  apply may_set_status_update_policy in H. discriminate H.
Qed.

(** Bob is the HoD of Computer Science; i2 is an issue of Mechanical.  His
    status update of i2 writes nothing, and the handler shows the success
    toast, not a permission failure. *)
Lemma C2_counterexample :
  In Example.i2 (issues (db Example.world)) /\
  ~ may_set_status (db Example.world) (Some "bob") Example.i2 /\
  Dashboard.handleStatusChange (Some "bob") "i2" acknowledged Example.world =
  (status_updated, Example.world).
Proof.
  assert (Hin : In Example.i2 (issues (db Example.world)))
    by (right; left; reflexivity).
  split; [exact Hin|]. split; [|reflexivity].
  now apply bob_may_not_set_status_of_i2.
Qed.

Lemma C2_witness :
  db (snd (Dashboard.handleStatusChange (Some "bob") "i2" acknowledged
             Example.world)) = db Example.world.
Proof.
  apply (C2_status_update_only_by_hod_or_principal
           Example.world (Some "bob") "i2" acknowledged).
  exact bob_may_not_set_status_of_i2.
Defined.

(** ** Sorting *)

Section StableSort.

Context {A : Type} (before : A -> A -> bool).

Lemma stable_insert_perm x l : Permutation (x :: l) (stable_insert before x l).
Proof.
  induction l as [|y l IH]; simpl; [reflexivity|].
  destruct (before x y); [reflexivity|].
  rewrite perm_swap. now constructor.
Qed.

Lemma stable_sort_perm l : Permutation l (stable_sort before l).
Proof.
  induction l as [|x l IH]; simpl; [reflexivity|].
  rewrite <- stable_insert_perm. now constructor.
Qed.

Lemma stable_sort_In x l : In x (stable_sort before l) <-> In x l.
Proof.
  split; apply Permutation_in; [symmetry|]; apply stable_sort_perm.
Qed.

Lemma stable_sort_ext before' l :
  (forall a b, before a b = before' a b) ->
  stable_sort before l = stable_sort before' l.
Proof.
  intros H. induction l as [|x l IH]; simpl; [reflexivity|].
  rewrite IH. generalize (stable_sort before' l). intros m.
  induction m as [|y m IHm]; simpl; [reflexivity|].
  now rewrite H, IHm.
Qed.

(** Sortedness, for an ordering that is total and transitive. *)
Variable R : A -> A -> Prop.
Hypothesis before_R : forall a b, before a b = true -> R a b.
Hypothesis not_before_R : forall a b, before a b = false -> R b a.
Hypothesis R_trans : forall a b c, R a b -> R b c -> R a c.

Lemma stable_insert_sorted x l :
  StronglySorted R l -> StronglySorted R (stable_insert before x l).
Proof.
  induction 1 as [|y l Hl IH Hy]; simpl.
  - repeat constructor.
  - destruct (before x y) eqn:E.
    + constructor; [now constructor|].
      constructor; [now apply before_R|].
      eapply Forall_impl; [|exact Hy]. intros z Hz.
      apply (R_trans x y z); [now apply before_R|exact Hz].
    + constructor; [exact IH|].
      apply Forall_forall. intros z Hz.
      apply (Permutation_in _ (Permutation_sym (stable_insert_perm x l))) in Hz.
      destruct Hz as [<-|Hz]; [now apply not_before_R|].
      now apply (proj1 (Forall_forall _ _) Hy).
Qed.

Lemma stable_sort_sorted l : StronglySorted R (stable_sort before l).
Proof.
  induction l as [|x l IH]; simpl; [constructor|now apply stable_insert_sorted].
Qed.

(** Stability: the elements of one class of ties keep their order.  The
    class is given by a test [same] that separates any two elements the
    sort would swap. *)
Variable same : A -> bool.
Hypothesis swap_separates :
  forall x y, before x y = false -> same x = true -> same y = false.

Lemma stable_insert_filter x l :
  filter same (stable_insert before x l) = filter same (x :: l).
Proof.
  induction l as [|y l IH]; simpl; [reflexivity|].
  destruct (before x y) eqn:E; [reflexivity|].
  simpl in *. rewrite IH.
  destruct (same x) eqn:Ex; [|reflexivity].
  now rewrite (swap_separates x y E Ex).
Qed.

Lemma stable_sort_filter l :
  filter same (stable_sort before l) = filter same l.
Proof.
  induction l as [|x l IH]; simpl; [reflexivity|].
  rewrite stable_insert_filter. simpl. now rewrite IH.
Qed.

(** A list already in order is left as it is. *)
Lemma stable_insert_head x l :
  Forall (R x) l -> (forall y, R x y -> before x y = true) ->
  stable_insert before x l = x :: l.
Proof.
  intros H Hb. destruct l as [|y l]; simpl; [reflexivity|].
  inversion H as [|? ? Hxy _]; subst. now rewrite (Hb y Hxy).
Qed.

Lemma stable_sort_sorted_id l :
  (forall x y, R x y -> before x y = true) ->
  StronglySorted R l -> stable_sort before l = l.
Proof.
  intros Hb. induction 1 as [|x l Hl IH Hx]; simpl; [reflexivity|].
  rewrite IH. apply stable_insert_head; [exact Hx|intros y; apply Hb].
Qed.

End StableSort.

(** ** Upvotes: the table *)

Section UpvoteRows.

Variables (i u : uuid).

Lemma same_upvote_issue x :
  same_upvote i u x = true -> String.eqb (upvote_issue_id x) i = true.
Proof. unfold same_upvote. intros H. now apply andb_prop in H as [H _]. Qed.

Lemma same_upvote_own x :
  same_upvote i u x = true -> upvotes_own (Some u) x = true.
Proof. unfold same_upvote. intros H. now apply andb_prop in H as [_ H]. Qed.

(** The rows of the issue are the row of the user, if any, and the rest. *)
Lemma count_split (l : list upvote) :
  List.length (filter (fun x => String.eqb (upvote_issue_id x) i) l) =
  (List.length (filter (same_upvote i u) l) +
   List.length (filter (fun x => String.eqb (upvote_issue_id x) i)
                       (filter (fun x => negb (same_upvote i u x)) l)))%nat.
Proof.
  induction l as [|x l IH]; simpl; [reflexivity|].
  destruct (same_upvote i u x) eqn:E; simpl.
  - rewrite (same_upvote_issue x E). simpl. now rewrite IH.
  - destruct (String.eqb (upvote_issue_id x) i); simpl; rewrite IH; lia.
Qed.

Lemma filter_same_removed (l : list upvote) :
  filter (same_upvote i u) (filter (fun x => negb (same_upvote i u x)) l) = [].
Proof.
  induction l as [|x l IH]; simpl; [reflexivity|].
  destruct (same_upvote i u x) eqn:E; simpl; [exact IH|now rewrite E].
Qed.

Lemma delete_filter_own (l : list upvote) :
  filter (fun x => negb (same_upvote i u x && upvotes_own (Some u) x)) l =
  filter (fun x => negb (same_upvote i u x)) l.
Proof.
  apply filter_ext. intros x. destruct (same_upvote i u x) eqn:E; [|reflexivity].
  now rewrite (same_upvote_own x E).
Qed.

Lemma existsb_filter_nil {A} (f : A -> bool) (l : list A) :
  existsb f l = false <-> filter f l = [].
Proof.
  induction l as [|x l IH]; simpl; [tauto|].
  destruct (f x); simpl; [split; discriminate|exact IH].
Qed.

Lemma filter_length_le {A} (f g : A -> bool) (l : list A) :
  (List.length (filter f (filter g l)) <= List.length (filter f l))%nat.
Proof.
  induction l as [|x l IH]; simpl; [lia|].
  destruct (g x); simpl; destruct (f x); simpl; lia.
Qed.

End UpvoteRows.

Lemma has_upvoted_single d i u :
  upvotes_unique d ->
  (match select_own_upvote (Some u) i u d with inr _ => true | inl _ => false end)
  = has_upvoted d i u.
Proof.
  intros Hu. specialize (Hu i u). unfold select_own_upvote, has_upvoted, visible.
  destruct (existsb (same_upvote i u) (upvotes d)) eqn:E.
  - destruct (filter (same_upvote i u) (upvotes d)) as [|x [|y l]] eqn:F.
    + apply existsb_filter_nil in F. congruence.
    + reflexivity.
    + simpl in Hu. lia.
  - apply existsb_filter_nil in E. now rewrite E.
Qed.

Lemma has_upvoted_count d i u :
  upvotes_unique d ->
  List.length (filter (same_upvote i u) (upvotes d)) =
  if has_upvoted d i u then 1%nat else 0%nat.
Proof.
  intros Hu. specialize (Hu i u). unfold has_upvoted.
  destruct (existsb (same_upvote i u) (upvotes d)) eqn:E.
  - destruct (filter (same_upvote i u) (upvotes d)) as [|x [|y l]] eqn:F.
    + apply existsb_filter_nil in F. congruence.
    + reflexivity.
    + simpl in Hu. lia.
  - apply existsb_filter_nil in E. now rewrite E.
Qed.

(** The two writes of the upvote handler keep the unique constraint. *)
Lemma delete_upvotes_unique s i u d :
  upvotes_unique d -> upvotes_unique (snd (delete_upvotes s i u d)).
Proof.
  intros Hu i' u'. simpl. destruct d; simpl in *.
  eapply Nat.le_trans; [apply filter_length_le|apply Hu].
Qed.

Lemma insert_upvote_unique s v d :
  upvotes_unique d -> upvotes_unique (snd (insert_upvote s v d)).
Proof.
  intros Hu. unfold insert_upvote.
  destruct (negb (upvotes_own s v)); [exact Hu|].
  destruct (existsb _ (upvotes d)) eqn:E; [exact Hu|].
  destruct (negb _); [exact Hu|].
  intros i' u'. pose proof (Hu i' u') as Hu'. destruct d; simpl in *.
  rewrite filter_app, length_app. simpl.
  destruct (same_upvote i' u' v) eqn:Ev; simpl; [|lia].
  unfold same_upvote in Ev. apply andb_prop in Ev as [Ei Eu].
  apply String.eqb_eq in Ei, Eu. subst i' u'.
  apply existsb_filter_nil in E. rewrite E. simpl. lia.
Qed.

(** A second row for a pair is refused, whoever asks. *)
Lemma insert_upvote_duplicate s v d :
  upvotes_own s v = true ->
  has_upvoted d (upvote_issue_id v) (upvote_user_id v) = true ->
  insert_upvote s v d = (inl UniqueViolation, d).
Proof.
  unfold insert_upvote, has_upvoted. intros -> ->. reflexivity.
Qed.

(** ** The feed when every request arrives *)

Section FeedArrives.

Variables (u : uuid) (w : World).
Hypothesis Hnet : net w = [].

Lemma auth_getUser_arrives s : auth_getUser s w = (inr s, w).
Proof.
  unfold auth_getUser, bind, await. now rewrite request_arrives.
Qed.

Lemma with_upvotes_arrives i :
  Index.with_upvotes u i w = (inr (card (db w) u i), w).
Proof.
  unfold Index.with_upvotes, bind, await.
  rewrite !query_arrives by exact Hnet. reflexivity.
Qed.

Lemma Promise_all_map_arrives l :
  Promise_all_map (Index.with_upvotes u) l w = (inr (map (card (db w) u) l), w).
Proof.
  induction l as [|i l IH]; simpl; [reflexivity|].
  unfold bind at 1. rewrite with_upvotes_arrives.
  unfold bind at 1. rewrite IH. reflexivity.
Qed.

Lemma issues_queryFn_arrives mode :
  Index.issues_queryFn u mode w = (inr (feed_now (db w) u mode), w).
Proof.
  unfold Index.issues_queryFn, Index.feed_of_rows, bind, await.
  rewrite query_arrives by exact Hnet. simpl.
  rewrite Promise_all_map_arrives. destruct mode; reflexivity.
Qed.

Lemma refetch_arrives p :
  Index.refetch u p w = (Index.mkPage (Index.sortBy p) (feed_now (db w) u (Index.sortBy p)), w).
Proof.
  unfold Index.refetch. now rewrite issues_queryFn_arrives.
Qed.

End FeedArrives.

Lemma feed_now_In d u mode x :
  In x (feed_now d u mode) <-> exists i, In i (issues d) /\ x = card d u i.
Proof.
  destruct mode; simpl.
  - unfold Array_sort. rewrite stable_sort_In, in_map_iff.
    split; intros (i & H1 & H2); exists i; auto.
  - rewrite in_map_iff. unfold order_by. split.
    + intros (i & H1 & H2). apply stable_sort_In in H2. eauto.
    + intros (i & H1 & H2). exists i. split; [auto|now apply stable_sort_In].
Qed.

(** The card of an issue on a page that shows the current feed. *)
Lemma card_of_feed_now d u mode id :
  (exists i, In i (issues d) /\ issue_id i = id) ->
  exists i, In i (issues d) /\ issue_id i = id /\
            Index.card_of id (Index.mkPage mode (feed_now d u mode)) = Some (card d u i).
Proof.
  intros (i & Hi & Hid). unfold Index.card_of. simpl.
  destruct (find _ (feed_now d u mode)) as [x|] eqn:F.
  - apply find_some in F as [Hx Hxid].
    apply feed_now_In in Hx as (j & Hj & ->). simpl in Hxid.
    exists j. repeat split; [exact Hj|now apply String.eqb_eq].
  - assert (Hin : In (card d u i) (feed_now d u mode)) by (apply feed_now_In; eauto).
    pose proof (find_none _ _ F _ Hin) as H. simpl in H.
    rewrite Hid, String.eqb_refl in H. discriminate H.
Qed.

(** ** One click on the upvote button *)

Section UpvoteClick.

Variables (u id : uuid) (w : World) (p : Index.page).
Hypothesis Hnet : net w = [].
Hypothesis Hunique : upvotes_unique (db w).
Hypothesis Hissue : exists i, In i (issues (db w)) /\ issue_id i = id.
Hypothesis Hprofile : exists x, In x (profiles (db w)) /\ profile_id x = u.
Hypothesis Hshown : Index.issues_queryFn u (Index.sortBy p) w = (inr (Index.feed p), w).

Lemma shown_feed : p = Index.mkPage (Index.sortBy p) (feed_now (db w) u (Index.sortBy p)).
Proof.
  rewrite issues_queryFn_arrives in Hshown by exact Hnet.
  destruct p; simpl in *. congruence.
Qed.

Lemma insert_upvote_new :
  has_upvoted (db w) id u = false ->
  insert_upvote (Some u) (mkUpvote id u) (db w) =
  (inr tt, set_upvotes (upvotes (db w) ++ [mkUpvote id u]) (db w)).
Proof.
  intros Hno. unfold insert_upvote, upvotes_own. simpl.
  rewrite String.eqb_refl. simpl.
  unfold has_upvoted in Hno. rewrite Hno.
  destruct Hissue as (i & Hi & Hid). destruct Hprofile as (x & Hx & Hxid).
  assert (E1 : existsb (fun i0 => String.eqb (issue_id i0) id) (issues (db w)) = true).
  { apply existsb_exists. exists i. split; [exact Hi|now apply String.eqb_eq]. }
  assert (E2 : existsb (fun x0 => String.eqb (profile_id x0) u) (profiles (db w)) = true).
  { apply existsb_exists. exists x. split; [exact Hx|now apply String.eqb_eq]. }
  now rewrite E1, E2.
Qed.

Lemma toggle_upvote_step :
  exists i,
    In i (issues (db w)) /\ issue_id i = id /\
    Index.card_of id p = Some (card (db w) u i) /\
    Index.hasUpvoted (card (db w) u i) = has_upvoted (db w) id u /\
    Index.upvoteCount (card (db w) u i) = upvote_count (db w) id /\
    Index.toggle_upvote u id p w =
    ((None, true), set_db (toggled_db (db w) id u) w).
Proof.
  destruct (card_of_feed_now (db w) u (Index.sortBy p) id Hissue) as (i & Hi & Hid & Hcard).
  rewrite <- shown_feed in Hcard.
  exists i. split; [exact Hi|]. split; [exact Hid|]. split; [exact Hcard|].
  assert (Hhas : Index.hasUpvoted (card (db w) u i) = has_upvoted (db w) id u).
  { simpl. rewrite Hid. now apply has_upvoted_single. }
  split; [exact Hhas|]. split; [simpl; now rewrite Hid|].
  unfold Index.toggle_upvote. rewrite Hcard.
  unfold Index.click_upvote, IssueCard.handleUpvote, IssueCard.handleUpvote_try,
    try_catch.
  unfold bind at 1. unfold bind at 1.
  rewrite auth_getUser_arrives by exact Hnet.
  rewrite Hhas. change (issue_id (Index.fi_issue (card (db w) u i))) with (issue_id i).
  rewrite Hid. unfold toggled_db.
  destruct (has_upvoted (db w) id u) eqn:E.
  - unfold bind, await. rewrite request_arrives by exact Hnet.
    unfold on_db, delete_upvotes. simpl.
    rewrite delete_filter_own. reflexivity.
  - unfold bind, await. rewrite request_arrives by exact Hnet.
    unfold on_db. rewrite (insert_upvote_new E). reflexivity.
Qed.

(** The same card clicked again before the page has changed: the click
    repeats its command on the database the first click left. *)
Lemma toggle_upvote_again :
  exists w',
    Index.toggle_upvote u id p (set_db (toggled_db (db w) id u) w) =
    ((if has_upvoted (db w) id u
      then (None, true)
      else (Some (ErrorToast "Error" (Thrown UniqueViolation)), false)), w') /\
    db w' = toggled_db (db w) id u.
Proof.
  destruct (card_of_feed_now (db w) u (Index.sortBy p) id Hissue) as (i & Hi & Hid & Hcard).
  rewrite <- shown_feed in Hcard.
  assert (Hhas : Index.hasUpvoted (card (db w) u i) = has_upvoted (db w) id u).
  { simpl. rewrite Hid. now apply has_upvoted_single. }
  assert (Hnet1 : net (set_db (toggled_db (db w) id u) w) = []) by exact Hnet.
  unfold Index.toggle_upvote. rewrite Hcard.
  unfold Index.click_upvote, IssueCard.handleUpvote, IssueCard.handleUpvote_try,
    try_catch.
  unfold bind at 1. unfold bind at 1.
  rewrite auth_getUser_arrives by exact Hnet1.
  rewrite Hhas. change (issue_id (Index.fi_issue (card (db w) u i))) with (issue_id i).
  rewrite Hid.
  destruct (has_upvoted (db w) id u) eqn:E.
  - unfold bind, await. rewrite request_arrives by exact Hnet1.
    unfold on_db, delete_upvotes. simpl.
    rewrite delete_filter_own. eexists. split; [reflexivity|].
    unfold toggled_db. rewrite E. simpl.
    destruct (db w) as [ds ps rs is_ us pol]. unfold set_upvotes. simpl. f_equal.
    clear. induction us as [|x us IH]; simpl; [reflexivity|].
    destruct (negb (same_upvote id u x)) eqn:Ex; simpl; [|exact IH].
    rewrite Ex. now f_equal.
  - unfold bind, await. rewrite request_arrives by exact Hnet1.
    unfold on_db.
    rewrite (insert_upvote_duplicate (Some u) (mkUpvote id u)
               (db (set_db (toggled_db (db w) id u) w))).
    + eexists. split; reflexivity.
    + simpl. apply String.eqb_refl.
    + simpl. unfold toggled_db. rewrite E. unfold has_upvoted. simpl.
      rewrite existsb_app. simpl. unfold same_upvote. simpl.
      rewrite !String.eqb_refl. apply orb_true_r.
Qed.

End UpvoteClick.

(** ** The database after a toggle *)

Section Toggled.

Variables (d : Db) (id u : uuid).

Lemma toggled_has_upvoted :
  has_upvoted (toggled_db d id u) id u = negb (has_upvoted d id u).
Proof.
  unfold toggled_db. destruct (has_upvoted d id u) eqn:E; unfold has_upvoted in *.
  - destruct d; simpl in *. apply existsb_filter_nil. apply filter_same_removed.
  - destruct d; simpl in *. rewrite existsb_app, E. simpl.
    unfold same_upvote. simpl. now rewrite !String.eqb_refl.
Qed.

Lemma toggled_other_tables :
  issues (toggled_db d id u) = issues d /\ profiles (toggled_db d id u) = profiles d.
Proof.
  unfold toggled_db. destruct (has_upvoted d id u); destruct d; split; reflexivity.
Qed.

Hypothesis Hunique : upvotes_unique d.

Lemma toggled_upvote_count :
  upvote_count (toggled_db d id u) id =
  if has_upvoted d id u
  then (upvote_count d id - 1)%nat
  else (upvote_count d id + 1)%nat.
Proof using Hunique.
  pose proof (has_upvoted_count d id u Hunique) as Hn.
  pose proof (count_split id u (upvotes d)) as Hs.
  unfold toggled_db, upvote_count.
  destruct (has_upvoted d id u) eqn:E; destruct d; simpl in *.
  - lia.
  - rewrite filter_app, length_app. simpl. now rewrite String.eqb_refl.
Qed.

Lemma toggled_count_positive :
  has_upvoted d id u = true -> (1 <= upvote_count d id)%nat.
Proof using Hunique.
  intros E. pose proof (has_upvoted_count d id u Hunique) as Hn.
  pose proof (count_split id u (upvotes d)) as Hs.
  rewrite E in Hn. unfold upvote_count. lia.
Qed.

Lemma toggled_unique : upvotes_unique (toggled_db d id u).
Proof using Hunique.
  unfold toggled_db. destruct (has_upvoted d id u) eqn:E; intros i' u'.
  - pose proof (Hunique i' u') as H. destruct d; simpl in *.
    eapply Nat.le_trans; [apply filter_length_le|exact H].
  - pose proof (Hunique i' u') as H. unfold has_upvoted in E.
    apply existsb_filter_nil in E. destruct d; simpl in *.
    rewrite filter_app, length_app. simpl.
    destruct (same_upvote i' u' (mkUpvote id u)) eqn:Ev; simpl; [|lia].
    unfold same_upvote in Ev. simpl in Ev. apply andb_prop in Ev as [Ei Eu].
    apply String.eqb_eq in Ei, Eu. subst i' u'. rewrite E. simpl. lia.
Qed.

End Toggled.

(** A check of the unique constraint that computes. *)
Lemma upvotes_unique_check d :
  forallb (fun x => (List.length (filter (same_upvote (upvote_issue_id x)
                                                      (upvote_user_id x))
                                         (upvotes d)) <=? 1)%nat)
          (upvotes d) = true ->
  upvotes_unique d.
Proof.
  intros H i u.
  destruct (filter (same_upvote i u) (upvotes d)) as [|x l] eqn:F; [simpl; lia|].
  assert (Hx : In x (filter (same_upvote i u) (upvotes d))) by (rewrite F; now left).
  apply filter_In in Hx as [Hin Hsame].
  unfold same_upvote in Hsame. apply andb_prop in Hsame as [Hi Hu].
  apply String.eqb_eq in Hi, Hu. subst i u.
  rewrite <- F. apply Nat.leb_le.
  exact (proj1 (forallb_forall _ _) H x Hin).
Qed.


Lemma college_upvotes_unique : upvotes_unique (db Example.world).
Proof. apply upvotes_unique_check. reflexivity. Qed.



(** ** The upvote handler under any network *)

Section HandleUpvote.

Variables (s : Session) (i : issue) (w : World).

(** What a run can have done to the database. *)
Lemma handleUpvote_db b :
  let d' := db (snd (IssueCard.handleUpvote s i b w)) in
  d' = db w \/
  (exists uid, d' = snd (delete_upvotes s (issue_id i) uid (db w))) \/
  (exists uid, d' = snd (insert_upvote s (mkUpvote (issue_id i) uid) (db w))).
Proof.
  unfold IssueCard.handleUpvote, IssueCard.handleUpvote_try, try_catch,
    auth_getUser, or_throw, bind, await, request, on_db, throw, ret.
  destruct s as [uid|].
  - destruct (insert_upvote (Some uid) (mkUpvote (issue_id i) uid) (db w))
      as [[e|[]] d'] eqn:F;
    destruct (net w) as [|[m|] [|[m'|] rest]] eqn:E; simpl; rewrite ?E; simpl;
      try (now left);
      destruct b; simpl; rewrite ?E, ?F; simpl; try (now left);
      try (right; left; exists uid; reflexivity);
      right; right; exists uid; rewrite F; reflexivity.
  - destruct (net w) as [|[m|] [|[m'|] rest]] eqn:E; simpl; rewrite ?E; simpl;
      now left.
Qed.

(** An insert for a pair that has its row: the handler fails, whatever the
    network does, and writes nothing. *)
Lemma handleUpvote_duplicate u :
  s = Some u -> has_upvoted (db w) (issue_id i) u = true ->
  exists e n,
    IssueCard.handleUpvote s i false w =
    ((Some (ErrorToast "Error" e), false), set_net n w) /\
    (net w = [] -> e = Thrown UniqueViolation).
Proof.
  intros -> Hhas.
  assert (Hins : insert_upvote (Some u) (mkUpvote (issue_id i) u) (db w)
                 = (inl UniqueViolation, db w)).
  { apply insert_upvote_duplicate; [simpl; apply String.eqb_refl|exact Hhas]. }
  unfold IssueCard.handleUpvote, IssueCard.handleUpvote_try, try_catch,
    auth_getUser, or_throw, bind, await, request, on_db, throw, ret.
  destruct (net w) as [|[m|] [|[m'|] rest]] eqn:E; simpl; rewrite ?E; simpl;
    rewrite ?Hins; simpl.
  - exists (Thrown UniqueViolation), []. split; [|reflexivity].
    destruct w; simpl in *; subst; reflexivity.
  - exists (JsError "Not authenticated"), []. split; [reflexivity|discriminate].
  - exists (JsError "Not authenticated"), (Some m' :: rest).
    split; [reflexivity|discriminate].
  - exists (JsError "Not authenticated"), (None :: rest).
    split; [reflexivity|discriminate].
  - exists (Thrown UniqueViolation), []. split; [|discriminate].
    destruct w; reflexivity.
  - exists (Thrown (FetchError m')), rest. split; [|discriminate].
    destruct w; reflexivity.
  - exists (Thrown UniqueViolation), rest. split; [|discriminate].
    destruct w; reflexivity.
Qed.

End HandleUpvote.

(** C5 (as amended).  There is at most one upvote row for an (issue, user)
    pair, before and after every run of the upvote handler: a second insert
    for the pair is refused with a unique violation and the table is left
    as it was.  The handler shows that failure as an error toast and does
    not call onUpvoteChange(): "already exists" is not taken as success. *)
Theorem C5_one_upvote_per_user_and_issue (s : Session) (i : issue) (b : bool)
    (w : World) :
  upvotes_unique (db w) ->
  upvotes_unique (db (snd (IssueCard.handleUpvote s i b w))) /\
  (forall u, s = Some u -> has_upvoted (db w) (issue_id i) u = true ->
     insert_upvote s (mkUpvote (issue_id i) u) (db w)
       = (inl UniqueViolation, db w) /\
     exists e n,
       IssueCard.handleUpvote s i false w =
       ((Some (ErrorToast "Error" e), false), set_net n w) /\
       (net w = [] -> e = Thrown UniqueViolation)).
Proof.
  intros Hu. split.
  - destruct (handleUpvote_db s i w b) as [->|[(uid & ->)|(uid & ->)]].
    + exact Hu.
    + now apply delete_upvotes_unique.
    + now apply insert_upvote_unique.
  - intros u -> Hhas. split.
    + apply insert_upvote_duplicate; [simpl; apply String.eqb_refl|exact Hhas].
    + exact (handleUpvote_duplicate (Some u) i w u eq_refl Hhas).
Qed.

(** Alice has upvoted i2, her card still says she has not (the upvote was
    made in another tab): the click is answered with an error toast. *)
Lemma C5_counterexample :
  has_upvoted (db Example.world) "i2" "alice" = true /\
  IssueCard.handleUpvote (Some "alice") Example.i2 false Example.world =
  ((Some (ErrorToast "Error" (Thrown UniqueViolation)), false), Example.world).
Proof. split; reflexivity. Qed.

Lemma C5_witness :
  upvotes_unique
    (db (snd (IssueCard.handleUpvote (Some "alice") Example.i1 false Example.world))) /\
  insert_upvote (Some "alice") (mkUpvote "i2" "alice") (db Example.world)
  = (inl UniqueViolation, db Example.world).
Proof.
  split.
  - apply (C5_one_upvote_per_user_and_issue (Some "alice") Example.i1 false Example.world).
    exact college_upvotes_unique.
  - apply (proj2 (C5_one_upvote_per_user_and_issue (Some "alice") Example.i2 false
                    Example.world college_upvotes_unique) "alice"); reflexivity.
Defined.

(** ** Requests under any network *)

Section RequestResults.

Context {A : Type}.

Lemma query_result (f : Db -> pg_error + A) w r w' :
  query f w = (r, w') ->
  db w' = db w /\ (r = f (db w) \/ exists msg, r = inl (FetchError msg)).
Proof.
  unfold query, request.
  destruct (net w) as [|[msg|] rest]; intros H; inversion H; subst; simpl; eauto.
Qed.

Lemma request_on_db_result (f : Db -> (pg_error + A) * Db) w r w' :
  request (on_db f) w = (r, w') ->
  (r = fst (f (db w)) /\ db w' = snd (f (db w))) \/
  (exists msg, r = inl (FetchError msg) /\ db w' = db w).
Proof.
  unfold request, on_db.
  destruct (net w) as [|[msg|] rest]; simpl; destruct (f (db w)) as [r0 d0];
    intros H; inversion H; subst; simpl; eauto.
Qed.

Lemma request_on_db_arrives (f : Db -> (pg_error + A) * Db) w :
  net w = [] ->
  request (on_db f) w = (fst (f (db w)), set_db (snd (f (db w))) w).
Proof.
  intros H. rewrite request_arrives by exact H.
  unfold on_db. now destruct (f (db w)).
Qed.

End RequestResults.

(** ** Deleting an issue *)

Section DeleteIssue.

Variables (user id : uuid).

Lemma single_In {A} (l : list A) x y : single l = inr y -> In x l -> x = y.
Proof.
  destruct l as [|a [|b l]]; simpl; try discriminate.
  intros H [<-|[]]. congruence.
Qed.

(** The pre-check reads the reporter of the row, when it reads one. *)
Lemma select_issue_reporter_row d r x :
  In r (issues d) -> issue_id r = id ->
  select_issue_reporter (Some user) id d = inr x -> x = reporter_id r.
Proof.
  intros Hr Hid H. unfold select_issue_reporter in H. simpl in H.
  symmetry. eapply single_In; [exact H|].
  apply in_map. apply filter_In. split; [exact Hr|now apply String.eqb_eq].
Qed.

Lemma pkey_filter d r :
  issues_pkey d -> In r (issues d) ->
  filter (fun i => String.eqb (issue_id i) (issue_id r)) (issues d) = [r].
Proof.
  unfold issues_pkey. induction (issues d) as [|a l IH]; simpl; [tauto|].
  intros Hnd [->|Hr]; inversion Hnd as [|? ? Hnot Hnd']; subst.
  - rewrite String.eqb_refl. f_equal.
    apply existsb_filter_nil. apply not_true_is_false. intros H.
    apply existsb_exists in H as (x & Hx & E). apply String.eqb_eq in E.
    apply Hnot. rewrite <- E. now apply in_map.
  - destruct (String.eqb (issue_id a) (issue_id r)) eqn:E.
    + apply String.eqb_eq in E. exfalso. apply Hnot. rewrite E. now apply in_map.
    + now apply IH.
Qed.

(** The rows after the delete command. *)
Lemma delete_issues_rows d x :
  In x (issues (snd (delete_issues (Some user) id user d))) <->
  In x (issues d) /\
  ~ (issue_id x = id /\ reporter_id x = user /\ issues_delete_policy d = true).
Proof.
  unfold delete_issues. simpl. destruct d; simpl. rewrite filter_In.
  unfold issues_delete_using. simpl.
  split; intros [Hx H]; split; try exact Hx.
  - intros (E1 & E2 & E3). rewrite E1, E2, E3, !String.eqb_refl in H. discriminate.
  - apply negb_true_iff. apply not_true_is_false. intros E. apply H.
    apply andb_prop in E as [E E3]. apply andb_prop in E as [E1 E2].
    apply andb_prop in E3 as [E3 E4].
    apply String.eqb_eq in E1, E2. auto.
Qed.

(** Without the delete policy the command deletes nothing. *)
Lemma delete_issues_no_policy d :
  issues_delete_policy d = false ->
  delete_issues (Some user) id user d = (inr [], d).
Proof.
  intros Hp. unfold delete_issues, issues_delete_using. rewrite Hp.
  assert (E : forall l : list issue,
             filter (fun i => String.eqb (issue_id i) id
                              && String.eqb (reporter_id i) user && (false && String.eqb (reporter_id i) user)) l = []).
  { induction l as [|a l IH]; simpl; [reflexivity|].
    now rewrite andb_false_r. }
  simpl. rewrite E. simpl.
  rewrite !filter_all.
  - now destruct d.
  - intros x _. now rewrite andb_false_r.
  - reflexivity.
Qed.

Lemma count_zero_no_row (l : list issue) :
  (0 <? List.length (filter (fun i => String.eqb (issue_id i) id) l))%nat = false ->
  forall x, In x l -> issue_id x <> id.
Proof.
  intros H x Hx E. apply Nat.ltb_ge in H.
  assert (Hin : In x (filter (fun i => String.eqb (issue_id i) id) l))
    by (apply filter_In; split; [exact Hx|now apply String.eqb_eq]).
  destruct (filter _ l); [contradiction|simpl in H; lia].
Qed.

Lemma delete_issues_answer d :
  exists rows, fst (delete_issues (Some user) id user d) = inr rows.
Proof. eexists. reflexivity. Qed.

Local Arguments delete_issues : simpl never.
Local Arguments count_issues : simpl never.
Local Arguments select_issue_reporter : simpl never.

(** The handler after its pre-check: delete, re-read, toast. *)
Lemma delete_and_reread w :
  match
    (del <- await (request (on_db (delete_issues (Some user) id user))) ;;
     or_throw del ;;;
     chk <- await (query (count_issues (Some user) id)) ;;
     remainingCount <- or_throw chk ;;
     (if (0 <? remainingCount)%nat
      then throw (JsError "Delete did not apply due to permissions")
      else ret (Toast "Issue deleted" "Your report has been removed." false)))%handler
      w
  with
  | (inr a, w') =>
      a = issue_deleted /\
      db w' = snd (delete_issues (Some user) id user (db w)) /\
      forall x, In x (issues (db w')) -> issue_id x <> id
  | (inl e, w') =>
      db w' = db w \/ db w' = snd (delete_issues (Some user) id user (db w))
  end.
Proof.
  unfold bind at 1. unfold await at 1.
  destruct (request (on_db (delete_issues (Some user) id user)) w) as [r2 w2] eqn:Q2.
  apply request_on_db_result in Q2.
  destruct (delete_issues_answer (db w)) as (rows & Hrows).
  destruct Q2 as [[-> D2]|(msg & -> & D2)].
  - rewrite Hrows. unfold bind at 1. unfold or_throw at 1, ret at 1.
    unfold bind at 1. unfold await at 1.
    destruct (query (count_issues (Some user) id) w2) as [r3 w3] eqn:Q3.
    apply query_result in Q3 as [D3 R3]. rewrite D2 in D3.
    destruct R3 as [->|(msg & ->)].
    + unfold count_issues. unfold bind, or_throw, ret, throw.
      destruct (0 <? _)%nat eqn:C.
      * right. exact D3.
      * split; [reflexivity|]. split; [exact D3|].
        rewrite D3. rewrite D2 in C. now apply count_zero_no_row.
    + unfold bind, or_throw, throw. right. exact D3.
  - unfold bind, or_throw, throw. left. exact D2.
Qed.

(** A run of the handler, whatever the network does: it ends with the
    success toast, the delete command applied and no row of that id left;
    or with an error toast, the database as it was or as the delete
    command left it. *)
Lemma handleDeleteIssue_outcome w :
  let '(t, w') := Profile.handleDeleteIssue (Some user) id w in
  (t = Some issue_deleted /\
   db w' = snd (delete_issues (Some user) id user (db w)) /\
   forall x, In x (issues (db w')) -> issue_id x <> id) \/
  (exists e, t = Some (ErrorToast "Delete failed" e) /\
             (db w' = db w \/
              db w' = snd (delete_issues (Some user) id user (db w)))).
Proof.
  unfold Profile.handleDeleteIssue, Profile.handleDeleteIssue_try, try_catch.
  unfold bind at 1. unfold bind at 1. unfold bind at 1. unfold await at 1.
  destruct (query (select_issue_reporter (Some user) id) w) as [r1 w1] eqn:Q1.
  apply query_result in Q1 as [D1 _].
  pose proof (delete_and_reread w1) as Hcont. rewrite D1 in Hcont.
  assert (Hgo : forall (r : exn + toast) (w' : World),
    match r with
    | inr a => a = issue_deleted /\
               db w' = snd (delete_issues (Some user) id user (db w)) /\
               (forall x, In x (issues (db w')) -> issue_id x <> id)
    | inl _ => db w' = db w \/
               db w' = snd (delete_issues (Some user) id user (db w))
    end ->
    let '(t, w'') :=
      let (s, w0) :=
        match r with
        | inl e => (@inl exn (option toast) e, w')
        | inr a => ret (Some a) w'
        end in
      match s with
      | inl e => (Some (ErrorToast "Delete failed" e), w0)
      | inr a => (a, w0)
      end in
    (t = Some issue_deleted /\
     db w'' = snd (delete_issues (Some user) id user (db w)) /\
     forall x, In x (issues (db w'')) -> issue_id x <> id) \/
    (exists e, t = Some (ErrorToast "Delete failed" e) /\
               (db w'' = db w \/
                db w'' = snd (delete_issues (Some user) id user (db w))))).
  { intros [e|a] w' H; unfold ret; cbv beta iota.
    - right. eauto.
    - left. destruct H as (-> & H1 & H2). auto. }
  destruct r1 as [e1|reporter].
  - unfold ret at 1. cbv beta iota.
    match type of Hcont with
    | match ?c with _ => _ end => destruct c as [r w']
    end.
    exact (Hgo r w' Hcont).
  - destruct (negb (String.eqb reporter user)).
    + unfold throw. cbv beta iota.
      right. eexists. split; [reflexivity|]. left. exact D1.
    + unfold ret at 1. cbv beta iota.
      match type of Hcont with
      | match ?c with _ => _ end => destruct c as [r w']
      end.
      exact (Hgo r w' Hcont).
Qed.

(** The same run when every request arrives. *)
Lemma handleDeleteIssue_arrives w :
  net w = [] ->
  Profile.handleDeleteIssue (Some user) id w =
  let after_check :=
    let d2 := snd (delete_issues (Some user) id user (db w)) in
    if (0 <? List.length (filter (fun i => String.eqb (issue_id i) id) (issues d2)))%nat
    then (Some (ErrorToast "Delete failed" delete_did_not_apply), set_db d2 w)
    else (Some issue_deleted, set_db d2 w) in
  match select_issue_reporter (Some user) id (db w) with
  | inr reporter =>
      if negb (String.eqb reporter user)
      then (Some (ErrorToast "Delete failed" not_the_reporter), w)
      else after_check
  | inl _ => after_check
  end.
Proof.
  intros Hnet.
  unfold Profile.handleDeleteIssue, Profile.handleDeleteIssue_try, try_catch.
  unfold bind, await.
  rewrite query_arrives by exact Hnet.
  destruct (select_issue_reporter (Some user) id (db w)) as [e|reporter]; simpl.
  - rewrite request_on_db_arrives by exact Hnet. simpl.
    rewrite query_arrives by exact Hnet. simpl.
    destruct (0 <? _)%nat; reflexivity.
  - destruct (negb (String.eqb reporter user)); simpl; [reflexivity|].
    rewrite request_on_db_arrives by exact Hnet. simpl.
    rewrite query_arrives by exact Hnet. simpl.
    destruct (0 <? _)%nat; reflexivity.
Qed.

End DeleteIssue.

(** C4.  For an issue of the database and any actor: the delete handler
    ends with success only if the actor is the reporter of the issue, and
    then no row of that id is left.  For another actor it fails and the
    issue stays; with the network up the failure is "You are not the
    reporter of this issue".  The handler re-reads after the delete command:
    when that command was answered without an error and the row is still
    there (as it is while the delete policy is missing), it fails with
    "Delete did not apply due to permissions"; with the policy in place the
    reporter's delete succeeds. *)
Theorem C4_delete_issue_only_by_reporter (user id : uuid) (w : World) (r : issue) :
  In r (issues (db w)) -> issue_id r = id ->
  (fst (Profile.handleDeleteIssue (Some user) id w) = Some issue_deleted ->
   reporter_id r = user /\
   forall x, In x (issues (db (snd (Profile.handleDeleteIssue (Some user) id w)))) ->
             issue_id x <> id) /\
  (reporter_id r <> user ->
   In r (issues (db (snd (Profile.handleDeleteIssue (Some user) id w)))) /\
   (exists e, fst (Profile.handleDeleteIssue (Some user) id w)
              = Some (ErrorToast "Delete failed" e)) /\
   (net w = [] -> issues_pkey (db w) ->
    Profile.handleDeleteIssue (Some user) id w
    = (Some (ErrorToast "Delete failed" not_the_reporter), w))) /\
  (reporter_id r = user -> net w = [] -> issues_delete_policy (db w) = false ->
   Profile.handleDeleteIssue (Some user) id w
   = (Some (ErrorToast "Delete failed" delete_did_not_apply), w)) /\
  (reporter_id r = user -> net w = [] -> issues_delete_policy (db w) = true ->
   issues_pkey (db w) ->
   fst (Profile.handleDeleteIssue (Some user) id w) = Some issue_deleted /\
   ~ In r (issues (db (snd (Profile.handleDeleteIssue (Some user) id w))))).
Proof.
  intros Hr Hid.
  pose proof (handleDeleteIssue_outcome user id w) as Hout.
  assert (Hstays : reporter_id r <> user ->
                   In r (issues (snd (delete_issues (Some user) id user (db w))))).
  { intros Hne. apply delete_issues_rows. split; [exact Hr|]. intros (_ & E & _). auto. }
  assert (Hsel : issues_pkey (db w) ->
                 select_issue_reporter (Some user) id (db w) = inr (reporter_id r)).
  { intros Hpk. unfold select_issue_reporter. simpl. rewrite <- Hid.
    now rewrite (pkey_filter (db w) r Hpk Hr). }
  split; [|split; [|split]].
  - destruct (Profile.handleDeleteIssue (Some user) id w) as [t w'].
    simpl. intros ->.
    destruct Hout as [(_ & Hdb & Hnone)|(e & He & _)]; [|discriminate He].
    split; [|exact Hnone].
    destruct (String.eqb_spec (reporter_id r) user) as [E|Hne]; [exact E|].
    exfalso. apply (Hnone r); [|exact Hid]. rewrite Hdb. now apply Hstays.
  - intros Hne. split; [|split].
    + destruct (Profile.handleDeleteIssue (Some user) id w) as [t w']. simpl.
      destruct Hout as [(_ & Hdb & Hnone)|(e & _ & [Hdb|Hdb])].
      * exfalso. apply (Hnone r); [|exact Hid]. rewrite Hdb. now apply Hstays.
      * now rewrite Hdb.
      * rewrite Hdb. now apply Hstays.
    + destruct (Profile.handleDeleteIssue (Some user) id w) as [t w']. simpl.
      destruct Hout as [(_ & Hdb & Hnone)|(e & He & _)].
      * exfalso. apply (Hnone r); [|exact Hid]. rewrite Hdb. now apply Hstays.
      * eauto.
    + intros Hnet Hpk. rewrite handleDeleteIssue_arrives by exact Hnet.
      rewrite (Hsel Hpk). apply String.eqb_neq in Hne. now rewrite Hne.
  - intros Hrep Hnet Hpol. rewrite handleDeleteIssue_arrives by exact Hnet.
    rewrite (delete_issues_no_policy user id (db w) Hpol). simpl snd.
    assert (Hcount : (0 <? List.length (filter (fun i => String.eqb (issue_id i) id)
                                              (issues (db w))))%nat = true).
    { apply Nat.ltb_lt.
      assert (Hin : In r (filter (fun i => String.eqb (issue_id i) id) (issues (db w))))
        by (apply filter_In; split; [exact Hr|now apply String.eqb_eq]).
      destruct (filter _ (issues (db w))); [contradiction|simpl; lia]. }
    cbv zeta. rewrite Hcount, set_db_same.
    destruct (select_issue_reporter (Some user) id (db w)) as [e|x] eqn:S;
      [reflexivity|].
    rewrite (select_issue_reporter_row user id (db w) r x Hr Hid S), Hrep.
    now rewrite String.eqb_refl.
  - intros Hrep Hnet Hpol Hpk.
    assert (Hgone : forall x, In x (issues (snd (delete_issues (Some user) id user (db w)))) ->
                              issue_id x <> id).
    { intros x Hx E. apply delete_issues_rows in Hx as [Hx Hnot]. apply Hnot.
      assert (Hxr : In x [r]).
      { rewrite <- (pkey_filter (db w) r Hpk Hr). apply filter_In.
        split; [exact Hx|]. rewrite Hid. now apply String.eqb_eq. }
      destruct Hxr as [<-|[]]. auto. }
    rewrite handleDeleteIssue_arrives by exact Hnet.
    rewrite (Hsel Hpk), Hrep, String.eqb_refl. simpl negb. cbv zeta iota.
    assert (Hcount : (0 <? List.length
                             (filter (fun i => String.eqb (issue_id i) id)
                                (issues (snd (delete_issues (Some user) id user (db w))))))%nat
                     = false).
    { apply Nat.ltb_ge.
      destruct (filter _ _) as [|x l] eqn:F; [simpl; lia|].
      assert (Hx : In x (filter (fun i => String.eqb (issue_id i) id)
                            (issues (snd (delete_issues (Some user) id user (db w))))))
        by (rewrite F; now left).
      apply filter_In in Hx as [Hx E]. apply String.eqb_eq in E.
      exfalso. exact (Hgone x Hx E). }
    rewrite Hcount. split; [reflexivity|].
    intros Hin. exact (Hgone r Hin Hid).
Qed.

Lemma college_issues_pkey : issues_pkey (db Example.world).
Proof.
  unfold issues_pkey. simpl.
  repeat (constructor; [simpl; intuition discriminate|]). constructor.
Qed.

Lemma C4_witness :
  Profile.handleDeleteIssue (Some "bob") "i2" Example.world
  = (Some (ErrorToast "Delete failed" not_the_reporter), Example.world) /\
  Profile.handleDeleteIssue (Some "alice") "i2" Example.world_without_delete_policy
  = (Some (ErrorToast "Delete failed" delete_did_not_apply),
     Example.world_without_delete_policy) /\
  fst (Profile.handleDeleteIssue (Some "alice") "i2" Example.world)
  = Some issue_deleted.
Proof.
  assert (Hin : In Example.i2 (issues (db Example.world)))
    by (right; left; reflexivity).
  split; [|split].
  - apply (C4_delete_issue_only_by_reporter "bob" "i2" Example.world Example.i2
             Hin eq_refl).
    + discriminate.
    + reflexivity.
    + exact college_issues_pkey.
  - apply (C4_delete_issue_only_by_reporter "alice" "i2"
             Example.world_without_delete_policy Example.i2 Hin eq_refl);
      reflexivity.
  - apply (C4_delete_issue_only_by_reporter "alice" "i2" Example.world Example.i2
             Hin eq_refl); try reflexivity.
    exact college_issues_pkey.
Defined.

(** ** Submitting an issue *)

Section SubmitIssue.

Variables (s : Session) (new_id : uuid) (f : Index.form).

(** The row the insert adds, for a photo URL and the time of the insert. *)
Lemma insert_issue_result now v d r d' :
  insert_issue s new_id now v d = (r, d') ->
  (exists e, r = inl e /\ d' = d) \/
  (exists rep,
      r = inr tt /\ ins_reporter_id v = Some rep /\
      d' = set_issues
             (issues d ++
              [mkIssue new_id rep (ins_department_id v) (ins_room_no v)
                       (ins_item_id v) (ins_title v) (Some (ins_description v))
                       (ins_photo_url v) pending false now (now + thirty_days)
                       None]) d).
Proof.
  unfold insert_issue. destruct s as [uid|]; [|intros H; inversion H; eauto].
  destruct (ins_reporter_id v) as [rep|].
  - destruct (negb _); [intros H; inversion H; eauto|].
    destruct (existsb _ (issues d)); [intros H; inversion H; eauto|].
    destruct (negb _); intros H; inversion H; eauto.
  - intros H; inversion H; eauto.
Qed.

Lemma storage_upload_result path w r w' :
  storage_upload s path w = (r, w') ->
  db w' = db w /\ clock w' = clock w /\ storage_url w' = storage_url w /\
  net w' = net w.
Proof.
  unfold storage_upload. destruct s; [destruct (existsb _ _)|];
    intros H; inversion H; subst; auto.
Qed.

Lemma request_storage_upload_result path w r w' :
  request (storage_upload s path) w = (r, w') ->
  db w' = db w /\ clock w' = clock w /\ storage_url w' = storage_url w.
Proof.
  unfold request. destruct (net w) as [|[msg|] rest].
  - intros H. apply storage_upload_result in H. tauto.
  - intros H. inversion H. auto.
  - intros H. apply storage_upload_result in H. simpl in H. tauto.
Qed.

(** The insert request of the handler, for the photo URL [url]. *)
Lemma insert_request_result url w r w' :
  request (fun w0 =>
             on_db (insert_issue s new_id (clock w0)
                      (mkIssueInsert s (Index.departmentId f) (Index.roomNo f)
                                     (Index.itemId f) (Index.form_title f)
                                     (Index.form_description f) url)) w0) w
  = (r, w') ->
  (exists e, r = inl e /\ db w' = db w) \/
  (exists row,
      r = inr tt /\ issues (db w') = (issues (db w) ++ [row])%list /\
      issue_id row = new_id /\ photo_url row = url /\ status row = pending /\
      is_priority row = false /\ reported_at row = clock w /\
      deadline row = clock w + thirty_days /\ resolved_at row = None /\
      Some (reporter_id row) = s).
Proof.
  unfold request, on_db.
  destruct (net w) as [|[msg|] rest]; simpl.
  - destruct (insert_issue _ _ _ _ _) as [r0 d0] eqn:I. intros H. inversion H; subst.
    apply insert_issue_result in I as [(e & -> & ->)|(rep & -> & Hrep & ->)].
    + left. eauto.
    + right. eexists. simpl in *. destruct (db w); simpl.
      repeat split; try reflexivity. now symmetry.
  - intros H. inversion H. left. eauto.
  - destruct (insert_issue _ _ _ _ _) as [r0 d0] eqn:I. intros H. inversion H; subst.
    apply insert_issue_result in I as [(e & -> & ->)|(rep & -> & Hrep & ->)].
    + left. eauto.
    + right. eexists. simpl in *. destruct (db w); simpl.
      repeat split; try reflexivity. now symmetry.
Qed.

End SubmitIssue.

(** C6.  For a submission with a photo: when the upload fails the handler
    stops with the upload's error and the database is as it was (no issue
    row is inserted); when the upload succeeds, a submission that ends with
    the success toast has added exactly one row, whose photo_url is the
    public URL of the uploaded object, and a submission that ends otherwise
    has added none. *)
Theorem C6_photo_upload_before_insert (s : Session) (new_id : uuid)
    (f : Index.form) (name : string) (w : World) :
  Index.photo f = Some name ->
  match fst (request (storage_upload s (Index.photo_key s (clock w) name)) w) with
  | inl uploadError =>
      fst (Index.handleSubmitIssue s new_id f w)
        = ErrorToast "Error" (Thrown uploadError) /\
      db (snd (Index.handleSubmitIssue s new_id f w)) = db w
  | inr _ =>
      (fst (Index.handleSubmitIssue s new_id f w) = issue_reported ->
       exists row,
         issues (db (snd (Index.handleSubmitIssue s new_id f w)))
           = (issues (db w) ++ [row])%list /\
         issue_id row = new_id /\
         photo_url row
           = Some (getPublicUrl w (Index.photo_key s (clock w) name))) /\
      (fst (Index.handleSubmitIssue s new_id f w) <> issue_reported ->
       db (snd (Index.handleSubmitIssue s new_id f w)) = db w)
  end.
Proof.
  intros Hphoto.
  destruct (Index.handleSubmitIssue s new_id f w) as [t w'] eqn:H. simpl fst. simpl snd.
  unfold Index.handleSubmitIssue, Index.upload_photo, try_catch in H.
  rewrite Hphoto in H.
  unfold bind, Date_now, await in H. cbv beta iota in H.
  destruct (request (storage_upload s (Index.photo_key s (clock w) name)) w)
    as [r1 w1] eqn:U.
  apply request_storage_upload_result in U as (D1 & C1 & S1).
  destruct r1 as [uploadError|[]]; simpl fst;
    unfold or_throw, throw, ret in H; cbv beta iota in H.
  - inversion H; subst. split; [reflexivity|exact D1].
  - match type of H with
    | context [request ?e w1] => destruct (request e w1) as [r2 w2] eqn:I
    end.
    apply insert_request_result in I.
    assert (Hurl : getPublicUrl w1 (Index.photo_key s (clock w) name)
                   = getPublicUrl w (Index.photo_key s (clock w) name))
      by (unfold getPublicUrl; now rewrite S1).
    destruct I as [(e & -> & D2)|(row & -> & Hrows & Hid & Hurl' & _)];
      cbv beta iota in H; inversion H; subst.
    + split.
      * intros E. discriminate E.
      * intros _. congruence.
    + split.
      * intros _. exists row. rewrite Hrows, D1, Hurl', Hurl. auto.
      * intros E. exfalso. apply E. reflexivity.
Qed.

Lemma C6_witness :
  exists row,
    issues (db (snd (Index.handleSubmitIssue (Some "alice") "i9"
                       (Index.mkForm "B216" "FAN-02" "Fan noisy" ""
                                     (Some "fan.photo.png") "d-ee")
                       Example.world)))
    = (issues (db Example.world) ++ [row])%list /\
    issue_id row = "i9" /\
    photo_url row
    = Some "https://project.supabase.co/storage/v1/object/public/issue-photos/alice/5000.png".
Proof.
  pose proof (C6_photo_upload_before_insert (Some "alice") "i9"
                (Index.mkForm "B216" "FAN-02" "Fan noisy" "" (Some "fan.photo.png")
                              "d-ee")
                "fan.photo.png" Example.world eq_refl) as H.
  simpl fst in H. destruct H as [H _]. apply H. reflexivity.
Defined.

(** ** The order of the feed *)

Section FeedOrder.

Variable u : uuid.

(** The query by the fate of its first request. *)
Lemma issues_queryFn_run mode w :
  Index.issues_queryFn u mode w =
  let rows :=
    match mode with
    | Index.recent_mode =>
        order_by (fun a b => reported_at b <=? reported_at a) (issues (db w))
    | Index.upvotes_mode => issues (db w)
    end in
  match net w with
  | Some msg :: rest => (inl (Thrown (FetchError msg)), set_net rest w)
  | None :: rest => Index.feed_of_rows u mode rows (set_net rest w)
  | [] => Index.feed_of_rows u mode rows w
  end.
Proof.
  unfold Index.issues_queryFn. unfold bind at 1 2. unfold await, query, request.
  destruct (net w) as [|[msg|] rest]; destruct mode; reflexivity.
Qed.

(** [Array.sort] with the comparison of the feed: descending counts, a
    permutation, and every class of equal counts in its order of arrival. *)
Lemma sort_by_upvoteCount arrived :
  Permutation arrived (Array_sort Index.by_upvoteCount arrived) /\
  StronglySorted upvotes_desc (Array_sort Index.by_upvoteCount arrived) /\
  forall k,
    filter (fun x => Nat.eqb (Index.upvoteCount x) k)
           (Array_sort Index.by_upvoteCount arrived)
    = filter (fun x => Nat.eqb (Index.upvoteCount x) k) arrived.
Proof.
  unfold Array_sort, Index.by_upvoteCount, upvotes_desc. split; [|split].
  - apply stable_sort_perm.
  - apply stable_sort_sorted.
    + intros a b H. apply Z.leb_le in H. lia.
    + intros a b H. apply Z.leb_gt in H. lia.
    + intros a b c. lia.
  - intros k. apply stable_sort_filter.
    intros x y H Hx. apply Z.leb_gt in H. apply Nat.eqb_eq in Hx.
    apply Nat.eqb_neq. lia.
Qed.

(** ORDER BY reported_at DESC: descending, a permutation, and left as it
    is by a further stable descending sort. *)
Lemma order_by_reported_at rows :
  let sorted := order_by (fun a b => reported_at b <=? reported_at a) rows in
  StronglySorted recent_first sorted /\
  Permutation sorted rows /\
  order_by (fun a b => reported_at b <=? reported_at a) sorted = sorted.
Proof.
  unfold order_by, recent_first.
  assert (Hs : StronglySorted (fun a b => reported_at b <= reported_at a)
                 (stable_sort (fun a b => reported_at b <=? reported_at a) rows)).
  { apply stable_sort_sorted.
    - intros a b H. now apply Z.leb_le in H.
    - intros a b H. apply Z.leb_gt in H. lia.
    - intros a b c. lia. }
  split; [exact Hs|]. split.
  - symmetry. apply stable_sort_perm.
  - eapply stable_sort_sorted_id; [|exact Hs].
    intros x y H. now apply Z.leb_le.
Qed.

End FeedOrder.

Lemma feed_of_rows_arrives (u : uuid) (mode : Index.sort_mode)
    (data : list issue) (w : World) :
  net w = [] ->
  Index.feed_of_rows u mode data w =
  (inr (match mode with
        | Index.upvotes_mode =>
            Array_sort Index.by_upvoteCount (map (card (db w) u) data)
        | Index.recent_mode => map (card (db w) u) data
        end), w).
Proof.
  intros Hnet. unfold Index.feed_of_rows, bind.
  rewrite (Promise_all_map_arrives u w Hnet). reflexivity.
Qed.

Lemma card_counts (d : Db) (u : uuid) (data : list issue) :
  Forall (fun x => Index.upvoteCount x
                   = upvote_count d (issue_id (Index.fi_issue x)))
         (map (card d u) data) /\
  map Index.fi_issue (map (card d u) data) = data.
Proof.
  split.
  - apply Forall_forall. intros x Hx. apply in_map_iff in Hx as (i & <- & _).
    reflexivity.
  - rewrite map_map. apply map_id.
Qed.

Lemma filter_cards (d : Db) (u : uuid) (k : nat) (data : list issue) :
  map Index.fi_issue
      (filter (fun x => Nat.eqb (Index.upvoteCount x) k) (map (card d u) data))
  = filter (fun i => Nat.eqb (upvote_count d (issue_id i)) k) data.
Proof.
  induction data as [|i data IH]; simpl; [reflexivity|].
  destruct (Nat.eqb (upvote_count d (issue_id i)) k); simpl; now rewrite IH.
Qed.




(** Cards with 3, 1, 5 and 3 upvotes: the card with 5 comes first, the two
    cards with 3 follow in their order of arrival, the card with 1 is last. *)
Example feed_order_5_3_3_1 :
  map (fun x => (issue_id (Index.fi_issue x), Index.upvoteCount x))
      (Array_sort Index.by_upvoteCount Example.cards)
  = [("c", 5%nat); ("a", 3%nat); ("d", 3%nat); ("b", 1%nat)].
Proof. reflexivity. Qed.

(** ** Roles *)

Section Roles.

Variables (u : uuid) (w : World).

(** A dashboard lets a user in only with a row of the role. *)
Lemma roleCheck_granted r denied :
  fst (fst (Dashboard.roleCheck r denied u w)) = true -> has_role (db w) u r = true.
Proof.
  unfold Dashboard.roleCheck.
  destruct (query (select_role_eq (Some u) u r) w) as [[e|r'] w'] eqn:Q;
    simpl; [discriminate|]. intros _.
  apply query_result in Q as [_ [Q|(msg & Q)]]; [|discriminate Q].
  unfold select_role_eq in Q.
  destruct (filter _ (filter _ (user_roles (db w)))) as [|x l] eqn:F;
    [discriminate Q|].
  assert (Hx : In x (filter (fun r0 => String.eqb (role_user_id r0) u
                                       && app_role_eqb (role r0) r)
                        (filter (user_roles_select_using (db w) (Some u))
                                (user_roles (db w)))))
    by (rewrite F; now left).
  apply filter_In in Hx as [Hx Hr]. apply filter_In in Hx as [Hx _].
  unfold has_role. apply existsb_exists. eauto.
Qed.

(** A role check whose request is lost counts as "no role": the header
    shows no dashboard button, the dashboard turns the user away. *)
Lemma role_query_failure msg rest r denied :
  net w = Some msg :: rest ->
  fst (Header.userRole (Some u) w) = None /\
  fst (Dashboard.roleCheck r denied u w) = (false, Some (Toast "Access Denied" denied true)).
Proof.
  intros E. unfold Header.userRole, Dashboard.roleCheck, query, request.
  rewrite E. split; reflexivity.
Qed.

(** The header knows a role only for a user with exactly one role row. *)
Lemma Header_userRole_some r :
  fst (Header.userRole (Some u) w) = Some r ->
  map role (filter (fun x => String.eqb (role_user_id x) u)
              (filter (user_roles_select_using (db w) (Some u)) (user_roles (db w))))
  = [r].
Proof.
  unfold Header.userRole.
  destruct (query (select_role (Some u) u) w) as [[e|r'] w'] eqn:Q;
    simpl; [discriminate|]. intros H. inversion H; subst.
  apply query_result in Q as [_ [Q|(msg & Q)]]; [|discriminate Q].
  unfold select_role, single in Q.
  destruct (map role _) as [|a [|b l]]; try discriminate Q. congruence.
Qed.

End Roles.

(** C8 (the code does not do this).  Dave holds the roles hod and
    principal.  Both dashboards let him in, but the role query of the
    header asks for a single row, gets two, and its error is read as "no
    role": the navigation bar shows him neither dashboard button. *)
Theorem C8_two_roles_no_dashboard_button :
  has_role (db Example.world) "dave" hod = true /\
  has_role (db Example.world) "dave" principal = true /\
  fst (HodDashboard.roleCheck "dave" Example.world) = (true, None) /\
  fst (PrincipalDashboard.roleCheck "dave" Example.world) = (true, None) /\
  select_role (Some "dave") "dave" (db Example.world) = inl NoSingleRow /\
  fst (Header.userRole (Some "dave") Example.world) = None /\
  Header.dashboard_links (fst (Header.userRole (Some "dave") Example.world)) = [] /\
  Header.dashboard_links (fst (Header.userRole (Some "bob") Example.world)) = ["/hod"] /\
  Header.dashboard_links (fst (Header.userRole (Some "carol") Example.world))
  = ["/principal"].
Proof. repeat split. Qed.

(** ** Departments *)

Section Departments.

Variables (s : Session) (w : World).

(** The department list of the principal's dashboard holds only
    departments with one of the four codes. *)
Lemma principal_departments_codes l w' x :
  PrincipalDashboard.departments_queryFn s w = (inr l, w') ->
  In x l ->
  In x (departments (db w)) /\ In (dept_code x) ["CS"; "EE"; "ME"; "HU"].
Proof.
  unfold PrincipalDashboard.departments_queryFn, bind, await.
  destruct (query _ w) as [[e|l0] w0] eqn:Q; simpl; [discriminate|].
  intros H Hx. inversion H; subst.
  apply query_result in Q as [_ [Q|(msg & Q)]]; [|discriminate Q].
  unfold select_departments in Q. inversion Q; subst. clear Q H.
  unfold order_by in Hx. apply stable_sort_In in Hx.
  apply filter_In in Hx as [Hx Hc]. split.
  - destruct s; [exact Hx|contradiction].
  - repeat (apply orb_prop in Hc as [Hc|Hc]); try discriminate Hc;
      apply String.eqb_eq in Hc; rewrite Hc; simpl; auto 6.
Qed.

(** The department list of the report dialog holds every department. *)
Lemma index_departments_all x :
  s <> None -> (forall msg rest, net w <> Some msg :: rest) ->
  In x (departments (db w)) ->
  exists l w', Index.departments_queryFn s w = (inr l, w') /\ In x l.
Proof.
  intros Hs Hnet Hx.
  unfold Index.departments_queryFn, bind, await, query, request.
  destruct (net w) as [|[msg|] rest] eqn:E.
  - simpl. do 2 eexists. split; [reflexivity|].
    unfold order_by. apply stable_sort_In. destruct s; [exact Hx|congruence].
  - exfalso. exact (Hnet _ _ eq_refl).
  - simpl. do 2 eexists. split; [reflexivity|].
    unfold order_by. apply stable_sort_In. destruct s; [exact Hx|congruence].
Qed.

End Departments.

(** C9 (the code does not do this).  With the default departments the
    principal's dashboard fetches Computer Science, Electrical and
    Mechanical only: Electronics (EC) and Civil (CE) are in the departments
    table and appear neither in the department list, nor in the
    department-wise statistics, nor among the options of the department
    filter; the report dialog lists all five. *)
Theorem C9_principal_dashboard_misses_departments :
  let electronics := mkDepartment "d-ec" "Electronics" "EC" in
  let civil := mkDepartment "d-ce" "Civil" "CE" in
  let shown :=
    [ mkDepartment "d-cs" "Computer Science" "CS";
      mkDepartment "d-ee" "Electrical" "EE";
      mkDepartment "d-me" "Mechanical" "ME" ] in
  In electronics (departments (db Example.world)) /\
  In civil (departments (db Example.world)) /\
  PrincipalDashboard.departments_queryFn (Some "carol") Example.world
  = (inr shown, Example.world) /\
  ~ In electronics shown /\ ~ In civil shown /\
  map (fun x => dept_id (PrincipalDashboard.stat_dept x))
      (PrincipalDashboard.departmentStats shown (issues (db Example.world)))
  = ["d-cs"; "d-ee"; "d-me"] /\
  PrincipalDashboard.filter_options shown = ["d-cs"; "d-ee"; "d-me"] /\
  fst (Index.departments_queryFn (Some "carol") Example.world)
  = inr [ civil; mkDepartment "d-cs" "Computer Science" "CS";
          mkDepartment "d-ee" "Electrical" "EE"; electronics;
          mkDepartment "d-me" "Mechanical" "ME" ].
Proof.
  cbv zeta. repeat split.
  - right; left; reflexivity.
  - do 3 right; left; reflexivity.
  - intros [H|[H|[H|[]]]]; discriminate H.
  - intros [H|[H|[H|[]]]]; discriminate H.
Qed.

Section DaysRemaining.
Import IssueCardView.

Lemma daysRemaining_unfold d n :
  daysRemaining d n = - ((- (d - n)) / ms_per_day).
Proof. reflexivity. Qed.

Lemma ms_per_day_pos' : 0 < ms_per_day.
Proof. reflexivity. Qed.

Lemma daysRemaining_shift d n k :
  daysRemaining d (n + k * ms_per_day) = daysRemaining d n - k.
Proof.
  rewrite !daysRemaining_unfold.
  replace (- (d - (n + k * ms_per_day))) with (- (d - n) + k * ms_per_day) by lia.
  rewrite Z.div_add by (pose proof ms_per_day_pos'; lia).
  lia.
Qed.

Lemma daysRemaining_bounds d n :
  (daysRemaining d n - 1) * ms_per_day < d - n <= daysRemaining d n * ms_per_day.
Proof.
  rewrite daysRemaining_unfold.
  pose proof ms_per_day_pos' as Hpos.
  pose proof (Z.div_mod (- (d - n)) ms_per_day ltac:(lia)) as Hdm.
  pose proof (Z.mod_pos_bound (- (d - n)) ms_per_day Hpos) as Hb.
  nia.
Qed.

(** C10. The displayed number of days is the ceiling of
    (deadline - now) / one day: the only integer [k] with
    [(k-1) days < deadline - now <= k days].  For a deadline thirty days
    after submission it is 30 at submission time, and 24 hours later it is
    always exactly one less (so 30 - k after k whole days). *)
Theorem C10_days_remaining_ceiling :
  (forall deadline now k,
      daysRemaining deadline now = k <->
      (k - 1) * ms_per_day < deadline - now <= k * ms_per_day) /\
  (forall now, daysRemaining (now + thirty_days) now = 30) /\
  (forall deadline now,
      daysRemaining deadline (now + ms_per_day) = daysRemaining deadline now - 1) /\
  (forall now k, daysRemaining (now + thirty_days) (now + k * ms_per_day) = 30 - k).
Proof.
  assert (H30 : forall now, daysRemaining (now + thirty_days) now = 30).
  { intros now. rewrite daysRemaining_unfold.
    replace (- (now + thirty_days - now)) with ((-30) * ms_per_day)
      by (unfold thirty_days; lia).
    rewrite Z.div_mul by (pose proof ms_per_day_pos'; lia). reflexivity. }
  split; [| split; [exact H30 | split]].
  - intros deadline now k. split.
    + intros <-. apply daysRemaining_bounds.
    + intros [Hlo Hhi].
      pose proof (daysRemaining_bounds deadline now) as [Hlo' Hhi'].
      pose proof ms_per_day_pos'. nia.
  - intros deadline now.
    replace (now + ms_per_day) with (now + 1 * ms_per_day) by lia.
    apply daysRemaining_shift.
  - intros now k. rewrite daysRemaining_shift, H30. reflexivity.
Qed.

End DaysRemaining.


(** ** The days-left badge of a card *)

Section DaysLeftBadge.
Import IssueCardView.

Lemma daysRemaining_le d n k :
  daysRemaining d n <= k <-> d - n <= k * ms_per_day.
Proof.
  pose proof (daysRemaining_bounds d n) as [Hlo Hhi].
  pose proof ms_per_day_pos' as Hpos. split; intros H; nia.
Qed.

(** X1.  A card shows the badge "k d left" exactly when the issue is not
    work_done and its deadline is at most seven days away, and k is then
    the number of days remaining.  An issue past its deadline keeps the
    badge, with a number that is zero or negative.  For an issue whose
    deadline is thirty days after submission the badge is first shown
    twenty-three days after submission. *)
Theorem X1_days_left_badge (i : issue) (now : timestamp) :
  (forall k,
      days_left_badge i now = Some k <->
      status i <> work_done /\ deadline i - now <= 7 * ms_per_day /\
      k = daysRemaining (deadline i) now) /\
  (status i <> work_done -> deadline i <= now ->
   exists k, days_left_badge i now = Some k /\ k <= 0) /\
  (forall submitted,
      status i <> work_done -> deadline i = submitted + thirty_days ->
      (days_left_badge i now <> None <-> submitted + 23 * ms_per_day <= now)).
Proof.
  assert (Hst : negb (issue_status_eqb (status i) work_done) = true
                <-> status i <> work_done).
  { destruct (status i); simpl; split; intros H; congruence. }
  assert (Hbadge : forall k,
      days_left_badge i now = Some k <->
      status i <> work_done /\ deadline i - now <= 7 * ms_per_day /\
      k = daysRemaining (deadline i) now).
  { intros k. unfold days_left_badge.
    destruct (negb (issue_status_eqb (status i) work_done)) eqn:E1; simpl.
    - destruct (daysRemaining (deadline i) now <=? 7) eqn:E2.
      + apply Z.leb_le in E2. apply (proj1 (daysRemaining_le _ _ 7)) in E2.
        split.
        * intros H. inversion H. repeat split; auto. now apply Hst.
        * intros (_ & _ & ->). reflexivity.
      + apply Z.leb_gt in E2. split; [discriminate|].
        intros (_ & H & _). apply (proj2 (daysRemaining_le _ _ 7)) in H. lia.
    - split; [discriminate|]. intros (H & _). apply Hst in H. congruence. }
  split; [exact Hbadge|]. split.
  - intros Hs Hd. exists (daysRemaining (deadline i) now). split.
    + apply Hbadge. repeat split; auto. pose proof ms_per_day_pos'. lia.
    + apply daysRemaining_le. lia.
  - intros submitted Hs Hd. split.
    + intros H.
      assert (exists k, days_left_badge i now = Some k) as [k E]
        by (destruct (days_left_badge i now); [eauto|congruence]).
      apply Hbadge in E as (_ & E & _). unfold thirty_days in Hd. lia.
    + intros H.
      assert (E : days_left_badge i now = Some (daysRemaining (deadline i) now)).
      { apply Hbadge. repeat split; auto. unfold thirty_days in Hd. lia. }
      rewrite E. discriminate.
Qed.

Lemma X1_witness :
  (exists k, days_left_badge Example.i1 (1000 + 31 * ms_per_day) = Some k /\ k <= 0) /\
  (days_left_badge Example.i1 (1000 + 22 * ms_per_day) <> None <->
   1000 + 23 * ms_per_day <= 1000 + 22 * ms_per_day).
Proof.
  split.
  - apply (X1_days_left_badge Example.i1 (1000 + 31 * ms_per_day)).
    + discriminate.
    + vm_compute. discriminate.
  - apply (X1_days_left_badge Example.i1 (1000 + 22 * ms_per_day)).
    + discriminate.
    + reflexivity.
Defined.

End DaysLeftBadge.


(** ** The numbers of the dashboards *)

Section DashboardStats.

Lemma status_partition (l : list issue) :
  List.length l =
  (List.length (filter (fun i => issue_status_eqb (status i) pending) l) +
   List.length (filter (fun i => issue_status_eqb (status i) acknowledged) l) +
   List.length (filter (fun i => issue_status_eqb (status i) work_done) l))%nat.
Proof.
  induction l as [|i l IH]; simpl; [reflexivity|].
  destruct (status i); simpl; lia.
Qed.

Lemma filter_length {A} (f : A -> bool) (l : list A) :
  (List.length (filter f l) <= List.length l)%nat.
Proof.
  induction l as [|a l IH]; simpl; [lia|]. destruct (f a); simpl; lia.
Qed.

(** X2.  On both dashboards the three status cards add up to the total,
    whatever the list of issues (and when there is none).  The principal's
    total, pending, acknowledged and resolved numbers are those of the HoD
    page for the same list: the length of the list and the numbers of its
    issues with status pending, acknowledged and work_done (all 0 when
    there is no list); the priority count is the number of issues marked
    as priority, at most the total. *)
Theorem X2_status_cards_add_up (issues : option (list issue)) :
  let h := HodDashboardPage.stats_of issues in
  let p := PrincipalDashboardPage.stats_of issues in
  HodDashboardPage.stats_total h =
    (HodDashboardPage.stats_pending h + HodDashboardPage.stats_acknowledged h +
     HodDashboardPage.stats_resolved h)%nat /\
  PrincipalDashboardPage.stats_total p =
    (PrincipalDashboardPage.stats_pending p +
     PrincipalDashboardPage.stats_acknowledged p +
     PrincipalDashboardPage.stats_resolved p)%nat /\
  (PrincipalDashboardPage.stats_total p = HodDashboardPage.stats_total h /\
   PrincipalDashboardPage.stats_pending p = HodDashboardPage.stats_pending h /\
   PrincipalDashboardPage.stats_acknowledged p
     = HodDashboardPage.stats_acknowledged h /\
   PrincipalDashboardPage.stats_resolved p = HodDashboardPage.stats_resolved h) /\
  (HodDashboardPage.stats_total h = List.length (match issues with
                                                 | Some l => l
                                                 | None => []
                                                 end) /\
   HodDashboardPage.stats_pending h
     = List.length (filter (fun i => issue_status_eqb (status i) pending)
                           (match issues with Some l => l | None => [] end)) /\
   HodDashboardPage.stats_acknowledged h
     = List.length (filter (fun i => issue_status_eqb (status i) acknowledged)
                           (match issues with Some l => l | None => [] end)) /\
   HodDashboardPage.stats_resolved h
     = List.length (filter (fun i => issue_status_eqb (status i) work_done)
                           (match issues with Some l => l | None => [] end)) /\
   PrincipalDashboardPage.stats_priority p
     = List.length (filter is_priority
                           (match issues with Some l => l | None => [] end))) /\
  (PrincipalDashboardPage.stats_priority p
   <= PrincipalDashboardPage.stats_total p)%nat.
Proof.
  destruct issues as [l|]; simpl.
  - rewrite filter_all by reflexivity.
    repeat split; try apply status_partition; try apply filter_length.
  - repeat split; lia.
Qed.

Lemma department_split (a : uuid) (ids : list uuid) (l : list issue) :
  ~ In a ids ->
  (List.length (filter (fun i => String.eqb (department_id i) a) l) +
   List.length (filter (fun i => existsb (String.eqb (department_id i)) ids) l))%nat
  = List.length (filter (fun i => existsb (String.eqb (department_id i)) (a :: ids)) l).
Proof.
  intros Ha. induction l as [|i l IH]; simpl; [reflexivity|].
  destruct (String.eqb (department_id i) a) eqn:E; simpl.
  - apply String.eqb_eq in E.
    assert (existsb (String.eqb (department_id i)) ids = false) as ->.
    { destruct (existsb (String.eqb (department_id i)) ids) eqn:Ex;
        [|reflexivity].
      apply existsb_exists in Ex as (x & Hx & Hix).
      apply String.eqb_eq in Hix. exfalso. apply Ha.
      rewrite <- E, Hix. exact Hx. }
    simpl in *. lia.
  - destruct (existsb (String.eqb (department_id i)) ids); simpl in *; lia.
Qed.

(** X3.  The department cards of the principal's dashboard: for
    departments with distinct ids, the totals of the cards add up to the
    number of listed issues whose department has a card, so to at most the
    number of issues, and to exactly that number when every issue's
    department has a card; on each card, pending is at most total. *)
Theorem X3_department_cards_sum (departments : list department)
    (issues : list issue) :
  NoDup (map dept_id departments) ->
  let cards := PrincipalDashboard.departmentStats departments issues in
  list_sum (map PrincipalDashboard.stat_total cards) =
    List.length
      (filter (fun i => existsb (String.eqb (department_id i))
                                (PrincipalDashboard.filter_options departments))
              issues) /\
  (list_sum (map PrincipalDashboard.stat_total cards) <= List.length issues)%nat /\
  ((forall i, In i issues ->
              In (department_id i) (PrincipalDashboard.filter_options departments)) ->
   list_sum (map PrincipalDashboard.stat_total cards) = List.length issues) /\
  Forall (fun c => (PrincipalDashboard.stat_pending c
                    <= PrincipalDashboard.stat_total c)%nat) cards /\
  map PrincipalDashboard.stat_dept cards = departments.
Proof.
  intros Hnd cards.
  assert (Hsum :
    list_sum (map PrincipalDashboard.stat_total cards) =
    List.length
      (filter (fun i => existsb (String.eqb (department_id i))
                                (PrincipalDashboard.filter_options departments))
              issues)).
  { subst cards. unfold PrincipalDashboard.departmentStats,
      PrincipalDashboard.filter_options.
    induction departments as [|a ds IH].
    - simpl. induction issues; simpl; auto.
    - inversion Hnd as [|? ? Ha Hnd']; subst.
      etransitivity; [|apply department_split; exact Ha].
      specialize (IH Hnd'). unfold list_sum in *. simpl. f_equal. exact IH. }
  split; [exact Hsum|]. split; [rewrite Hsum; apply filter_length|].
  split; [|split].
  - intros Hall. rewrite Hsum. rewrite filter_all; [reflexivity|].
    intros i Hi. apply existsb_exists. exists (department_id i).
    split; [now apply Hall|apply String.eqb_refl].
  - subst cards. unfold PrincipalDashboard.departmentStats.
    apply Forall_forall. intros c Hc.
    apply in_map_iff in Hc as (dept & <- & _). simpl.
    clear Hsum. induction issues as [|i l IH]; simpl; [lia|].
    destruct (String.eqb (department_id i) (dept_id dept)); simpl; [|exact IH].
    destruct (issue_status_eqb (status i) pending); simpl; lia.
  - subst cards. unfold PrincipalDashboard.departmentStats.
    rewrite map_map. simpl. apply map_id.
Qed.

Lemma X3_witness :
  list_sum (map PrincipalDashboard.stat_total
              (PrincipalDashboard.departmentStats
                 (departments Example.college) (issues Example.college)))
  = 3%nat.
Proof.
  assert (Hnd : NoDup (map dept_id (departments Example.college))).
  { repeat constructor; simpl; intuition discriminate. }
  destruct (X3_department_cards_sum (departments Example.college)
              (issues Example.college) Hnd) as (_ & _ & H & _).
  apply H.
  intros i [<-|[<-|[<-|[]]]]; simpl; auto.
Defined.

End DashboardStats.

(** ** The department filter of the principal's dashboard *)

Section OrderedRows.

Lemma order_by_reported_at_ordered (rows : list issue) :
  ordered_rows recent_first rows
    (order_by (fun a b => reported_at b <=? reported_at a) rows).
Proof.
  split.
  - apply stable_sort_perm.
  - apply stable_sort_sorted; unfold recent_first.
    + intros a b H. now apply Z.leb_le.
    + intros a b H. apply Z.leb_gt in H. lia.
    + intros a b c H1 H2. lia.
Qed.

Lemma StronglySorted_filter {A} (R : A -> A -> Prop) (p : A -> bool) l :
  StronglySorted R l -> StronglySorted R (filter p l).
Proof.
  induction 1 as [|a l Hs IH Ha]; simpl; [constructor|].
  destruct (p a); [|exact IH]. constructor; [exact IH|].
  apply Forall_forall. intros y Hy. apply filter_In in Hy as [Hy _].
  now apply (proj1 (Forall_forall _ _) Ha).
Qed.

Lemma filter_Permutation {A} (p : A -> bool) l l' :
  Permutation l l' -> Permutation (filter p l) (filter p l').
Proof.
  induction 1 as [|a l l' _ IH|a b l|l1 l2 l3 _ IH1 _ IH2]; simpl.
  - constructor.
  - destruct (p a); [now constructor|exact IH].
  - destruct (p a), (p b); try apply Permutation_refl. apply perm_swap.
  - eapply Permutation_trans; eassumption.
Qed.

Lemma sorted_times (l : list issue) :
  StronglySorted recent_first l -> StronglySorted Z.ge (map reported_at l).
Proof.
  induction 1 as [|x l Hs IH Hx]; simpl; constructor; [exact IH|].
  apply Forall_forall. intros t Ht. apply in_map_iff in Ht as (y & <- & Hy).
  pose proof (proj1 (Forall_forall _ _) Hx y Hy) as Hxy.
  unfold recent_first in Hxy. lia.
Qed.

Lemma sorted_permutation_eq (t1 t2 : list Z) :
  Permutation t1 t2 -> StronglySorted Z.ge t1 -> StronglySorted Z.ge t2 ->
  t1 = t2.
Proof.
  revert t2. induction t1 as [|x t1 IH]; intros t2 Hp S1 S2.
  - apply Permutation_nil in Hp. now subst.
  - destruct t2 as [|y t2].
    { apply Permutation_sym, Permutation_nil in Hp. discriminate Hp. }
    inversion S1 as [|? ? S1' Hx]; subst.
    inversion S2 as [|? ? S2' Hy]; subst.
    assert (x = y).
    { assert (Hin1 : In y (x :: t1))
        by (eapply Permutation_in; [apply Permutation_sym; exact Hp|now left]).
      assert (Hin2 : In x (y :: t2))
        by (eapply Permutation_in; [exact Hp|now left]).
      destruct Hin1 as [E|Hin1]; [exact E|].
      destruct Hin2 as [E|Hin2]; [now symmetry|].
      pose proof (proj1 (Forall_forall _ _) Hx y Hin1).
      pose proof (proj1 (Forall_forall _ _) Hy x Hin2). lia. }
    subst y. f_equal. apply IH; [|assumption|assumption].
    now apply Permutation_cons_inv in Hp.
Qed.

(** Two answers with the same rows, both newest first, show the same
    report times at the same places: they differ at most in the order of
    issues reported at the same time. *)
Lemma same_rows_same_times (l1 l2 : list issue) :
  Permutation l1 l2 ->
  StronglySorted recent_first l1 -> StronglySorted recent_first l2 ->
  map reported_at l1 = map reported_at l2.
Proof.
  intros Hp H1 H2. apply sorted_permutation_eq.
  - now apply Permutation_map.
  - now apply sorted_times.
  - now apply sorted_times.
Qed.

End OrderedRows.

(** X4.  The issues query of the principal's dashboard fails exactly when
    its request is lost.  When it answers, its list is an answer that
    ORDER BY reported_at DESC permits for the issues of the chosen
    department (for all issues with 'all').  For every pair of permitted
    answers, whatever the backend does with issues reported at the same
    time: the list for a department holds the issues of the list for
    'all' that belong to that department, each once, and shows the same
    report times at the same places.  The department cards are computed
    from the list shown: while a department is chosen, the card of every
    other department shows 0 and the card of the chosen one shows the
    length of the list. *)
Theorem X4_department_filter (s : Session) (x : uuid) (w : World) :
  (forall sel,
      (exists e, fst (PrincipalDashboard.issues_queryFn s sel w) = inl e) <->
      (exists msg rest, net w = Some msg :: rest)) /\
  (forall sel l,
      fst (PrincipalDashboard.issues_queryFn s sel w) = inr l ->
      ordered_rows recent_first
        (match sel with
         | Some y => filter (fun i => String.eqb (department_id i) y)
                            (visible s (issues (db w)))
         | None => visible s (issues (db w))
         end) l) /\
  (forall rows l_all l_x,
      ordered_rows recent_first rows l_all ->
      ordered_rows recent_first
        (filter (fun i => String.eqb (department_id i) x) rows) l_x ->
      Permutation l_x (filter (fun i => String.eqb (department_id i) x) l_all) /\
      map reported_at l_x
        = map reported_at (filter (fun i => String.eqb (department_id i) x) l_all) /\
      forall departments,
        Forall (fun c =>
                  PrincipalDashboard.stat_total c =
                  if String.eqb (dept_id (PrincipalDashboard.stat_dept c)) x
                  then List.length l_x else 0%nat)
               (PrincipalDashboard.departmentStats departments l_x)).
Proof.
  split; [|split].
  - intros sel.
    unfold PrincipalDashboard.issues_queryFn, bind, await, or_throw, query,
      request, select_issues.
    destruct (net w) as [|[msg|] rest]; simpl; split.
    + intros (e & He). discriminate He.
    + intros (msg & rest & H). discriminate H.
    + intros _. eauto.
    + intros _. eauto.
    + intros (e & He). discriminate He.
    + intros (msg & rest' & H). discriminate H.
  - intros sel l.
    unfold PrincipalDashboard.issues_queryFn, bind, await, or_throw, query,
      request, select_issues.
    destruct (net w) as [|[msg|] rest]; simpl; intros H; inversion H; subst;
      apply order_by_reported_at_ordered.
  - intros rows l_all l_x [Pall Sall] [Px Sx].
    assert (Hperm : Permutation l_x
                      (filter (fun i => String.eqb (department_id i) x) l_all)).
    { eapply Permutation_trans; [apply Permutation_sym; exact Px|].
      now apply filter_Permutation. }
    split; [exact Hperm|]. split.
    + apply same_rows_same_times; [exact Hperm|exact Sx|].
      now apply StronglySorted_filter.
    + intros departments. apply Forall_forall. intros c Hc.
      unfold PrincipalDashboard.departmentStats in Hc.
      apply in_map_iff in Hc as (dept & <- & _). simpl.
      assert (Hdept : forall i, In i l_x -> department_id i = x).
      { intros i Hi.
        assert (Hi' : In i (filter (fun i => String.eqb (department_id i) x) rows))
          by (eapply Permutation_in; [apply Permutation_sym; exact Px|exact Hi]).
        apply filter_In in Hi' as [_ Hi']. now apply String.eqb_eq. }
      destruct (String.eqb (dept_id dept) x) eqn:E.
      * apply String.eqb_eq in E. rewrite E. f_equal. apply filter_all.
        intros i Hi. apply String.eqb_eq. now apply Hdept.
      * replace (filter _ l_x) with (@nil issue); [reflexivity|].
        symmetry. apply existsb_filter_nil.
        destruct (existsb _ _) eqn:Ex; [|reflexivity].
        apply existsb_exists in Ex as (i & Hi & Hd).
        apply String.eqb_eq in Hd. apply String.eqb_neq in E.
        rewrite (Hdept i Hi) in Hd. congruence.
Qed.

Lemma X4_witness :
  Forall (fun c =>
            PrincipalDashboard.stat_total c =
            if String.eqb (dept_id (PrincipalDashboard.stat_dept c)) "d-cs"
            then 2%nat else 0%nat)
         (PrincipalDashboard.departmentStats
            (departments Example.college)
            [Example.an_issue "i3" "bob" "d-cs" pending 1500 None; Example.i1]).
Proof.
  destruct (X4_department_filter (Some "carol") "d-cs" Example.world)
    as (_ & Hans & Hany).
  destruct (Hany (issues Example.college) _ _
              (Hans None _ eq_refl) (Hans (Some "d-cs") _ eq_refl))
    as (_ & _ & Hcards).
  exact (Hcards (departments Example.college)).
Defined.


(** ** The role checks and the role table *)

Section RoleChecks.

Lemma app_role_eqb_eq a b : app_role_eqb a b = true <-> a = b.
Proof. destruct a, b; simpl; split; intros H; congruence. Qed.

Lemma user_roles_unique_check d :
  forallb (fun x => (List.length
                       (filter (fun y => String.eqb (role_user_id y) (role_user_id x)
                                         && app_role_eqb (role y) (role x))
                               (user_roles d)) <=? 1)%nat)
          (user_roles d) = true ->
  user_roles_unique d.
Proof.
  intros H u r.
  destruct (filter (fun x => String.eqb (role_user_id x) u && app_role_eqb (role x) r)
                   (user_roles d)) as [|x l] eqn:F; [simpl; lia|].
  assert (Hx : In x (filter (fun x => String.eqb (role_user_id x) u
                                      && app_role_eqb (role x) r)
                            (user_roles d))) by (rewrite F; now left).
  apply filter_In in Hx as [Hin Hsame].
  apply andb_prop in Hsame as [Hu Hr].
  apply String.eqb_eq in Hu. apply app_role_eqb_eq in Hr. subst u r.
  rewrite <- F. apply Nat.leb_le.
  exact (proj1 (forallb_forall _ _) H x Hin).
Qed.

Lemma college_user_roles_unique : user_roles_unique (db Example.world).
Proof. apply user_roles_unique_check. reflexivity. Qed.

Lemma filter_filter_implied {A} (f g : A -> bool) (l : list A) :
  (forall x, f x = true -> g x = true) ->
  filter f (filter g l) = filter f l.
Proof.
  intros H. induction l as [|a l IH]; simpl; [reflexivity|].
  destruct (g a) eqn:Eg; simpl.
  - now rewrite IH.
  - destruct (f a) eqn:Ef; [|exact IH]. apply H in Ef. congruence.
Qed.

(** The rows a role check reads are the user's own, which the SELECT
    policy of [user_roles] shows to that user. *)
Lemma own_role_rows (u : uuid) (r : app_role) (d : Db) :
  filter (fun x => String.eqb (role_user_id x) u && app_role_eqb (role x) r)
         (filter (user_roles_select_using d (Some u)) (user_roles d))
  = filter (fun x => String.eqb (role_user_id x) u && app_role_eqb (role x) r)
           (user_roles d).
Proof.
  apply filter_filter_implied. intros x H.
  apply andb_prop in H as [H _]. simpl. now rewrite H.
Qed.

Lemma query_not_lost {A} (f : Db -> pg_error + A) w :
  (forall msg rest, net w <> Some msg :: rest) ->
  fst (query f w) = f (db w).
Proof.
  intros Hnet. unfold query, request.
  destruct (net w) as [|[msg|] rest] eqn:E; try reflexivity.
  exfalso. exact (Hnet _ _ eq_refl).
Qed.

Lemma roleCheck_single (r : app_role) (denied : string) (u : uuid) (w : World)
    (x : user_role) :
  (forall msg rest, net w <> Some msg :: rest) ->
  filter (fun y => String.eqb (role_user_id y) u && app_role_eqb (role y) r)
         (user_roles (db w)) = [x] ->
  fst (Dashboard.roleCheck r denied u w) = (true, None).
Proof.
  intros Hnet Hx. unfold Dashboard.roleCheck.
  pose proof (query_not_lost (select_role_eq (Some u) u r) w Hnet) as Q.
  destruct (query (select_role_eq (Some u) u r) w) as [res w'].
  simpl in Q. subst res. unfold select_role_eq.
  rewrite own_role_rows, Hx. reflexivity.
Qed.

Lemma roleCheck_db (r : app_role) (denied : string) (u : uuid) (w : World) :
  db (snd (Dashboard.roleCheck r denied u w)) = db w.
Proof.
  unfold Dashboard.roleCheck.
  pose proof (query_db (select_role_eq (Some u) u r) w) as Q.
  destruct (query (select_role_eq (Some u) u r) w) as [[e|x] w']; exact Q.
Qed.

(** X5.  The role check of a dashboard against [has_role], the function
    the policies of the backend use.  The check only reads.  It lets the
    user in only when [has_role] holds, and it shows the "Access Denied"
    toast exactly when it does not let the user in.  When the request
    arrives and the role table has no duplicate (user, role) pair, a user
    for whom [has_role] holds is let in. *)
Theorem X5_role_check_agrees_with_has_role (r : app_role) (denied : string)
    (u : uuid) (w : World) :
  db (snd (Dashboard.roleCheck r denied u w)) = db w /\
  (fst (fst (Dashboard.roleCheck r denied u w)) = true ->
   has_role (db w) u r = true) /\
  (snd (fst (Dashboard.roleCheck r denied u w)) = None <->
   fst (fst (Dashboard.roleCheck r denied u w)) = true) /\
  (user_roles_unique (db w) ->
   (forall msg rest, net w <> Some msg :: rest) ->
   has_role (db w) u r = true ->
   fst (Dashboard.roleCheck r denied u w) = (true, None)).
Proof.
  split; [|split; [|split]].
  - apply roleCheck_db.
  - apply roleCheck_granted.
  - unfold Dashboard.roleCheck.
    destruct (query (select_role_eq (Some u) u r) w) as [[e|x] w']; simpl;
      split; intros H; congruence.
  - intros Huniq Hnet Hrole.
    specialize (Huniq u r). unfold has_role in Hrole.
    destruct (filter (fun x => String.eqb (role_user_id x) u
                               && app_role_eqb (role x) r)
                     (user_roles (db w))) as [|x [|y l]] eqn:F.
    + apply existsb_filter_nil in F. congruence.
    + now apply (roleCheck_single r denied u w x).
    + simpl in Huniq. lia.
Qed.

Lemma X5_witness :
  fst (Dashboard.roleCheck hod "You do not have HOD access." "bob" Example.world)
  = (true, None).
Proof.
  apply (X5_role_check_agrees_with_has_role hod "You do not have HOD access."
           "bob" Example.world).
  - exact college_user_roles_unique.
  - intros msg rest. discriminate.
  - reflexivity.
Defined.

(** X6.  A dashboard button of the navigation bar leads to a page that
    lets the user in: when the header shows the button of a dashboard,
    the role check of that dashboard, run on the same database with its
    request arriving, grants access.  The header shows at most one
    button. *)
Theorem X6_header_button_opens_dashboard (u : uuid) (w w' : World) :
  db w' = db w ->
  (forall msg rest, net w' <> Some msg :: rest) ->
  (In "/hod" (Header.dashboard_links (fst (Header.userRole (Some u) w))) ->
   fst (HodDashboard.roleCheck u w') = (true, None)) /\
  (In "/principal" (Header.dashboard_links (fst (Header.userRole (Some u) w))) ->
   fst (PrincipalDashboard.roleCheck u w') = (true, None)) /\
  (List.length (Header.dashboard_links (fst (Header.userRole (Some u) w))) <= 1)%nat.
Proof.
  intros Hdb Hnet.
  assert (Hone : forall r,
             fst (Header.userRole (Some u) w) = Some r ->
             exists x,
               filter (fun y => String.eqb (role_user_id y) u
                                && app_role_eqb (role y) r)
                      (user_roles (db w')) = [x]).
  { intros r Hr. apply Header_userRole_some in Hr. rewrite Hdb.
    rewrite <- own_role_rows.
    destruct (filter (fun x => String.eqb (role_user_id x) u)
                (filter (user_roles_select_using (db w) (Some u))
                        (user_roles (db w)))) as [|x [|y l]] eqn:F;
      try discriminate Hr.
    simpl in Hr. inversion Hr as [Hrx].
    exists x.
    assert (Hx : In x (filter (fun x => String.eqb (role_user_id x) u)
                         (filter (user_roles_select_using (db w) (Some u))
                                 (user_roles (db w)))))
      by (rewrite F; now left).
    apply filter_In in Hx as [_ Hu].
    rewrite <- (filter_filter_implied
                  (fun y => String.eqb (role_user_id y) u
                            && app_role_eqb (role y) (role x))
                  (fun y => String.eqb (role_user_id y) u)).
    - rewrite F. simpl. rewrite Hu.
      replace (app_role_eqb (role x) (role x)) with true; [reflexivity|].
      symmetry. now apply app_role_eqb_eq.
    - intros y Hy. now apply andb_prop in Hy as [Hy _]. }
  destruct (fst (Header.userRole (Some u) w)) as [[| | |]|]; simpl;
    (split; [|split; [|lia]]); intros H;
    repeat (destruct H as [H|H]; try discriminate H); try contradiction.
  - destruct (Hone hod eq_refl) as [x Hx].
    now apply (roleCheck_single hod _ u w' x).
  - destruct (Hone principal eq_refl) as [x Hx].
    now apply (roleCheck_single principal _ u w' x).
Qed.

Lemma X6_witness :
  fst (PrincipalDashboard.roleCheck "carol" Example.world) = (true, None).
Proof.
  apply (X6_header_button_opens_dashboard "carol" Example.world Example.world).
  - reflexivity.
  - intros msg rest. discriminate.
  - vm_compute. left. reflexivity.
Defined.

End RoleChecks.


(** ** What the dashboards list *)

Section DashboardLists.

Local Arguments query : simpl never.

(** A status change of an issue the actor may set is written when its
    request arrives. *)
Lemma handleStatusChange_writes (s : Session) (st : issue_status) (w : World)
    (i : issue) :
  In i (issues (db w)) -> may_set_status (db w) s i ->
  (forall msg rest, net w <> Some msg :: rest) ->
  fst (Dashboard.handleStatusChange s (issue_id i) st w) = status_updated /\
  exists i',
    In i' (issues (db (snd (Dashboard.handleStatusChange s (issue_id i) st w)))) /\
    status_written st (clock w) i i'.
Proof.
  intros Hi Hmay Hnet.
  destruct (handleStatusChange_run s (issue_id i) st w)
    as [(msg & rest & E & _)|(n & _ & ->)].
  - exfalso. exact (Hnet _ _ E).
  - split; [reflexivity|]. simpl. rewrite update_issues_answer. simpl.
    eexists. split.
    + apply in_map_iff. exists i. split; [reflexivity|exact Hi].
    + simpl. rewrite String.eqb_refl.
      rewrite (may_set_status_update_policy s _ _ Hmay). simpl.
      apply apply_patch_written.
Qed.

Lemma select_issues_rows (u : uuid) (dept : option uuid) (d : Db) :
  select_issues (Some u) dept true d =
  inr (order_by (fun a b => reported_at b <=? reported_at a)
         (match dept with
          | Some x => filter (fun i => String.eqb (department_id i) x) (issues d)
          | None => issues d
          end)).
Proof. reflexivity. Qed.

Lemma select_profile_department_row (u : uuid) (d : Db) (dept : uuid) :
  select_profile_department (Some u) u d = inr (Some dept) ->
  exists p, In p (profiles d) /\ profile_id p = u /\
            profile_department_id p = Some dept.
Proof.
  unfold select_profile_department, single, visible.
  destruct (filter (fun p => String.eqb (profile_id p) u) (profiles d))
    as [|p [|q l]] eqn:F; simpl; try discriminate.
  intros H. inversion H as [Hp]. exists p.
  assert (Hin : In p (filter (fun p => String.eqb (profile_id p) u) (profiles d)))
    by (rewrite F; now left).
  apply filter_In in Hin as [Hin Hid]. apply String.eqb_eq in Hid. auto.
Qed.





End DashboardLists.


(** ** The lists of cards under any network *)

Section Cards.

Variables (u : uuid) (d : Db).

Lemma single_existsb {A} (f : A -> bool) (l : list A) x :
  single (filter f l) = inr x -> existsb f l = true.
Proof.
  intros H. destruct (existsb f l) eqn:E; [reflexivity|].
  apply existsb_filter_nil in E. rewrite E in H. discriminate H.
Qed.

Lemma maybeSingle_existsb {A} (f : A -> bool) (l : list A) x :
  maybeSingle (filter f l) = inr (Some x) -> existsb f l = true.
Proof.
  intros H. destruct (existsb f l) eqn:E; [reflexivity|].
  apply existsb_filter_nil in E. rewrite E in H. discriminate H.
Qed.

(** The two ways a page builds a card. *)
Variable with_upvotes : issue -> Handler Index.feed_item.

Hypothesis with_upvotes_sound :
  forall i w, db w = d ->
    exists item w',
      with_upvotes i w = (inr item, w') /\ db w' = d /\
      Index.fi_issue item = i /\ card_sound d u item.

Lemma Promise_all_map_sound data w :
  db w = d ->
  exists arrived w',
    Promise_all_map with_upvotes data w = (inr arrived, w') /\ db w' = d /\
    map Index.fi_issue arrived = data /\ Forall (card_sound d u) arrived.
Proof.
  revert w. induction data as [|i data IH]; intros w Hw; simpl.
  - exists [], w. repeat split; auto.
  - destruct (with_upvotes_sound i w Hw) as (item & w1 & E1 & D1 & Hi & Hs).
    destruct (IH w1 D1) as (arrived & w2 & E2 & D2 & Hmap & Hall).
    exists (item :: arrived), w2.
    unfold bind. rewrite E1, E2. split; [reflexivity|]. split; [exact D2|].
    split; [simpl; now rewrite Hi, Hmap|]. now constructor.
Qed.

Lemma sorted_cards_sound (mode : Index.sort_mode) arrived data :
  map Index.fi_issue arrived = data -> Forall (card_sound d u) arrived ->
  let feed := match mode with
              | Index.upvotes_mode => Array_sort Index.by_upvoteCount arrived
              | Index.recent_mode => arrived
              end in
  Permutation (map Index.fi_issue feed) data /\ Forall (card_sound d u) feed.
Proof.
  intros Hmap Hall. destruct mode; simpl.
  - pose proof (stable_sort_perm
                  (fun a b => Index.by_upvoteCount a b <=? 0) arrived) as Hp.
    split.
    + rewrite <- Hmap. apply Permutation_map. apply Permutation_sym. exact Hp.
    + eapply Permutation_Forall; [exact Hp|exact Hall].
  - split; [now rewrite Hmap|exact Hall].
Qed.

End Cards.

Lemma Index_with_upvotes_sound (u : uuid) (d : Db) i w :
  db w = d ->
  exists item w',
    Index.with_upvotes u i w = (inr item, w') /\ db w' = d /\
    Index.fi_issue item = i /\ card_sound d u item.
Proof.
  intros Hw. unfold Index.with_upvotes, bind, await.
  destruct (query (count_upvotes (Some u) (issue_id i)) w) as [c w1] eqn:Q1.
  destruct (query (select_own_upvote (Some u) (issue_id i) u) w1) as [v w2] eqn:Q2.
  apply query_result in Q1 as [D1 H1]. apply query_result in Q2 as [D2 H2].
  do 2 eexists. split; [reflexivity|]. split; [congruence|].
  split; [reflexivity|]. unfold card_sound. simpl. split.
  - destruct H1 as [->|(msg & ->)]; [left|right; reflexivity].
    rewrite Hw. reflexivity.
  - destruct H2 as [->|(msg & ->)]; [|discriminate].
    rewrite D1, Hw.
    destruct (select_own_upvote (Some u) (issue_id i) u d) as [e|x] eqn:S;
      [discriminate|]. intros _.
    unfold select_own_upvote in S. simpl in S.
    now apply single_existsb in S.
Qed.

Lemma Profile_with_upvotes_sound (u : uuid) (d : Db) i w :
  db w = d ->
  exists item w',
    ProfilePage.with_upvotes u i w = (inr item, w') /\ db w' = d /\
    Index.fi_issue item = i /\ card_sound d u item.
Proof.
  intros Hw. unfold ProfilePage.with_upvotes, bind, await.
  destruct (query (count_upvotes (Some u) (issue_id i)) w) as [c w1] eqn:Q1.
  destruct (query (select_own_upvote_maybe (Some u) (issue_id i) u) w1)
    as [v w2] eqn:Q2.
  apply query_result in Q1 as [D1 H1]. apply query_result in Q2 as [D2 H2].
  do 2 eexists. split; [reflexivity|]. split; [congruence|].
  split; [reflexivity|]. unfold card_sound. simpl. split.
  - destruct H1 as [->|(msg & ->)]; [left|right; reflexivity].
    rewrite Hw. reflexivity.
  - destruct H2 as [->|(msg & ->)]; [|discriminate].
    rewrite D1, Hw.
    destruct (select_own_upvote_maybe (Some u) (issue_id i) u d)
      as [e|[x|]] eqn:S; try discriminate. intros _.
    unfold select_own_upvote_maybe in S. simpl in S.
    now apply maybeSingle_existsb in S.
Qed.

(** X9.  The feed query of the start page under any network.  The query
    only reads.  When it answers, its cards are the issues of the
    database, each once, whichever requests for upvotes were lost; a card
    never overstates: its count is the number of upvote rows of the issue
    or 0, and it is marked as upvoted only when the row of the user is
    there. *)
Theorem X9_feed_under_any_network (u : uuid) (mode : Index.sort_mode)
    (w : World) :
  db (snd (Index.issues_queryFn u mode w)) = db w /\
  forall feed,
    fst (Index.issues_queryFn u mode w) = inr feed ->
    Permutation (map Index.fi_issue feed) (issues (db w)) /\
    Forall (card_sound (db w) u) feed.
Proof.
  rewrite issues_queryFn_run. cbv zeta.
  assert (Hrows : forall w0, db w0 = db w ->
    db (snd (Index.feed_of_rows u mode
               (match mode with
                | Index.recent_mode =>
                    order_by (fun a b => reported_at b <=? reported_at a)
                             (issues (db w))
                | Index.upvotes_mode => issues (db w)
                end) w0)) = db w /\
    forall feed,
      fst (Index.feed_of_rows u mode
             (match mode with
              | Index.recent_mode =>
                  order_by (fun a b => reported_at b <=? reported_at a)
                           (issues (db w))
              | Index.upvotes_mode => issues (db w)
              end) w0) = inr feed ->
      Permutation (map Index.fi_issue feed) (issues (db w)) /\
      Forall (card_sound (db w) u) feed).
  { intros w0 H0. unfold Index.feed_of_rows, bind.
    match goal with
    | |- context [Promise_all_map _ ?rows w0] =>
        destruct (Promise_all_map_sound u (db w) (Index.with_upvotes u)
                    (Index_with_upvotes_sound u (db w)) rows w0 H0)
          as (arrived & w' & -> & D & Hmap & Hall);
        pose proof (sorted_cards_sound u (db w) mode arrived rows Hmap Hall)
          as [Hperm Hsound]
    end.
    simpl. split; [exact D|]. intros feed Hf. inversion Hf; subst feed.
    split; [|exact Hsound].
    eapply Permutation_trans; [exact Hperm|].
    destruct mode; [apply Permutation_refl|].
    apply Permutation_sym. apply stable_sort_perm. }
  destruct (net w) as [|[msg|] rest] eqn:E.
  - now apply Hrows.
  - simpl. split; [reflexivity|]. discriminate.
  - now apply Hrows.
Qed.

Lemma X9_witness :
  exists feed,
    fst (Index.issues_queryFn "alice" Index.upvotes_mode
           (set_net [None; Some "offline"; None; None; None; Some "offline"]
                    Example.world)) = inr feed /\
    map Index.upvoteCount feed = [2%nat; 0%nat; 0%nat] /\
    Forall (card_sound (db Example.world) "alice") feed.
Proof.
  eexists. split; [vm_compute; reflexivity|]. split; [reflexivity|].
  apply (X9_feed_under_any_network "alice" Index.upvotes_mode
           (set_net [None; Some "offline"; None; None; None; Some "offline"]
                    Example.world)).
  reflexivity.
Defined.

(** The reporter's delete of an issue, with the policy of the second
    migration in place and the network up. *)
Lemma handleDeleteIssue_own (user : uuid) (w : World) (r : issue) :
  In r (issues (db w)) -> reporter_id r = user -> net w = [] ->
  issues_delete_policy (db w) = true -> issues_pkey (db w) ->
  fst (Profile.handleDeleteIssue (Some user) (issue_id r) w) = Some issue_deleted /\
  forall x,
    In x (issues (db (snd (Profile.handleDeleteIssue (Some user) (issue_id r) w)))) ->
    issue_id x <> issue_id r.
Proof.
  intros Hr Hrep Hnet Hpol Hpk.
  assert (Hsel : select_issue_reporter (Some user) (issue_id r) (db w)
                 = inr (reporter_id r)).
  { unfold select_issue_reporter. simpl.
    now rewrite (pkey_filter (db w) r Hpk Hr). }
  assert (Hgone : forall x,
             In x (issues (snd (delete_issues (Some user) (issue_id r) user (db w)))) ->
             issue_id x <> issue_id r).
  { intros x Hx E. apply delete_issues_rows in Hx as [Hx Hnot]. apply Hnot.
    assert (Hxr : In x [r]).
    { rewrite <- (pkey_filter (db w) r Hpk Hr). apply filter_In.
      split; [exact Hx|]. now apply String.eqb_eq. }
    destruct Hxr as [<-|[]]. auto. }
  rewrite handleDeleteIssue_arrives by exact Hnet.
  rewrite Hsel, Hrep, String.eqb_refl. simpl negb. cbv zeta iota.
  assert (Hcount :
    (0 <? List.length
            (filter (fun i => String.eqb (issue_id i) (issue_id r))
               (issues (snd (delete_issues (Some user) (issue_id r) user (db w))))))%nat
    = false).
  { apply Nat.ltb_ge.
    destruct (filter _ _) as [|x l] eqn:F; [simpl; lia|].
    assert (Hx : In x (filter (fun i => String.eqb (issue_id i) (issue_id r))
                         (issues (snd (delete_issues (Some user) (issue_id r) user
                                         (db w))))))
      by (rewrite F; now left).
    apply filter_In in Hx as [Hx E]. apply String.eqb_eq in E.
    exfalso. exact (Hgone x Hx E). }
  rewrite Hcount. split; [reflexivity|]. exact Hgone.
Qed.

Lemma Profile_issues_queryFn_run (u : uuid) (mode : Index.sort_mode) (w : World) :
  ProfilePage.issues_queryFn u mode w =
  let own := filter (fun i => String.eqb (reporter_id i) u) (issues (db w)) in
  let rows :=
    match mode with
    | Index.recent_mode =>
        order_by (fun a b => reported_at b <=? reported_at a) own
    | Index.upvotes_mode => own
    end in
  let cards w0 :=
    (issuesWithUpvotes <- Promise_all_map (ProfilePage.with_upvotes u) rows ;;
     ret (match mode with
          | Index.upvotes_mode => Array_sort Index.by_upvoteCount issuesWithUpvotes
          | Index.recent_mode => issuesWithUpvotes
          end))%handler w0 in
  match net w with
  | Some msg :: rest => (inl (Thrown (FetchError msg)), set_net rest w)
  | None :: rest => cards (set_net rest w)
  | [] => cards w
  end.
Proof.
  unfold ProfilePage.issues_queryFn. unfold bind at 1 2.
  unfold await, query, request.
  destruct (net w) as [|[msg|] rest]; destruct mode; reflexivity.
Qed.

(** X10.  The list of the profile page under any network.  The query only
    reads.  When it answers, its cards are the issues the user reported,
    each once, and no card overstates.  Every listed issue is one the user
    can delete: with the delete policy in place, distinct issue ids and
    the network up, the delete handler reports "Issue deleted" and no row
    of that id is left. *)
Theorem X10_profile_lists_own_reports (u : uuid) (mode : Index.sort_mode)
    (w : World) :
  db (snd (ProfilePage.issues_queryFn u mode w)) = db w /\
  forall feed,
    fst (ProfilePage.issues_queryFn u mode w) = inr feed ->
    Permutation (map Index.fi_issue feed)
                (filter (fun i => String.eqb (reporter_id i) u) (issues (db w))) /\
    Forall (card_sound (db w) u) feed /\
    forall item w',
      In item feed -> db w' = db w -> net w' = [] ->
      issues_delete_policy (db w) = true -> issues_pkey (db w) ->
      fst (Profile.handleDeleteIssue (Some u) (issue_id (Index.fi_issue item)) w')
        = Some issue_deleted /\
      forall x,
        In x (issues (db (snd (Profile.handleDeleteIssue
                                 (Some u) (issue_id (Index.fi_issue item)) w'))))
        -> issue_id x <> issue_id (Index.fi_issue item).
Proof.
  rewrite Profile_issues_queryFn_run. cbv zeta.
  set (own := filter (fun i => String.eqb (reporter_id i) u) (issues (db w))).
  set (rows := match mode with
               | Index.recent_mode =>
                   order_by (fun a b => reported_at b <=? reported_at a) own
               | Index.upvotes_mode => own
               end).
  assert (Hperm : Permutation rows own).
  { subst rows. destruct mode; [apply Permutation_refl|].
    apply Permutation_sym. apply stable_sort_perm. }
  assert (Hrows : forall w0, db w0 = db w ->
    let X := (issuesWithUpvotes <- Promise_all_map (ProfilePage.with_upvotes u) rows ;;
              ret (match mode with
                   | Index.upvotes_mode =>
                       Array_sort Index.by_upvoteCount issuesWithUpvotes
                   | Index.recent_mode => issuesWithUpvotes
                   end))%handler w0 in
    db (snd X) = db w /\
    forall feed,
      fst X = inr feed ->
      Permutation (map Index.fi_issue feed) own /\
      Forall (card_sound (db w) u) feed /\
      forall item w',
        In item feed -> db w' = db w -> net w' = [] ->
        issues_delete_policy (db w) = true -> issues_pkey (db w) ->
        fst (Profile.handleDeleteIssue (Some u) (issue_id (Index.fi_issue item)) w')
          = Some issue_deleted /\
        forall x,
          In x (issues (db (snd (Profile.handleDeleteIssue
                                   (Some u) (issue_id (Index.fi_issue item)) w'))))
          -> issue_id x <> issue_id (Index.fi_issue item)).
  { intros w0 H0. cbv zeta. unfold bind.
    destruct (Promise_all_map_sound u (db w) (ProfilePage.with_upvotes u)
                (Profile_with_upvotes_sound u (db w)) rows w0 H0)
      as (arrived & w' & -> & D & Hmap & Hall).
    pose proof (sorted_cards_sound u (db w) mode arrived rows Hmap Hall)
      as [Hp Hsound].
    simpl. split; [exact D|]. intros feed Hf. inversion Hf; subst feed. clear Hf.
    assert (Hfeed : Permutation
                      (map Index.fi_issue
                         (match mode with
                          | Index.upvotes_mode =>
                              Array_sort Index.by_upvoteCount arrived
                          | Index.recent_mode => arrived
                          end)) own)
      by (eapply Permutation_trans; [exact Hp|exact Hperm]).
    split; [exact Hfeed|]. split; [exact Hsound|].
    intros item w1 Hitem Hdb Hnet Hpol Hpk.
    assert (Hown : In (Index.fi_issue item) own).
    { eapply Permutation_in; [exact Hfeed|]. now apply in_map. }
    subst own. apply filter_In in Hown as [Hin Hrep].
    apply String.eqb_eq in Hrep.
    apply handleDeleteIssue_own; rewrite ?Hdb; assumption. }
  destruct (net w) as [|[msg|] rest] eqn:E.
  - now apply Hrows.
  - simpl. split; [reflexivity|]. discriminate.
  - now apply Hrows.
Qed.

Lemma X10_witness :
  fst (Profile.handleDeleteIssue (Some "alice") "i2" Example.world)
  = Some issue_deleted.
Proof.
  destruct (X10_profile_lists_own_reports "alice" Index.recent_mode Example.world)
    as [_ H].
  destruct (H _ eq_refl) as (_ & _ & Hdel).
  apply (Hdel (Index.mkFeedItem Example.i2 2 true) Example.world).
  - vm_compute. left. reflexivity.
  - reflexivity.
  - reflexivity.
  - reflexivity.
  - exact college_issues_pkey.
Defined.


(** ** What the upvote and the delete handler leave alone *)

Section KeepsBucket.

Context {A B : Type}.

Lemma keeps_ret (a : A) : keeps_bucket (ret a).
Proof. intros w. reflexivity. Qed.

Lemma keeps_throw (e : exn) : keeps_bucket (@throw A e).
Proof. intros w. reflexivity. Qed.

Lemma keeps_or_throw (r : pg_error + A) : keeps_bucket (or_throw r).
Proof. destruct r; intros w; reflexivity. Qed.

Lemma keeps_bind (c : Handler A) (k : A -> Handler B) :
  keeps_bucket c -> (forall a, keeps_bucket (k a)) -> keeps_bucket (bind c k).
Proof.
  intros Hc Hk w. unfold bind. specialize (Hc w).
  destruct (c w) as [[e|a] w1]; simpl in *; [exact Hc|].
  now rewrite Hk.
Qed.

Lemma keeps_await_request (exec : World -> (pg_error + A) * World) :
  (forall w, bucket (snd (exec w)) = bucket w) ->
  keeps_bucket (await (request exec)).
Proof.
  intros H w. unfold await, request.
  destruct (net w) as [|[msg|] rest]; simpl; try reflexivity.
  - specialize (H w). now destruct (exec w).
  - specialize (H (set_net rest w)). now destruct (exec (set_net rest w)).
Qed.

Lemma keeps_await_query (f : Db -> pg_error + A) :
  keeps_bucket (await (query f)).
Proof. unfold query. apply keeps_await_request. reflexivity. Qed.

Lemma keeps_await_on_db (f : Db -> (pg_error + A) * Db) :
  keeps_bucket (await (request (on_db f))).
Proof.
  apply keeps_await_request. intros w. unfold on_db.
  now destruct (f (db w)).
Qed.

Lemma try_catch_bucket (body : Handler A) (handler : exn -> A) w :
  keeps_bucket body -> bucket (snd (try_catch body handler w)) = bucket w.
Proof.
  intros H. unfold try_catch. specialize (H w).
  now destruct (body w) as [[e|a] w1].
Qed.

End KeepsBucket.

Ltac keeps_bucket_step :=
  first [ apply keeps_ret | apply keeps_throw | apply keeps_or_throw
        | apply keeps_await_query | apply keeps_await_on_db
        | apply keeps_await_request; reflexivity
        | apply keeps_bind; [|intros ?]
        | match goal with
          | |- keeps_bucket (match ?x with _ => _ end) => destruct x
          end ].

Lemma handleUpvote_bucket s i b w :
  bucket (snd (IssueCard.handleUpvote s i b w)) = bucket w.
Proof.
  unfold IssueCard.handleUpvote. apply try_catch_bucket.
  unfold IssueCard.handleUpvote_try, auth_getUser.
  repeat keeps_bucket_step.
Qed.

Lemma handleDeleteIssue_bucket user id w :
  bucket (snd (Profile.handleDeleteIssue user id w)) = bucket w.
Proof.
  unfold Profile.handleDeleteIssue. destruct user as [u|]; [|reflexivity].
  apply try_catch_bucket. unfold Profile.handleDeleteIssue_try.
  repeat keeps_bucket_step.
Qed.

Lemma handleStatusChange_bucket s id st w :
  bucket (snd (Dashboard.handleStatusChange s id st w)) = bucket w.
Proof.
  unfold Dashboard.handleStatusChange. apply try_catch_bucket.
  apply keeps_bind; [intros w0; reflexivity|intros now].
  repeat keeps_bucket_step.
Qed.

Lemma upvotes_own_session s x :
  upvotes_own s x = true -> s = Some (upvote_user_id x).
Proof.
  destruct s as [uid|]; simpl; [|discriminate].
  intros H. apply String.eqb_eq in H. now subst.
Qed.

(** The upvote rows a click can touch are those of the pair (issue of the
    card, signed-in user). *)
Lemma handleUpvote_rows s i b w x :
  ~ (upvote_issue_id x = issue_id i /\ s = Some (upvote_user_id x)) ->
  (In x (upvotes (db (snd (IssueCard.handleUpvote s i b w)))) <->
   In x (upvotes (db w))).
Proof.
  intros Hx.
  destruct (handleUpvote_db s i w b) as [->|[(uid & ->)|(uid & ->)]].
  - reflexivity.
  - simpl. rewrite filter_In. split; [now intros [H _]|]. intros H.
    split; [exact H|].
    destruct (same_upvote (issue_id i) uid x && upvotes_own s x) eqn:E;
      [|reflexivity].
    apply andb_prop in E as [E1 E2]. exfalso. apply Hx. split.
    + apply same_upvote_issue in E1. now apply String.eqb_eq.
    + now apply upvotes_own_session.
  - unfold insert_upvote.
    destruct (upvotes_own s (mkUpvote (issue_id i) uid)) eqn:Eown; simpl;
      [|reflexivity].
    destruct (existsb _ (upvotes (db w))); simpl; [reflexivity|].
    destruct (negb _); simpl; [reflexivity|].
    rewrite in_app_iff. split; [|now left].
    intros [H|[<-|[]]]; [exact H|]. exfalso. apply Hx. simpl.
    split; [reflexivity|]. now apply upvotes_own_session in Eown.
Qed.

Lemma handleUpvote_other_tables s i b w :
  let d' := db (snd (IssueCard.handleUpvote s i b w)) in
  issues d' = issues (db w) /\ profiles d' = profiles (db w) /\
  departments d' = departments (db w) /\ user_roles d' = user_roles (db w) /\
  issues_delete_policy d' = issues_delete_policy (db w).
Proof.
  cbv zeta.
  destruct (handleUpvote_db s i w b) as [->|[(uid & ->)|(uid & ->)]].
  - repeat split.
  - repeat split.
  - unfold insert_upvote.
    destruct (negb _); [repeat split|].
    destruct (existsb _ _); [repeat split|].
    destruct (negb _); repeat split.
Qed.

(** X11.  A click on the upvote button, whatever the session, the card
    and the network: it touches no table but [upvotes] and not the photo
    bucket, and in [upvotes] no row but the one of the pair (issue of the
    card, signed-in user); it calls [onUpvoteChange] exactly when it shows
    no toast; and without a session it writes nothing and reports "Not
    authenticated". *)
Theorem X11_upvote_click_frame (s : Session) (i : issue) (b : bool) (w : World) :
  let r := IssueCard.handleUpvote s i b w in
  (issues (db (snd r)) = issues (db w) /\
   profiles (db (snd r)) = profiles (db w) /\
   departments (db (snd r)) = departments (db w) /\
   user_roles (db (snd r)) = user_roles (db w) /\
   issues_delete_policy (db (snd r)) = issues_delete_policy (db w)) /\
  bucket (snd r) = bucket w /\
  (forall x,
      ~ (upvote_issue_id x = issue_id i /\ s = Some (upvote_user_id x)) ->
      (In x (upvotes (db (snd r))) <-> In x (upvotes (db w)))) /\
  (snd (fst r) = true <-> fst (fst r) = None) /\
  (s = None ->
   db (snd r) = db w /\
   fst r = (Some (ErrorToast "Error" (JsError "Not authenticated")), false)).
Proof.
  cbv zeta. split; [apply handleUpvote_other_tables|].
  split; [apply handleUpvote_bucket|].
  split; [intros x; apply handleUpvote_rows|].
  split.
  - unfold IssueCard.handleUpvote, try_catch, bind, ret.
    destruct (IssueCard.handleUpvote_try s i b w) as [[e|[]] w']; simpl;
      split; intros H; congruence.
  - intros ->.
    unfold IssueCard.handleUpvote, IssueCard.handleUpvote_try, try_catch,
      auth_getUser, or_throw, bind, await, request, on_db, throw, ret.
    destruct (net w) as [|[m|] rest]; simpl; split; reflexivity.
Qed.

Lemma X11_witness :
  fst (IssueCard.handleUpvote None Example.i1 false Example.world)
  = (Some (ErrorToast "Error" (JsError "Not authenticated")), false).
Proof.
  apply (X11_upvote_click_frame None Example.i1 false Example.world).
  reflexivity.
Defined.

Section DeleteFrame.

Variables (user id : uuid) (d : Db).

Lemma delete_issues_upvotes v :
  In v (upvotes (snd (delete_issues (Some user) id user d))) <->
  In v (upvotes d) /\
  ~ exists i, In i (issues d) /\ issue_id i = upvote_issue_id v /\
              issue_id i = id /\ reporter_id i = user /\
              issues_delete_policy d = true.
Proof.
  unfold delete_issues. simpl. rewrite filter_In.
  split; intros [Hv H]; split; try exact Hv.
  - intros (i & Hi & Hiv & Hid & Hrep & Hpol).
    apply negb_true_iff in H.
    assert (Hex : existsb (fun i0 => String.eqb (issue_id i0) (upvote_issue_id v))
                    (filter (fun i0 => String.eqb (issue_id i0) id
                                       && String.eqb (reporter_id i0) user
                                       && issues_delete_using d (Some user) i0)
                            (issues d)) = true).
    { apply existsb_exists. exists i. split; [|now apply String.eqb_eq].
      apply filter_In. split; [exact Hi|].
      unfold issues_delete_using. rewrite Hpol.
      apply String.eqb_eq in Hid, Hrep. now rewrite Hid, Hrep. }
    congruence.
  - apply negb_true_iff.
    destruct (existsb _ _) eqn:E; [|reflexivity].
    exfalso. apply H.
    apply existsb_exists in E as (i & Hi & Hiv).
    apply filter_In in Hi as [Hi Ht].
    apply andb_prop in Ht as [Ht Hpol]. apply andb_prop in Ht as [Hid Hrep].
    unfold issues_delete_using in Hpol. apply andb_prop in Hpol as [Hpol _].
    apply String.eqb_eq in Hid, Hrep, Hiv.
    exists i. auto 6.
Qed.

Lemma delete_issues_other_tables :
  let d' := snd (delete_issues (Some user) id user d) in
  profiles d' = profiles d /\ departments d' = departments d /\
  user_roles d' = user_roles d /\
  issues_delete_policy d' = issues_delete_policy d.
Proof. repeat split. Qed.

End DeleteFrame.

(** X12.  The delete handler, whatever the session, the id and the
    network: it touches no table but [issues] and [upvotes] and not the
    photo bucket (the photo of a deleted issue stays in storage); it adds
    no row; every issue with another id or another reporter stays, and so
    does every upvote of another issue.  When it reports "Issue deleted"
    and the upvotes referred to issues of the table, no upvote of the
    deleted issue is left.  Without a user it does nothing. *)
Theorem X12_delete_frame (user : Session) (id : uuid) (w : World) :
  let r := Profile.handleDeleteIssue user id w in
  (profiles (db (snd r)) = profiles (db w) /\
   departments (db (snd r)) = departments (db w) /\
   user_roles (db (snd r)) = user_roles (db w) /\
   issues_delete_policy (db (snd r)) = issues_delete_policy (db w)) /\
  bucket (snd r) = bucket w /\
  (forall x, In x (issues (db (snd r))) -> In x (issues (db w))) /\
  (forall x, In x (issues (db w)) ->
             issue_id x <> id \/ Some (reporter_id x) <> user ->
             In x (issues (db (snd r)))) /\
  (forall v, In v (upvotes (db (snd r))) -> In v (upvotes (db w))) /\
  (forall v, In v (upvotes (db w)) -> upvote_issue_id v <> id ->
             In v (upvotes (db (snd r)))) /\
  (fst r = Some issue_deleted -> upvotes_reference (db w) ->
   forall v, In v (upvotes (db (snd r))) -> upvote_issue_id v <> id) /\
  (user = None -> r = (None, w)).
Proof.
  cbv zeta. destruct user as [u|].
  2:{ simpl. repeat split; auto; discriminate. }
  split; [|split; [apply handleDeleteIssue_bucket|]].
  - pose proof (handleDeleteIssue_outcome u id w) as Hout.
    destruct (Profile.handleDeleteIssue (Some u) id w) as [t w']. simpl.
    destruct Hout as [(_ & -> & _)|(e & _ & [->| ->])]; repeat split.
  - pose proof (handleDeleteIssue_outcome u id w) as Hout.
    destruct (Profile.handleDeleteIssue (Some u) id w) as [t w']. simpl.
    assert (Hcases : db w' = db w \/
                     db w' = snd (delete_issues (Some u) id u (db w))).
    { destruct Hout as [(_ & H & _)|(e & _ & [H|H])]; auto. }
    split; [|split; [|split; [|split; [|split; [|discriminate]]]]].
    + intros x Hx. destruct Hcases as [E|E]; rewrite E in Hx; [exact Hx|].
      now apply delete_issues_rows in Hx as [Hx _].
    + intros x Hx Hother. destruct Hcases as [E|E]; rewrite E; [exact Hx|].
      apply delete_issues_rows. split; [exact Hx|].
      intros (Hid & Hrep & _). destruct Hother as [H|H]; [now apply H|].
      apply H. now rewrite Hrep.
    + intros v Hv. destruct Hcases as [E|E]; rewrite E in Hv; [exact Hv|].
      now apply delete_issues_upvotes in Hv as [Hv _].
    + intros v Hv Hother. destruct Hcases as [E|E]; rewrite E; [exact Hv|].
      apply delete_issues_upvotes. split; [exact Hv|].
      intros (i & _ & Hiv & Hid & _). apply Hother. congruence.
    + intros Ht Href v Hv Hid.
      destruct Hout as [(_ & E & Hnone)|(e & He & _)];
        [|unfold issue_deleted in Ht; congruence].
      rewrite E in Hv. apply delete_issues_upvotes in Hv as [Hv Hnot].
      destruct (Href v Hv) as [(i & Hi & Hiv) _].
      apply (Hnone i); [|congruence].
      rewrite E. apply delete_issues_rows. split; [exact Hi|].
      intros (Hi1 & Hi2 & Hi3). apply Hnot. exists i. auto 6.
Qed.

(** Checks of the foreign keys that compute. *)
Lemma upvotes_reference_check d :
  forallb (fun x =>
             existsb (fun i => String.eqb (issue_id i) (upvote_issue_id x))
                     (issues d)
             && existsb (fun p => String.eqb (profile_id p) (upvote_user_id x))
                        (profiles d))
          (upvotes d) = true ->
  upvotes_reference d.
Proof.
  intros H x Hx. apply (proj1 (forallb_forall _ _) H) in Hx.
  apply andb_prop in Hx as [Hi Hp].
  apply existsb_exists in Hi as (i & Hi & Ei).
  apply existsb_exists in Hp as (p & Hp & Ep).
  apply String.eqb_eq in Ei, Ep. split; eauto.
Qed.

Lemma issues_reference_check d :
  forallb (fun i =>
             existsb (fun p => String.eqb (profile_id p) (reporter_id i))
                     (profiles d)
             && existsb (fun x => String.eqb (dept_id x) (department_id i))
                        (departments d))
          (issues d) = true ->
  issues_reference d.
Proof.
  intros H i Hi. apply (proj1 (forallb_forall _ _) H) in Hi.
  apply andb_prop in Hi as [Hp Hx].
  apply existsb_exists in Hp as (p & Hp & Ep).
  apply existsb_exists in Hx as (x & Hx & Ex).
  apply String.eqb_eq in Ep, Ex. split; eauto.
Qed.

Lemma college_upvotes_reference : upvotes_reference (db Example.world).
Proof. apply upvotes_reference_check. reflexivity. Qed.

Lemma X12_witness :
  Forall (fun v => upvote_issue_id v <> "i2")
    (upvotes (db (snd (Profile.handleDeleteIssue (Some "alice") "i2"
                         Example.world)))).
Proof.
  apply Forall_forall.
  apply (X12_delete_frame (Some "alice") "i2" Example.world).
  - reflexivity.
  - exact college_upvotes_reference.
Defined.


(** ** Reporting an issue *)

Section Submit.

Variables (s : Session) (new_id : uuid) (f : Index.form).

(** The row a submission inserts for the user [u] at time [now]. *)
Lemma insert_issue_own now url d :
  insert_issue s new_id now
    (mkIssueInsert s (Index.departmentId f) (Index.roomNo f) (Index.itemId f)
                   (Index.form_title f) (Index.form_description f) url) d =
  match s with
  | None => (inl RlsViolation, d)
  | Some u =>
      if existsb (fun i => String.eqb (issue_id i) new_id) (issues d)
      then (inl UniqueViolation, d)
      else if existsb (fun p => String.eqb (profile_id p) u) (profiles d)
              && existsb (fun x => String.eqb (dept_id x) (Index.departmentId f))
                         (departments d)
      then (inr tt,
            set_issues
              (issues d ++
               [mkIssue new_id u (Index.departmentId f) (Index.roomNo f)
                        (Index.itemId f) (Index.form_title f)
                        (Some (Index.form_description f)) url pending false
                        now (now + thirty_days) None]) d)
      else (inl ForeignKeyViolation, d)
  end.
Proof.
  unfold insert_issue. destruct s as [u|]; simpl; [|reflexivity].
  rewrite String.eqb_refl. simpl.
  destruct (existsb _ (issues d)); [reflexivity|].
  destruct (existsb _ (profiles d) && existsb _ (departments d)); reflexivity.
Qed.

Lemma insert_issue_keeps_bucket url :
  keeps_bucket
    (await (request (fun w =>
       on_db (insert_issue s new_id (clock w)
                (mkIssueInsert s (Index.departmentId f) (Index.roomNo f)
                               (Index.itemId f) (Index.form_title f)
                               (Index.form_description f) url)) w))).
Proof.
  apply keeps_await_request. intros w. unfold on_db.
  now destruct (insert_issue _ _ _ _ _).
Qed.

Lemma fresh_id_existsb d :
  existsb (fun i => String.eqb (issue_id i) new_id) (issues d) = false <->
  forall i, In i (issues d) -> issue_id i <> new_id.
Proof.
  split.
  - intros H i Hi E.
    assert (Hex : existsb (fun i => String.eqb (issue_id i) new_id) (issues d) = true)
      by (apply existsb_exists; exists i; split; [exact Hi|now apply String.eqb_eq]).
    congruence.
  - intros H. destruct (existsb _ _) eqn:E; [|reflexivity].
    apply existsb_exists in E as (i & Hi & E). apply String.eqb_eq in E.
    exfalso. exact (H i Hi E).
Qed.

End Submit.

(** X13.  A report without a photo, with the network up.  No object is
    stored.  The handler reports success exactly when there is a session,
    the user has a profile, the chosen department exists and the drawn id
    is new; it then adds one row: the fields of the form, the user as
    reporter, no photo, status pending, not priority, not resolved, the
    deadline thirty days after the report, so that the card of the new
    issue shows 30 days and no days-left badge.  Otherwise the database
    stays as it was; without a session the insert is refused by row-level
    security (no INSERT policy applies). *)
Theorem X13_submit_without_photo (s : Session) (new_id : uuid) (f : Index.form)
    (w : World) :
  Index.photo f = None -> net w = [] ->
  let r := Index.handleSubmitIssue s new_id f w in
  bucket (snd r) = bucket w /\
  (fst r = issue_reported <->
   exists u,
     s = Some u /\
     (exists p, In p (profiles (db w)) /\ profile_id p = u) /\
     (exists x, In x (departments (db w)) /\ dept_id x = Index.departmentId f) /\
     (forall i, In i (issues (db w)) -> issue_id i <> new_id)) /\
  (fst r = issue_reported ->
   exists u row,
     s = Some u /\
     row = mkIssue new_id u (Index.departmentId f) (Index.roomNo f)
                   (Index.itemId f) (Index.form_title f)
                   (Some (Index.form_description f)) None pending false
                   (clock w) (clock w + thirty_days) None /\
     issues (db (snd r)) = (issues (db w) ++ [row])%list /\
     upvotes (db (snd r)) = upvotes (db w) /\
     IssueCardView.daysRemaining (deadline row) (clock w) = 30 /\
     IssueCardView.days_left_badge row (clock w) = None) /\
  (fst r <> issue_reported -> db (snd r) = db w) /\
  (s = None -> fst r = ErrorToast "Error" (Thrown RlsViolation)).
Proof.
  intros Hphoto Hnet. cbv zeta.
  assert (Hrun :
    Index.handleSubmitIssue s new_id f w =
    match insert_issue s new_id (clock w)
            (mkIssueInsert s (Index.departmentId f) (Index.roomNo f)
                           (Index.itemId f) (Index.form_title f)
                           (Index.form_description f) None) (db w) with
    | (inl e, d) => (ErrorToast "Error" (Thrown e), set_db d w)
    | (inr _, d) => (issue_reported, set_db d w)
    end).
  { unfold Index.handleSubmitIssue, Index.upload_photo, try_catch.
    rewrite Hphoto. unfold bind, ret, await.
    rewrite request_arrives by exact Hnet. unfold on_db.
    destruct (insert_issue _ _ _ _ _) as [[e|[]] d]; reflexivity. }
  rewrite Hrun, insert_issue_own. clear Hrun.
  assert (H30 : forall now,
             IssueCardView.daysRemaining (now + thirty_days) now = 30).
  { intros now.
    pose proof (daysRemaining_bounds (now + thirty_days) now) as [Hlo Hhi].
    unfold thirty_days in *. pose proof ms_per_day_pos' as Hpos. nia. }
  destruct s as [u|].
  2:{ simpl.
      repeat split; try discriminate; try reflexivity.
      intros (u & Hu & _). discriminate Hu. }
  destruct (existsb (fun i => String.eqb (issue_id i) new_id) (issues (db w)))
    eqn:Efresh.
  { simpl.
    repeat split; try discriminate; try reflexivity.
    intros (u' & _ & _ & _ & Hf). apply fresh_id_existsb in Hf. congruence. }
  destruct (existsb (fun p => String.eqb (profile_id p) u) (profiles (db w)))
    eqn:Eprof.
  2:{ simpl.
      repeat split; try discriminate; try reflexivity.
      intros (u' & Hu & (p & Hp & Hid) & _). inversion Hu; subst u'.
      assert (existsb (fun p => String.eqb (profile_id p) u) (profiles (db w)) = true)
        by (apply existsb_exists; exists p; split;
            [exact Hp|now apply String.eqb_eq]).
      congruence. }
  destruct (existsb (fun x => String.eqb (dept_id x) (Index.departmentId f))
                    (departments (db w))) eqn:Edept.
  2:{ simpl.
      repeat split; try discriminate; try reflexivity.
      intros (u' & _ & _ & (x & Hx & Hid) & _).
      assert (existsb (fun x => String.eqb (dept_id x) (Index.departmentId f))
                (departments (db w)) = true)
        by (apply existsb_exists; exists x; split;
            [exact Hx|now apply String.eqb_eq]).
      congruence. }
  simpl. split; [reflexivity|]. split; [|split; [|split]].
  - split; [|reflexivity]. intros _. exists u. split; [reflexivity|].
    apply existsb_exists in Eprof as (p & Hp & Ep).
    apply existsb_exists in Edept as (x & Hx & Ex).
    apply String.eqb_eq in Ep, Ex.
    split; [eauto|]. split; [eauto|]. now apply fresh_id_existsb.
  - intros _. do 2 eexists. split; [reflexivity|]. split; [reflexivity|].
    split; [reflexivity|]. split; [reflexivity|]. simpl.
    split; [apply H30|].
    unfold IssueCardView.days_left_badge. simpl. now rewrite H30.
  - intros H. exfalso. apply H. reflexivity.
  - discriminate.
Qed.

Lemma X13_witness :
  fst (Index.handleSubmitIssue (Some "alice") "i9"
         (Index.mkForm "B216" "FAN-02" "Fan noisy" "" None "d-ee")
         Example.world) = issue_reported.
Proof.
  apply (X13_submit_without_photo (Some "alice") "i9"
           (Index.mkForm "B216" "FAN-02" "Fan noisy" "" None "d-ee")
           Example.world eq_refl eq_refl).
  exists "alice". split; [reflexivity|]. split; [|split].
  - eexists. split; [left; reflexivity|reflexivity].
  - eexists. split; [right; right; right; right; left; reflexivity|reflexivity].
  - intros i [<-|[<-|[<-|[]]]]; discriminate.
Defined.

Lemma existsb_eqb_In (k : string) (l : list string) :
  existsb (String.eqb k) l = false <-> ~ In k l.
Proof.
  split.
  - intros H Hin.
    assert (existsb (String.eqb k) l = true)
      by (apply existsb_exists; exists k; split;
          [exact Hin|apply String.eqb_refl]).
    congruence.
  - intros H. destruct (existsb _ l) eqn:E; [|reflexivity].
    apply existsb_exists in E as (x & Hx & E). apply String.eqb_eq in E.
    subst x. contradiction.
Qed.

(** What the upload step does to the world. *)
Lemma upload_photo_result (s : Session) (f : Index.form) (w : World) :
  let key name := Index.photo_key s (clock w) name in
  let '(r, w') := Index.upload_photo s f w in
  db w' = db w /\ clock w' = clock w /\
  (bucket w' = bucket w \/
   exists name, Index.photo f = Some name /\ r = inr (Some (getPublicUrl w (key name))) /\
                bucket w' = (bucket w ++ [key name])%list) /\
  (forall name u, Index.photo f = Some name -> net w = [] -> s = Some u ->
                  ~ In (key name) (bucket w) ->
                  r = inr (Some (getPublicUrl w (key name))) /\
                  bucket w' = (bucket w ++ [key name])%list /\ net w' = []).
Proof.
  cbv zeta. unfold Index.upload_photo.
  destruct (Index.photo f) as [name|].
  2:{ simpl. repeat split; auto; discriminate. }
  unfold bind, Date_now, await, request, storage_upload, or_throw, throw, ret,
    getPublicUrl.
  destruct s as [u|].
  - destruct (existsb (String.eqb (Index.photo_key (Some u) (clock w) name))
                      (bucket w)) eqn:Ex;
      destruct (net w) as [|[msg|] rest] eqn:E; simpl; rewrite ?Ex; simpl;
      (split; [reflexivity|]); (split; [reflexivity|]);
      (split; [try (now left); right; exists name; auto|]);
      intros name' u' Hn Hnet Hs Hnot; inversion Hn; subst name';
      try discriminate Hnet.
    + apply existsb_eqb_In in Hnot. congruence.
    + repeat split; auto.
  - destruct (net w) as [|[msg|] rest]; simpl;
      (split; [reflexivity|]); (split; [reflexivity|]);
      (split; [now left|]); intros name' u' _ _ Hs; discriminate Hs.
Qed.

(** X14.  A report with a photo, under any session and network.  The
    handler never removes an object from the bucket and stores at most the
    one object of the report.  With the network up, a session and a new
    key, the photo is stored, and when the handler then fails (the insert
    is refused) the photo stays in the bucket while the database has no
    row for it. *)
Theorem X14_photo_without_issue (s : Session) (new_id : uuid) (f : Index.form)
    (name : string) (w : World) :
  Index.photo f = Some name ->
  let r := Index.handleSubmitIssue s new_id f w in
  let key := Index.photo_key s (clock w) name in
  (bucket (snd r) = bucket w \/ bucket (snd r) = (bucket w ++ [key])%list) /\
  (forall k, In k (bucket w) -> In k (bucket (snd r))) /\
  (net w = [] -> (exists u, s = Some u) -> ~ In key (bucket w) ->
   bucket (snd r) = (bucket w ++ [key])%list /\
   (fst r <> issue_reported ->
    db (snd r) = db w /\ exists e, fst r = ErrorToast "Error" e)).
Proof.
  intros Hphoto. cbv zeta.
  pose proof (upload_photo_result s f w) as Hup. cbv zeta in Hup.
  destruct (Index.handleSubmitIssue s new_id f w) as [t w'] eqn:H.
  simpl fst. simpl snd.
  unfold Index.handleSubmitIssue, try_catch in H. unfold bind at 1 in H.
  destruct (Index.upload_photo s f w) as [[e|url] w1].
  { destruct Hup as (D & _ & [B|(n & _ & Hr & _)] & Hok); [|discriminate Hr].
    inversion H; subst t w'. clear H.
    split; [now left|]. split; [now rewrite B|].
    intros Hnet (u & Hu) Hnot.
    destruct (Hok name u Hphoto Hnet Hu Hnot) as [Hr _]. discriminate Hr. }
  destruct Hup as (D1 & C1 & Hb & Hok).
  pose proof (insert_issue_keeps_bucket s new_id f url w1) as Hkeep.
  unfold bind at 1 in H. unfold await in H, Hkeep.
  destruct (request (fun w0 =>
              on_db (insert_issue s new_id (clock w0)
                       (mkIssueInsert s (Index.departmentId f) (Index.roomNo f)
                          (Index.itemId f) (Index.form_title f)
                          (Index.form_description f) url)) w0) w1)
    as [r2 w2] eqn:R.
  simpl in Hkeep.
  apply insert_request_result in R.
  assert (Hrest : bucket w' = bucket w1 /\
                  (t <> issue_reported ->
                   db w' = db w /\ exists e, t = ErrorToast "Error" e)).
  { unfold bind, or_throw, throw, ret in H.
    destruct R as [(e & -> & D)|(row & -> & _)]; inversion H; subst t w'.
    - split; [exact Hkeep|]. intros _. split; [congruence|eauto].
    - split; [exact Hkeep|]. intros E. exfalso. apply E. reflexivity. }
  destruct Hrest as [HB HF]. rewrite HB. split; [|split].
  - destruct Hb as [B|(n & Hn & _ & B)]; [now left|right].
    rewrite Hphoto in Hn. inversion Hn; subst n. exact B.
  - intros k Hk. destruct Hb as [B|(n & _ & _ & B)]; rewrite B; [exact Hk|].
    apply in_app_iff. now left.
  - intros Hnet (u & Hu) Hnot.
    destruct (Hok name u Hphoto Hnet Hu Hnot) as (_ & B & _).
    split; [exact B|exact HF].
Qed.

Lemma X14_witness :
  let r := Index.handleSubmitIssue (Some "alice") "i9"
             (Index.mkForm "B216" "FAN-02" "Fan noisy" "" (Some "fan.png")
                           "no-such-department")
             Example.world in
  bucket (snd r) = ["alice/5000.png"] /\ db (snd r) = db Example.world.
Proof.
  cbv zeta.
  destruct (X14_photo_without_issue (Some "alice") "i9"
              (Index.mkForm "B216" "FAN-02" "Fan noisy" "" (Some "fan.png")
                            "no-such-department")
              "fan.png" Example.world eq_refl) as (_ & _ & H).
  destruct H as [HB HD].
  - reflexivity.
  - exists "alice". reflexivity.
  - intros [].
  - split; [exact HB|]. apply HD. vm_compute. discriminate.
Defined.


(** ** The key of an uploaded photo *)

Section PhotoKey.

Lemma append_snoc (a : string) (c : ascii) (b : string) :
  ((a ++ String c EmptyString) ++ b = a ++ String c b)%string.
Proof. induction a as [|x a IH]; simpl; [reflexivity|]. now rewrite IH. Qed.

Lemma append_empty_r (a : string) : (a ++ EmptyString = a)%string.
Proof. induction a as [|x a IH]; simpl; [reflexivity|]. now rewrite IH. Qed.

Lemma split_pop_no_dot (acc name : string) :
  without "."%char name = true -> Index.split_pop acc name = (acc ++ name)%string.
Proof.
  revert acc. induction name as [|c rest IH]; intros acc H; simpl in *.
  - now rewrite append_empty_r.
  - apply andb_prop in H as [Hc Hrest]. apply negb_true_iff in Hc.
    rewrite Hc, IH by exact Hrest. apply append_snoc.
Qed.

Lemma split_pop_after_dot (acc base ext : string) :
  without "."%char ext = true ->
  Index.split_pop acc (base ++ String "."%char ext) = ext.
Proof.
  intros H. revert acc. induction base as [|c base IH]; intros acc; simpl.
  - now rewrite split_pop_no_dot.
  - destruct (Ascii.eqb c "."%char); apply IH.
Qed.

Lemma split_pop_without (acc name : string) :
  without "."%char acc = true ->
  without "."%char (Index.split_pop acc name) = true.
Proof.
  revert acc. induction name as [|c rest IH]; intros acc H; simpl; [exact H|].
  destruct (Ascii.eqb c "."%char) eqn:E; apply IH; [reflexivity|].
  clear IH. induction acc as [|a acc IHa]; simpl in *.
  - now rewrite E.
  - apply andb_prop in H as [Ha Hacc]. rewrite Ha. simpl. now apply IHa.
Qed.

(** X15.  The extension of a photo name, [name.split('.').pop()]: it is
    what follows the last dot, and it never contains a dot; a name without
    a dot is its own extension, so that the key of such a photo ends with
    a dot and the whole name. *)
Theorem X15_photo_extension (name : string) :
  without "."%char (Index.split_pop EmptyString name) = true /\
  (forall base ext,
      name = (base ++ String "."%char ext)%string ->
      without "."%char ext = true ->
      Index.split_pop EmptyString name = ext) /\
  (without "."%char name = true ->
   Index.split_pop EmptyString name = name /\
   forall s now,
     Index.photo_key s now name =
     (Index.user_id_text s ++ "/" ++ NilEmpty.string_of_int (Z.to_int now)
      ++ "." ++ name)%string).
Proof.
  split; [now apply split_pop_without|]. split.
  - intros base ext -> H. now apply split_pop_after_dot.
  - intros H. pose proof (split_pop_no_dot EmptyString name H) as E.
    simpl in E. split; [exact E|].
    intros s now. unfold Index.photo_key. now rewrite E.
Qed.

Lemma X15_witness :
  Index.split_pop EmptyString "fan.photo.png" = "png" /\
  Index.photo_key (Some "alice") 5000 "README" = "alice/5000.README".
Proof.
  split.
  - apply (X15_photo_extension "fan.photo.png") with (base := "fan.photo");
      reflexivity.
  - pose proof (X15_photo_extension "README") as (_ & _ & H).
    destruct (H eq_refl) as [_ Hkey]. rewrite Hkey. reflexivity.
Defined.

Lemma split_on_nonempty (sep : ascii) (acc name : string) :
  split_on sep acc name <> [].
Proof.
  revert acc. induction name as [|c rest IH]; intros acc; simpl; [discriminate|].
  destruct (Ascii.eqb c sep); [discriminate|apply IH].
Qed.

Lemma split_on_prefix (sep : ascii) (acc a rest : string) :
  without sep a = true ->
  split_on sep acc (a ++ String sep rest) =
  (acc ++ a)%string :: split_on sep EmptyString rest.
Proof.
  revert acc. induction a as [|c a IH]; intros acc H; simpl in *.
  - rewrite Ascii.eqb_refl. now rewrite append_empty_r.
  - apply andb_prop in H as [Hc Ha]. apply negb_true_iff in Hc.
    rewrite Hc, IH by exact Ha. now rewrite append_snoc.
Qed.

(** X16.  The folder of a photo key is the id of the uploader: for a user
    id without a slash, the first folder of the key the report handler
    builds is that id, whatever the time and the file name, so the storage
    policies "Users can update/delete their own issue photos" accept the
    uploader and nobody else. *)
Theorem X16_photo_key_owner (uid : uuid) (now : timestamp) (name : string) :
  without "/"%char uid = true ->
  (exists folders,
      storage_foldername (Index.photo_key (Some uid) now name) = uid :: folders) /\
  forall s,
    storage_owner s (Index.photo_key (Some uid) now name) =
    match s with
    | Some v => String.eqb v uid
    | None => false
    end.
Proof.
  intros H.
  assert (Hfold : exists folders,
             storage_foldername (Index.photo_key (Some uid) now name)
             = uid :: folders).
  { unfold storage_foldername, Index.photo_key, Index.user_id_text.
    change ("/" ++ ?x)%string with (String "/"%char x).
    rewrite split_on_prefix by exact H. simpl append.
    match goal with
    | |- context [split_on ?c ?a ?n] =>
        pose proof (split_on_nonempty c a n) as Hne;
        destruct (split_on c a n) as [|y l]; [congruence|]
    end.
    simpl. eauto. }
  split; [exact Hfold|].
  intros s. unfold storage_owner. destruct Hfold as (folders & ->).
  destruct s; reflexivity.
Qed.

Lemma X16_witness :
  storage_owner (Some "bob") (Index.photo_key (Some "alice") 5000 "fan.png")
  = false.
Proof.
  rewrite (proj2 (X16_photo_key_owner "alice" 5000 "fan.png" eq_refl)).
  reflexivity.
Defined.

End PhotoKey.


(** ** The portal as a whole: what every sequence of actions keeps *)

Section Commands.

Lemma NoDup_map_filter {A B} (g : A -> B) (p : A -> bool) (l : list A) :
  NoDup (map g l) -> NoDup (map g (filter p l)).
Proof.
  induction l as [|a l IH]; simpl; intros H; [constructor|].
  inversion H as [|? ? Ha Hl]; subst.
  destruct (p a); simpl; [constructor|]; auto.
  intros Hin. apply Ha. apply in_map_iff in Hin as (x & Hx & Hin).
  apply filter_In in Hin as [Hin _]. apply in_map_iff. eauto.
Qed.

Lemma insert_upvote_cases s v d :
  snd (insert_upvote s v d) = d \/
  (snd (insert_upvote s v d) = set_upvotes (upvotes d ++ [v]) d /\
   (exists i, In i (issues d) /\ issue_id i = upvote_issue_id v) /\
   (exists p, In p (profiles d) /\ profile_id p = upvote_user_id v)).
Proof.
  unfold insert_upvote.
  destruct (negb (upvotes_own s v)); [now left|].
  destruct (existsb _ (upvotes d)); [now left|].
  destruct (existsb (fun i => String.eqb (issue_id i) (upvote_issue_id v)) (issues d))
    eqn:Ei; simpl; [|now left].
  destruct (existsb (fun p => String.eqb (profile_id p) (upvote_user_id v))
                    (profiles d)) eqn:Ep; simpl; [|now left].
  right. split; [reflexivity|].
  apply existsb_exists in Ei as (i & Hi & Ei).
  apply existsb_exists in Ep as (p & Hp & Ep).
  apply String.eqb_eq in Ei, Ep. split; eauto.
Qed.

Lemma insert_issue_cases s new_id now v d :
  snd (insert_issue s new_id now v d) = d \/
  exists row,
    snd (insert_issue s new_id now v d) = set_issues (issues d ++ [row]) d /\
    issue_id row = new_id /\
    (forall i, In i (issues d) -> issue_id i <> new_id) /\
    (exists p, In p (profiles d) /\ profile_id p = reporter_id row) /\
    (exists x, In x (departments d) /\ dept_id x = department_id row).
Proof.
  unfold insert_issue. destruct s as [uid|]; [|now left].
  destruct (ins_reporter_id v) as [rep|]; [|now left].
  destruct (negb (issues_insert_check _ _)); [now left|].
  destruct (existsb (fun i => String.eqb (issue_id i) new_id) (issues d)) eqn:Ef;
    [now left|].
  destruct (existsb (fun p => String.eqb (profile_id p) rep) (profiles d)) eqn:Ep;
    simpl; [|now left].
  destruct (existsb (fun x => String.eqb (dept_id x) (ins_department_id v))
                    (departments d)) eqn:Ex; simpl; [|now left].
  right. eexists. split; [reflexivity|]. simpl. split; [reflexivity|].
  split; [now apply fresh_id_existsb|].
  apply existsb_exists in Ep as (p & Hp & Ep).
  apply existsb_exists in Ex as (x & Hx & Ex).
  apply String.eqb_eq in Ep, Ex. split; eauto.
Qed.

Lemma delete_upvotes_constraints s i u d :
  constraints d -> constraints (snd (delete_upvotes s i u d)).
Proof.
  intros (Hpk & Huq & Hur & Hir). split; [exact Hpk|].
  split; [now apply delete_upvotes_unique|]. split; [|exact Hir].
  intros x Hx. simpl in Hx. apply filter_In in Hx as [Hx _]. now apply Hur.
Qed.

Lemma insert_upvote_constraints s v d :
  constraints d -> constraints (snd (insert_upvote s v d)).
Proof.
  intros Hc. pose proof (insert_upvote_unique s v d (proj1 (proj2 Hc))) as Huq'.
  destruct (insert_upvote_cases s v d) as [E|(E & Hi & Hp)];
    rewrite E in *; [exact Hc|].
  destruct Hc as (Hpk & Huq & Hur & Hir).
  split; [exact Hpk|]. split; [exact Huq'|]. split; [|exact Hir].
  intros x Hx. simpl in Hx. apply in_app_iff in Hx as [Hx|[<-|[]]].
  - now apply Hur.
  - split; assumption.
Qed.

Lemma insert_issue_constraints s new_id now v d :
  constraints d -> constraints (snd (insert_issue s new_id now v d)).
Proof.
  intros Hc.
  destruct (insert_issue_cases s new_id now v d)
    as [E|(row & E & Hid & Hfresh & Hp & Hdep)]; rewrite E; [exact Hc|].
  destruct Hc as (Hpk & Huq & Hur & Hir).
  split; [|split; [exact Huq|split]].
  - unfold issues_pkey in *. simpl. rewrite map_app. simpl.
    apply NoDup_app.
    + exact Hpk.
    + repeat constructor. intros [].
    + intros k Hk [<-|[]]. apply in_map_iff in Hk as (i & Hi & Hin).
      apply (Hfresh i Hin). congruence.
  - intros x Hx. simpl. destruct (Hur x Hx) as [(i & Hi & Ei) Hprof].
    split; [|exact Hprof]. exists i. split; [|exact Ei].
    apply in_app_iff. now left.
  - intros i Hi. simpl in Hi. apply in_app_iff in Hi as [Hi|[<-|[]]].
    + now apply Hir.
    + split; assumption.
Qed.

Lemma delete_issues_constraints u id d :
  constraints d -> constraints (snd (delete_issues (Some u) id u d)).
Proof.
  intros (Hpk & Huq & Hur & Hir). split; [|split; [|split]].
  - unfold issues_pkey in *. simpl. now apply NoDup_map_filter.
  - intros i0 u0. simpl.
    eapply Nat.le_trans; [apply filter_length_le|apply Huq].
  - intros x Hx. apply delete_issues_upvotes in Hx as [Hx Hnot].
    destruct (Hur x Hx) as [(i & Hi & Ei) Hprof].
    split; [|exact Hprof]. exists i. split; [|exact Ei].
    apply delete_issues_rows. split; [exact Hi|].
    intros (H1 & H2 & H3). apply Hnot. exists i. auto 6.
  - intros i Hi. apply delete_issues_rows in Hi as [Hi _]. now apply Hir.
Qed.

Lemma update_issues_constraints s id p d :
  constraints d -> constraints (snd (update_issues s id p d)).
Proof.
  intros (Hpk & Huq & Hur & Hir). rewrite update_issues_answer. simpl.
  set (g := fun i => if String.eqb (issue_id i) id && issues_update_policy d s i
                     then apply_patch p i else i).
  assert (Hg : forall i, issue_id (g i) = issue_id i /\
                         reporter_id (g i) = reporter_id i /\
                         department_id (g i) = department_id i).
  { intros i. unfold g. destruct (_ && _); auto. }
  split; [|split; [exact Huq|split]].
  - unfold issues_pkey in *. simpl. rewrite map_map.
    erewrite map_ext; [exact Hpk|]. intros i. apply Hg.
  - intros x Hx. simpl. destruct (Hur x Hx) as [(i & Hi & Ei) Hprof].
    split; [|exact Hprof]. exists (g i). split; [now apply in_map|].
    now rewrite (proj1 (Hg i)).
  - intros i' Hi'. simpl in Hi'. apply in_map_iff in Hi' as (i & <- & Hi).
    destruct (Hg i) as (_ & -> & ->). now apply Hir.
Qed.

(** The sign-up trigger adds one profile, with a new id and without a
    department, or nothing. *)
Lemma handle_new_user_result (NEW : auth_user) (d : Db) :
  (exists e, handle_new_user NEW d = (inl e, d)) \/
  (exists p,
      handle_new_user NEW d = (inr tt, set_profiles (profiles d ++ [p]) d) /\
      profile_id p = au_id NEW /\ profile_department_id p = None /\
      forall q, In q (profiles d) -> profile_id q <> au_id NEW).
Proof.
  unfold handle_new_user.
  destruct (meta_college_id NEW) as [cid|]; [|left; eauto].
  destruct (meta_full_name NEW) as [name|]; [|left; eauto].
  destruct (au_email NEW) as [mail|]; [|left; eauto].
  destruct (existsb _ (profiles d)) eqn:E; [left; eauto|].
  right. eexists. split; [reflexivity|]. split; [reflexivity|].
  split; [reflexivity|].
  intros q Hq Hid.
  assert (existsb (fun p => String.eqb (profile_id p) (au_id NEW)
                            || String.eqb (college_id p) cid) (profiles d) = true).
  { apply existsb_exists. exists q. split; [exact Hq|].
    apply String.eqb_eq in Hid. now rewrite Hid. }
  congruence.
Qed.

(** The department update of the sign-up form, sent for the profile the
    trigger has just made: no other profile is touched. *)
Lemma update_new_profile (s : Session) (dept : uuid) (d : Db) (p : profile) :
  (forall q, In q (profiles d) -> profile_id q <> profile_id p) ->
  exists p',
    snd (update_profile_department s (profile_id p) dept
           (set_profiles (profiles d ++ [p]) d))
    = set_profiles (profiles d ++ [p']) d /\
    profile_id p' = profile_id p.
Proof.
  intros Hnew. unfold update_profile_department.
  destruct (existsb _ _ && negb _); simpl.
  - exists p. split; reflexivity.
  - rewrite map_app. simpl.
    rewrite map_id_on.
    + eexists. split; [unfold set_profiles; simpl; reflexivity|].
      destruct (_ && _); reflexivity.
    + intros q Hq.
      destruct (String.eqb (profile_id q) (profile_id p)) eqn:E; [|reflexivity].
      apply String.eqb_eq in E. exfalso. exact (Hnew q Hq E).
Qed.

Lemma added_profile_constraints (d : Db) (p : profile) :
  constraints d -> constraints (set_profiles (profiles d ++ [p]) d).
Proof.
  intros (Hpk & Huq & Hur & Hir). split; [exact Hpk|]. split; [exact Huq|].
  split.
  - intros x Hx. destruct (Hur x Hx) as [Hi (q & Hq & Eq)].
    split; [exact Hi|]. exists q. split; [|exact Eq].
    simpl. apply in_app_iff. now left.
  - intros i Hi. destruct (Hir i Hi) as [(q & Hq & Eq) Hx].
    split; [|exact Hx]. exists q. split; [|exact Eq].
    simpl. apply in_app_iff. now left.
Qed.

(** What a sign-up can have done to the database: nothing, or one more
    profile, with the id of the new user. *)
Lemma handleSignup_db (new_id : uuid) (session : Session)
    (f : AuthPage.signup_form) (w : World) :
  db (snd (AuthPage.handleSignup new_id session f w)) = db w \/
  exists p,
    db (snd (AuthPage.handleSignup new_id session f w))
    = set_profiles (profiles (db w) ++ [p]) (db w) /\
    profile_id p = new_id /\
    forall q, In q (profiles (db w)) -> profile_id q <> new_id.
Proof.
  destruct (AuthPage.handleSignup new_id session f w) as [t w'] eqn:H.
  simpl snd.
  unfold AuthPage.handleSignup, AuthPage.auth_signUp, try_catch in H.
  unfold bind at 1 in H. unfold await at 1 in H.
  match type of H with
  | context [request (on_db ?F) w] =>
      destruct (request (on_db F) w) as [r w1] eqn:R1;
      apply request_on_db_result in R1 as [[Hr Hd]|(msg & Hr & Hd)]
  end.
  2:{ subst r. unfold bind, or_throw, throw in H. inversion H; subst.
      now left. }
  destruct (handle_new_user_result
              (mkAuthUser new_id (Some (AuthPage.signupEmail f))
                          (Some (AuthPage.collegeId f))
                          (Some (AuthPage.fullName f))) (db w))
    as [(e & E)|(p & E & Hid & _ & Hnew)]; rewrite E in Hr, Hd;
    simpl in Hr, Hd; subst r.
  { unfold bind, or_throw, throw in H. inversion H; subst. now left. }
  simpl in Hid, Hnew.
  unfold bind at 1 in H. unfold or_throw at 1, ret at 1 in H.
  unfold bind at 1 in H.
  assert (Hp : exists p0,
             db w1 = set_profiles (profiles (db w) ++ [p0]) (db w) /\
             profile_id p0 = new_id) by (exists p; auto).
  destruct (String.eqb (AuthPage.signup_departmentId f) EmptyString).
  - unfold ret in H. inversion H; subst. right.
    exists p. auto.
  - unfold bind at 1 in H. unfold await in H.
    destruct (request (on_db (update_profile_department session new_id
                                (AuthPage.signup_departmentId f))) w1)
      as [r2 w2] eqn:R2.
    apply request_on_db_result in R2 as [[Hr2 Hd2]|(msg & Hr2 & Hd2)].
    + rewrite Hd in Hd2. rewrite <- Hid in Hd2 at 1.
      destruct (update_new_profile session (AuthPage.signup_departmentId f)
                  (db w) p) as (p' & Hu & Hid').
      { intros q Hq. rewrite Hid. now apply Hnew. }
      rewrite Hu in Hd2.
      assert (db w' = db w2).
      { unfold or_throw, throw, ret in H.
        destruct r2 as [e|[]]; inversion H; reflexivity. }
      right. exists p'. split; [congruence|]. split; [congruence|exact Hnew].
    + assert (db w' = db w2).
      { unfold or_throw, throw, ret in H.
        destruct r2 as [e|[]]; inversion H; reflexivity. }
      right. exists p. split; [congruence|]. split; [exact Hid|exact Hnew].
Qed.

Lemma handleSignup_bucket (new_id : uuid) (session : Session)
    (f : AuthPage.signup_form) (w : World) :
  bucket (snd (AuthPage.handleSignup new_id session f w)) = bucket w.
Proof.
  unfold AuthPage.handleSignup. apply try_catch_bucket.
  unfold AuthPage.auth_signUp.
  repeat keeps_bucket_step.
Qed.

End Commands.

Section Steps.

(** What a submission can have done to the database. *)
Lemma handleSubmitIssue_db (s : Session) (new_id : uuid) (f : Index.form) w :
  db (snd (Index.handleSubmitIssue s new_id f w)) = db w \/
  exists now url,
    db (snd (Index.handleSubmitIssue s new_id f w)) =
    snd (insert_issue s new_id now
           (mkIssueInsert s (Index.departmentId f) (Index.roomNo f)
                          (Index.itemId f) (Index.form_title f)
                          (Index.form_description f) url) (db w)).
Proof.
  pose proof (upload_photo_result s f w) as Hup. cbv zeta in Hup.
  destruct (Index.handleSubmitIssue s new_id f w) as [t w'] eqn:H. simpl snd.
  unfold Index.handleSubmitIssue, try_catch in H. unfold bind at 1 in H.
  destruct (Index.upload_photo s f w) as [[e|url] w1].
  { destruct Hup as (D & _). inversion H; subst. now left. }
  destruct Hup as (D1 & _).
  unfold bind at 1 in H. unfold await in H.
  match type of H with
  | context [request ?exec w1] =>
      destruct (request_cases exec w1)
        as [(msg & rest & _ & R)|(w0 & D0 & _ & _ & _ & _ & R)];
      rewrite R in H
  end.
  - unfold bind, or_throw, throw in H. inversion H; subst. simpl. now left.
  - unfold on_db in H.
    destruct (insert_issue s new_id (clock w0) _ (db w0)) as [r d'] eqn:I.
    right. exists (clock w0), url. rewrite <- D1, <- D0, I.
    unfold bind, or_throw, throw, ret in H.
    destruct r as [e|[]]; inversion H; subst; reflexivity.
Qed.

Lemma step_constraints (a : Portal.action) (w : World) :
  constraints (db w) -> constraints (db (Portal.step a w)).
Proof.
  intros Hc.
  destruct a as [s i b|s new_id f|user id|s id st|new_id session f]; simpl.
  5:{ destruct (handleSignup_db new_id session f w) as [->|(p & -> & _)];
        [exact Hc|now apply added_profile_constraints]. }
  - destruct (handleUpvote_db s i w b) as [->|[(uid & ->)|(uid & ->)]].
    + exact Hc.
    + now apply delete_upvotes_constraints.
    + now apply insert_upvote_constraints.
  - destruct (handleSubmitIssue_db s new_id f w) as [->|(now & url & ->)].
    + exact Hc.
    + now apply insert_issue_constraints.
  - destruct user as [u|]; [|exact Hc].
    pose proof (handleDeleteIssue_outcome u id w) as Hout.
    destruct (Profile.handleDeleteIssue (Some u) id w) as [t w']. simpl.
    destruct Hout as [(_ & -> & _)|(e & _ & [->| ->])];
      try exact Hc; now apply delete_issues_constraints.
  - destruct (handleStatusChange_run s id st w)
      as [(msg & rest & _ & ->)|(n & _ & ->)]; simpl.
    + exact Hc.
    + now apply update_issues_constraints.
Qed.

Lemma later_version_refl i : later_version i i.
Proof. unfold later_version, same_report. auto 15. Qed.

Lemma later_version_trans i j k :
  later_version i j -> later_version j k -> later_version i k.
Proof.
  unfold later_version, same_report.
  intros ((A1 & A2 & A3 & A4 & A5 & A6 & A7 & A8 & A9 & A10 & A11) & Ar & Ad)
         ((B1 & B2 & B3 & B4 & B5 & B6 & B7 & B8 & B9 & B10 & B11) & Br & Bd).
  repeat split; try congruence; auto.
Qed.

Lemma submitted_by_later a i i' :
  submitted_by a i -> later_version i i' -> submitted_by a i'.
Proof.
  destruct a; simpl; auto.
  unfold later_version, same_report.
  intros (S1 & S2 & S3 & S4 & S5 & S6 & S7 & S8 & S9)
         ((B1 & B2 & B3 & B4 & B5 & B6 & B7 & B8 & B9 & B10 & B11) & _).
  repeat split; congruence.
Qed.

Lemma status_written_later st now i i' :
  status_written st now i i' -> later_version i i'.
Proof.
  unfold status_written. intros ->.
  unfold later_version, same_report, done_implies_resolved. simpl.
  repeat split; destruct st; auto; discriminate.
Qed.

Lemma Forall2_In_r {A} (R : A -> A -> Prop) l l' y :
  Forall2 R l l' -> In y l' -> exists x, In x l /\ R x y.
Proof.
  induction 1 as [|a b l l' Hab _ IH]; intros Hy; [destruct Hy|].
  destruct Hy as [<-|Hy].
  - exists a. split; [now left|exact Hab].
  - destruct (IH Hy) as (x & Hx & Hr). exists x. split; [now right|exact Hr].
Qed.

(** One action, row by row: a row of the database after the action is a
    later version of a row from before, or the report the action
    submitted (which is then pending). *)
Lemma step_rows (a : Portal.action) (w : World) (i' : issue) :
  In i' (issues (db (Portal.step a w))) ->
  (exists i, In i (issues (db w)) /\ later_version i i') \/
  (submitted_by a i' /\ status i' = pending).
Proof.
  intros Hi'.
  destruct a as [s i b|s new_id f|user id|s id st|new_id session f];
    simpl in Hi'.
  5:{ left. exists i'. split; [|apply later_version_refl].
      destruct (handleSignup_db new_id session f w) as [E|(p & E & _)];
        rewrite E in Hi'; exact Hi'. }
  - left. exists i'. split; [|apply later_version_refl].
    now rewrite (proj1 (handleUpvote_other_tables s i b w)) in Hi'.
  - destruct (handleSubmitIssue_db s new_id f w) as [E|(now & url & E)];
      rewrite E in Hi'.
    + left. exists i'. split; [exact Hi'|apply later_version_refl].
    + rewrite insert_issue_own in Hi'.
      destruct s as [u|];
        [|left; exists i'; split; [exact Hi'|apply later_version_refl]].
      destruct (existsb _ (issues (db w)));
        [left; exists i'; split; [exact Hi'|apply later_version_refl]|].
      destruct (_ && _);
        [|left; exists i'; split; [exact Hi'|apply later_version_refl]].
      simpl in Hi'. apply in_app_iff in Hi' as [Hi'|[<-|[]]].
      * left. exists i'. split; [exact Hi'|apply later_version_refl].
      * right. simpl. repeat split; reflexivity.
  - left. exists i'. split; [|apply later_version_refl].
    destruct user as [u|]; [|exact Hi'].
    pose proof (handleDeleteIssue_outcome u id w) as Hout.
    destruct (Profile.handleDeleteIssue (Some u) id w) as [t w']. simpl in *.
    destruct Hout as [(_ & E & _)|(e & _ & [E|E])]; rewrite E in Hi';
      try exact Hi'; now apply delete_issues_rows in Hi' as [Hi' _].
  - left.
    destruct (Forall2_In_r _ _ _ _ (handleStatusChange_rows s id st w) Hi')
      as (i & Hi & [->|(_ & _ & Hw)]).
    + exists i. split; [exact Hi|apply later_version_refl].
    + exists i. split; [exact Hi|]. eapply status_written_later; exact Hw.
Qed.

Lemma run_cons a l w : Portal.run (a :: l) w = Portal.run l (Portal.step a w).
Proof. reflexivity. Qed.

End Steps.

Lemma college_constraints : constraints (db Example.world).
Proof.
  split; [exact college_issues_pkey|]. split; [exact college_upvotes_unique|].
  split; [exact college_upvotes_reference|].
  apply issues_reference_check. reflexivity.
Qed.

(** X17.  The constraints of the schema hold after every sequence of
    actions of the portal, under any sessions, arguments and network: the
    issue ids stay distinct, no pair (issue, user) has two upvotes, every
    upvote refers to an issue and a profile of the tables, and every issue
    to a profile and a department. *)
Theorem X17_actions_keep_constraints (l : list Portal.action) (w : World) :
  constraints (db w) -> constraints (db (Portal.run l w)).
Proof.
  revert w. induction l as [|a l IH]; intros w Hc; [exact Hc|].
  rewrite run_cons. apply IH. now apply step_constraints.
Qed.

Lemma X17_witness :
  constraints
    (db (Portal.run
           [ Portal.SubmitIssue (Some "alice") "i9"
               (Index.mkForm "B216" "FAN-02" "Fan noisy" "" None "d-ee");
             Portal.ClickUpvote (Some "bob") Example.i2 false;
             Portal.DeleteIssue (Some "alice") "i2";
             Portal.ChangeStatus (Some "carol") "i9" work_done ]
           Example.world)).
Proof.
  apply X17_actions_keep_constraints. exact college_constraints.
Defined.

(** X18.  No action edits a report.  After any sequence of actions, every
    row of [issues] is a later version of a row from before (the same id,
    reporter, department, room, item, title, description, photo, priority
    flag, report time and deadline; a resolution time, once set, still
    set), or it is the report that one of the actions submitted, in a
    session of its reporter and with the content of the form; and such a
    row satisfies "work_done implies resolved". *)
Theorem X18_reports_are_never_edited (l : list Portal.action) (w : World)
    (i' : issue) :
  In i' (issues (db (Portal.run l w))) ->
  (exists i, In i (issues (db w)) /\ later_version i i') \/
  (exists a, In a l /\ submitted_by a i' /\ done_implies_resolved i').
Proof.
  revert w. induction l as [|a l IH]; intros w Hi'.
  - left. exists i'. split; [exact Hi'|apply later_version_refl].
  - rewrite run_cons in Hi'.
    destruct (IH _ Hi') as [(i1 & Hi1 & Hl)|(a' & Ha' & Hs)].
    + destruct (step_rows a w i1 Hi1) as [(i & Hi & Hl0)|[Hs Hp]].
      * left. exists i. split; [exact Hi|].
        eapply later_version_trans; eassumption.
      * right. exists a. split; [now left|]. split.
        -- eapply submitted_by_later; eassumption.
        -- apply (proj2 (proj2 Hl)). unfold done_implies_resolved.
           rewrite Hp. discriminate.
    + right. exists a'. split; [now right|exact Hs].
Qed.

Lemma X18_witness :
  Forall (fun i' => exists i, In i (issues (db Example.world)) /\ later_version i i')
    (issues (db (Portal.run
                   [ Portal.ChangeStatus (Some "carol") "i1" work_done;
                     Portal.ChangeStatus (Some "carol") "i1" pending ]
                   Example.world))).
Proof.
  apply Forall_forall. intros i' Hi'.
  destruct (X18_reports_are_never_edited _ _ _ Hi')
    as [H|(a & [<-|[<-|[]]] & Hs & _)]; [exact H| |]; destruct Hs.
Defined.

(** X19.  "work_done implies resolved" is an invariant of the portal: when
    it holds for every issue, it holds after any sequence of actions.  (The
    converse is not kept: a status change away from work_done leaves the
    resolution time.) *)
Theorem X19_done_implies_resolved_invariant (l : list Portal.action)
    (w : World) :
  Forall done_implies_resolved (issues (db w)) ->
  Forall done_implies_resolved (issues (db (Portal.run l w))).
Proof.
  revert w. induction l as [|a l IH]; intros w H; [exact H|].
  rewrite run_cons. apply IH. apply Forall_forall. intros i1 Hi1.
  destruct (step_rows a w i1 Hi1) as [(i & Hi & Hl)|[_ Hp]].
  - apply (proj2 (proj2 Hl)). now apply (proj1 (Forall_forall _ _) H).
  - unfold done_implies_resolved. rewrite Hp. discriminate.
Qed.

Lemma college_done_implies_resolved :
  Forall done_implies_resolved (issues (db Example.world)).
Proof.
  repeat (first [apply Forall_nil | apply Forall_cons]);
    unfold done_implies_resolved; simpl; intros; congruence.
Qed.

Lemma X19_witness :
  Forall done_implies_resolved
    (issues (db (Portal.run
                   [ Portal.ChangeStatus (Some "carol") "i1" work_done;
                     Portal.ChangeStatus (Some "bob") "i3" acknowledged;
                     Portal.ChangeStatus (Some "carol") "i2" pending ]
                   Example.world))).
Proof.
  apply X19_done_implies_resolved_invariant.
  exact college_done_implies_resolved.
Defined.

(** X20.  Nothing in the portal sets the priority flag: when no issue is
    marked as priority, none is after any sequence of actions, and the
    priority card of the principal's dashboard shows 0 for any list taken
    from the table. *)
Theorem X20_priority_is_never_set (l : list Portal.action) (w : World) :
  (forall i, In i (issues (db w)) -> is_priority i = false) ->
  (forall i', In i' (issues (db (Portal.run l w))) -> is_priority i' = false) /\
  forall rows,
    incl rows (issues (db (Portal.run l w))) ->
    PrincipalDashboardPage.stats_priority
      (PrincipalDashboardPage.stats_of (Some rows)) = 0%nat.
Proof.
  intros H.
  assert (Hall : forall i', In i' (issues (db (Portal.run l w))) ->
                            is_priority i' = false).
  { revert w H. induction l as [|a l IH]; intros w H; [exact H|].
    rewrite run_cons. apply IH. intros i1 Hi1.
    destruct (step_rows a w i1 Hi1) as [(i & Hi & (Hsame & _))|[Hs _]].
    - unfold same_report in Hsame.
      destruct Hsame as (_ & _ & _ & _ & _ & _ & _ & _ & Hp & _).
      rewrite Hp. now apply H.
    - destruct a; simpl in Hs; try contradiction.
      now destruct Hs as (_ & _ & _ & _ & _ & _ & _ & Hp & _). }
  split; [exact Hall|].
  intros rows Hincl. simpl.
  replace (filter is_priority rows) with (@nil issue); [reflexivity|].
  symmetry. apply existsb_filter_nil.
  destruct (existsb is_priority rows) eqn:E; [|reflexivity].
  apply existsb_exists in E as (i & Hi & Hp).
  rewrite (Hall i (Hincl i Hi)) in Hp. discriminate Hp.
Qed.

Lemma X20_witness :
  PrincipalDashboardPage.stats_priority
    (PrincipalDashboardPage.stats_of
       (Some (issues (db (Portal.run
                            [ Portal.SubmitIssue (Some "alice") "i9"
                                (Index.mkForm "B216" "FAN-02" "Fan noisy" ""
                                              None "d-ee") ]
                            Example.world))))) = 0%nat.
Proof.
  apply (X20_priority_is_never_set
           [ Portal.SubmitIssue (Some "alice") "i9"
               (Index.mkForm "B216" "FAN-02" "Fan noisy" "" None "d-ee") ]
           Example.world).
  - intros i [<-|[<-|[<-|[]]]]; reflexivity.
  - apply incl_refl.
Defined.

Section Accounts.

Lemma accounts_kept_refl d : accounts_kept d d.
Proof.
  repeat split. exists []. split; [now rewrite app_nil_r|]. intros p q _ [].
Qed.

Lemma accounts_kept_trans d1 d2 d3 :
  accounts_kept d1 d2 -> accounts_kept d2 d3 -> accounts_kept d1 d3.
Proof.
  intros (A1 & A2 & A3 & l1 & P1 & N1) (B1 & B2 & B3 & l2 & P2 & N2).
  split; [congruence|]. split; [congruence|]. split; [congruence|].
  exists (l1 ++ l2)%list. split; [rewrite P2, P1; now rewrite app_assoc|].
  intros p q Hp Hq. apply in_app_iff in Hq as [Hq|Hq].
  - now apply N1.
  - apply N2; [|exact Hq]. rewrite P1. apply in_app_iff. now left.
Qed.

Lemma same_profiles_kept d d' :
  departments d' = departments d -> user_roles d' = user_roles d ->
  issues_delete_policy d' = issues_delete_policy d ->
  profiles d' = profiles d -> accounts_kept d d'.
Proof.
  intros H1 H2 H3 H4. split; [exact H1|]. split; [exact H2|].
  split; [exact H3|]. exists []. split; [now rewrite app_nil_r|].
  intros p q _ [].
Qed.

(** The four handlers of the issue pages leave every profile as it is. *)
Lemma step_same_accounts (a : Portal.action) (w : World) :
  no_signup a ->
  profiles (db (Portal.step a w)) = profiles (db w) /\
  departments (db (Portal.step a w)) = departments (db w) /\
  user_roles (db (Portal.step a w)) = user_roles (db w) /\
  issues_delete_policy (db (Portal.step a w)) = issues_delete_policy (db w).
Proof.
  destruct a as [s i b|s new_id f|user id|s id st|new_id session f]; simpl;
    intros Hno; [| | | |contradiction].
  - destruct (handleUpvote_other_tables s i b w) as (_ & H1 & H2 & H3 & H4).
    repeat split; assumption.
  - destruct (handleSubmitIssue_db s new_id f w) as [->|(now & url & ->)].
    + repeat split.
    + destruct (insert_issue_cases s new_id now
                  (mkIssueInsert s (Index.departmentId f) (Index.roomNo f)
                     (Index.itemId f) (Index.form_title f)
                     (Index.form_description f) url) (db w))
        as [->|(row & -> & _)]; repeat split.
  - destruct user as [u|]; [|repeat split].
    pose proof (handleDeleteIssue_outcome u id w) as Hout.
    destruct (Profile.handleDeleteIssue (Some u) id w) as [t w']. simpl.
    destruct Hout as [(_ & -> & _)|(e & _ & [->| ->])]; repeat split.
  - destruct (handleStatusChange_run s id st w)
      as [(msg & rest & _ & ->)|(n & _ & ->)]; simpl.
    + repeat split.
    + rewrite update_issues_answer. repeat split.
Qed.

Lemma step_accounts (a : Portal.action) (w : World) :
  accounts_kept (db w) (db (Portal.step a w)).
Proof.
  destruct a as [s i b|s new_id f|user id|s id st|new_id session f].
  5:{ simpl.
      destruct (handleSignup_db new_id session f w) as [->|(p & -> & Hid & Hnew)].
      - apply accounts_kept_refl.
      - repeat split. exists [p]. split; [reflexivity|].
        intros q0 q Hq0 [<-|[]]. rewrite Hid. intros E. symmetry in E.
        exact (Hnew q0 Hq0 E). }
  all: match goal with
       | |- accounts_kept _ (db (Portal.step ?a _)) =>
           destruct (step_same_accounts a w I) as (H1 & H2 & H3 & H4);
           now apply same_profiles_kept
       end.
Qed.

Lemma handleSubmitIssue_bucket (s : Session) (new_id : uuid) (f : Index.form) w :
  bucket (snd (Index.handleSubmitIssue s new_id f w)) =
  bucket (snd (Index.upload_photo s f w)).
Proof.
  destruct (Index.handleSubmitIssue s new_id f w) as [t w'] eqn:H. simpl snd.
  unfold Index.handleSubmitIssue, try_catch in H. unfold bind at 1 in H.
  destruct (Index.upload_photo s f w) as [[e|url] w1]; simpl snd.
  { now inversion H. }
  pose proof (insert_issue_keeps_bucket s new_id f url w1) as Hkeep.
  unfold bind at 1 in H. unfold await in H, Hkeep.
  destruct (request _ w1) as [r2 w2]. simpl in Hkeep.
  unfold bind, or_throw, throw, ret in H.
  destruct r2 as [e|[]]; inversion H; subst; exact Hkeep.
Qed.

Lemma step_bucket (a : Portal.action) (w : World) (k : string) :
  In k (bucket w) -> In k (bucket (Portal.step a w)).
Proof.
  intros Hk.
  destruct a as [s i b|s new_id f|user id|s id st|new_id session f]; simpl.
  - now rewrite handleUpvote_bucket.
  - rewrite handleSubmitIssue_bucket.
    pose proof (upload_photo_result s f w) as Hup. cbv zeta in Hup.
    destruct (Index.upload_photo s f w) as [r w1]. simpl.
    destruct Hup as (_ & _ & [B|(n & _ & _ & B)] & _); rewrite B; [exact Hk|].
    apply in_app_iff. now left.
  - now rewrite handleDeleteIssue_bucket.
  - now rewrite handleStatusChange_bucket.
  - now rewrite handleSignup_bucket.
Qed.

Lemma has_role_row d u r :
  has_role d u r = true -> exists x, In x (user_roles d) /\ role_user_id x = u.
Proof.
  unfold has_role. intros H. apply existsb_exists in H as (x & Hx & E).
  apply andb_prop in E as [E _]. apply String.eqb_eq in E. eauto.
Qed.

End Accounts.

(** X21.  What the actions of the portal, sign-ups included, leave alone.
    After any sequence of actions the departments, the roles and the
    delete policy are as before, and so are the profiles there were: a
    sign-up adds the profile of its new user, and its department update
    reaches that profile only; without a sign-up the profile table is the
    same.  So [has_role] answers as before and, in a database whose role
    rows refer to profiles, who may set the status of an issue is the same
    for every later version of the issue.  No object has left the photo
    bucket. *)
Theorem X21_actions_leave_accounts_alone (l : list Portal.action) (w : World) :
  accounts_kept (db w) (db (Portal.run l w)) /\
  (Forall no_signup l -> profiles (db (Portal.run l w)) = profiles (db w)) /\
  (forall u r, has_role (db (Portal.run l w)) u r = has_role (db w) u r) /\
  (forall s i i',
      later_version i i' ->
      (may_set_status (db w) s i -> may_set_status (db (Portal.run l w)) s i') /\
      (user_roles_reference (db w) ->
       may_set_status (db (Portal.run l w)) s i' -> may_set_status (db w) s i)) /\
  (forall k, In k (bucket w) -> In k (bucket (Portal.run l w))).
Proof.
  assert (Hacc : accounts_kept (db w) (db (Portal.run l w))).
  { revert w. induction l as [|a l IH]; intros w; [apply accounts_kept_refl|].
    rewrite run_cons. eapply accounts_kept_trans; [apply step_accounts|apply IH]. }
  assert (Hrole : forall u r,
             has_role (db (Portal.run l w)) u r = has_role (db w) u r).
  { intros u r. unfold has_role. now rewrite (proj1 (proj2 Hacc)). }
  split; [exact Hacc|]. split; [|split; [exact Hrole|split]].
  - clear Hacc Hrole. revert w.
    induction l as [|a l IH]; intros w Hno; [reflexivity|].
    inversion Hno as [|? ? Ha Hl]; subst. rewrite run_cons.
    rewrite (IH _ Hl). now apply step_same_accounts.
  - intros s i i' ((_ & _ & Hd & _) & _).
    destruct Hacc as (_ & _ & _ & added & Hp & Hnew). split.
    + intros (uid & -> & [H|(H & p & Hin & Hid & Hdep)]); exists uid;
        (split; [reflexivity|]); rewrite !Hrole.
      * now left.
      * right. split; [exact H|]. exists p. rewrite Hp, Hd.
        split; [apply in_app_iff; now left|]. split; assumption.
    + intros Href (uid & -> & [H|(H & p & Hin & Hid & Hdep)]); exists uid;
        (split; [reflexivity|]); rewrite !Hrole in H.
      * now left.
      * right. split; [exact H|].
        rewrite Hp in Hin. apply in_app_iff in Hin as [Hin|Hin].
        -- exists p. rewrite <- Hd. auto.
        -- exfalso. destruct (has_role_row _ _ _ H) as (x & Hx & Ex).
           destruct (Href x Hx) as (q & Hq & Eq).
           apply (Hnew q p Hq Hin). congruence.
  - clear Hacc Hrole. revert w.
    induction l as [|a l IH]; intros w k Hk; [exact Hk|].
    rewrite run_cons. apply IH. now apply step_bucket.
Qed.

Lemma X21_witness :
  may_set_status
    (db (Portal.run
           [ Portal.SignUp "erin" (Some "erin")
               (AuthPage.mkSignupForm "erin@college" "STU002" "Erin" "d-cs");
             Portal.ChangeStatus (Some "bob") "i1" acknowledged ]
           Example.world))
    (Some "bob") Example.i1 /\
  profiles
    (db (Portal.run [ Portal.ChangeStatus (Some "bob") "i1" acknowledged ]
           Example.world))
  = profiles (db Example.world).
Proof.
  split.
  - apply (X21_actions_leave_accounts_alone
             [ Portal.SignUp "erin" (Some "erin")
                 (AuthPage.mkSignupForm "erin@college" "STU002" "Erin" "d-cs");
               Portal.ChangeStatus (Some "bob") "i1" acknowledged ]
             Example.world) with (i := Example.i1).
    + apply later_version_refl.
    + exists "bob". split; [reflexivity|]. right. split; [reflexivity|].
      eexists. split; [right; left; reflexivity|]. split; reflexivity.
  - apply (X21_actions_leave_accounts_alone
             [ Portal.ChangeStatus (Some "bob") "i1" acknowledged ]
             Example.world).
    repeat constructor.
Defined.


(** ** Accounts: the sign-up trigger and the department of a profile *)

Section NewUser.

Lemma handleSubmitIssue_no_photo (s : Session) (new_id : uuid) (f : Index.form)
    (w : World) :
  Index.photo f = None -> net w = [] ->
  Index.handleSubmitIssue s new_id f w =
  match insert_issue s new_id (clock w)
          (mkIssueInsert s (Index.departmentId f) (Index.roomNo f)
                         (Index.itemId f) (Index.form_title f)
                         (Index.form_description f) None) (db w) with
  | (inl e, d) => (ErrorToast "Error" (Thrown e), set_db d w)
  | (inr _, d) => (issue_reported, set_db d w)
  end.
Proof.
  intros Hphoto Hnet.
  unfold Index.handleSubmitIssue, Index.upload_photo, try_catch.
  rewrite Hphoto. unfold bind, ret, await.
  rewrite request_arrives by exact Hnet. unfold on_db.
  destruct (insert_issue _ _ _ _ _) as [[e|[]] d]; reflexivity.
Qed.

Lemma handle_new_user_cases (NEW : auth_user) (d : Db) :
  fst (handle_new_user NEW d) = inr tt ->
  exists cid name mail,
    snd (handle_new_user NEW d) =
      set_profiles (profiles d ++ [mkProfile (au_id NEW) cid name mail None]) d /\
    forall p, In p (profiles d) -> profile_id p <> au_id NEW.
Proof.
  unfold handle_new_user.
  destruct (meta_college_id NEW) as [cid|]; [|discriminate].
  destruct (meta_full_name NEW) as [name|]; [|discriminate].
  destruct (au_email NEW) as [mail|]; [|discriminate].
  destruct (existsb _ (profiles d)) eqn:E; [discriminate|]. intros _.
  exists cid, name, mail. split; [reflexivity|].
  intros p Hp Hid.
  assert (existsb (fun p => String.eqb (profile_id p) (au_id NEW)
                            || String.eqb (college_id p) cid) (profiles d) = true).
  { apply existsb_exists. exists p. split; [exact Hp|].
    apply String.eqb_eq in Hid. now rewrite Hid. }
  congruence.
Qed.

Lemma no_role_no_button (u : uuid) (w : World) :
  (forall r, has_role (db w) u r = false) ->
  fst (Header.userRole (Some u) w) = None.
Proof.
  intros Hno. destruct (fst (Header.userRole (Some u) w)) as [r|] eqn:E;
    [|reflexivity].
  apply Header_userRole_some in E.
  destruct (filter (fun x => String.eqb (role_user_id x) u)
              (filter (user_roles_select_using (db w) (Some u))
                      (user_roles (db w)))) as [|x l] eqn:F; [discriminate E|].
  assert (Hx : In x (filter (fun x => String.eqb (role_user_id x) u)
                       (filter (user_roles_select_using (db w) (Some u))
                               (user_roles (db w)))))
    by (rewrite F; now left).
  apply filter_In in Hx as [Hx Hu]. apply filter_In in Hx as [Hx _].
  specialize (Hno (role x)). unfold has_role in Hno.
  assert (existsb (fun y => String.eqb (role_user_id y) u
                            && app_role_eqb (role y) (role x))
                  (user_roles (db w)) = true).
  { apply existsb_exists. exists x. split; [exact Hx|]. rewrite Hu. simpl.
    now apply app_role_eqb_eq. }
  congruence.
Qed.

End NewUser.

(** X22.  A user whose profile the sign-up trigger has just made, in a
    database whose role rows refer to profiles.  The trigger adds the one
    profile and touches nothing else.  The profile has no department; the
    user holds no role, may set the status of no issue, gets no dashboard
    button and is turned away by both dashboards.  The user can report:
    a report without a photo, for an existing department and with a new
    id, succeeds when the network is up. *)
Theorem X22_new_user (NEW : auth_user) (d : Db) :
  user_roles_reference d ->
  fst (handle_new_user NEW d) = inr tt ->
  let d' := snd (handle_new_user NEW d) in
  let u := au_id NEW in
  (exists p, profiles d' = (profiles d ++ [p])%list /\ profile_id p = u /\
             profile_department_id p = None) /\
  (issues d' = issues d /\ upvotes d' = upvotes d /\
   user_roles d' = user_roles d /\ departments d' = departments d) /\
  (forall r, has_role d' u r = false) /\
  (forall i, ~ may_set_status d' (Some u) i) /\
  (forall w, db w = d' ->
     Header.dashboard_links (fst (Header.userRole (Some u) w)) = [] /\
     fst (fst (HodDashboard.roleCheck u w)) = false /\
     fst (fst (PrincipalDashboard.roleCheck u w)) = false /\
     fst (HodDashboardPage.load u w) = None) /\
  (forall w new_id f,
      db w = d' -> net w = [] -> Index.photo f = None ->
      (exists x, In x (departments d) /\ dept_id x = Index.departmentId f) ->
      (forall i, In i (issues d) -> issue_id i <> new_id) ->
      fst (Index.handleSubmitIssue (Some u) new_id f w) = issue_reported).
Proof.
  intros Href Hok. cbv zeta.
  destruct (handle_new_user_cases NEW d Hok) as (cid & name & mail & -> & Hnew).
  assert (Hrole : forall r,
             has_role (set_profiles
                         (profiles d ++ [mkProfile (au_id NEW) cid name mail None]) d)
                      (au_id NEW) r = false).
  { intros r. unfold has_role. simpl.
    destruct (existsb _ (user_roles d)) eqn:E; [|reflexivity].
    apply existsb_exists in E as (x & Hx & E). apply andb_prop in E as [E _].
    apply String.eqb_eq in E.
    destruct (Href x Hx) as (p & Hp & Hid). exfalso.
    apply (Hnew p Hp). congruence. }
  assert (Hdenied : forall r denied w,
             db w = set_profiles
                      (profiles d ++ [mkProfile (au_id NEW) cid name mail None]) d ->
             fst (fst (Dashboard.roleCheck r denied (au_id NEW) w)) = false).
  { intros r denied w Hw.
    destruct (fst (fst (Dashboard.roleCheck r denied (au_id NEW) w))) eqn:E;
      [|reflexivity].
    apply roleCheck_granted in E. rewrite Hw, Hrole in E. discriminate E. }
  split; [|split; [|split; [|split; [|split]]]].
  - eexists. split; [reflexivity|]. split; reflexivity.
  - repeat split.
  - exact Hrole.
  - intros i (uid & Hs & [H|(H & _)]); inversion Hs; subst uid;
      rewrite Hrole in H; discriminate H.
  - intros w Hw. split; [|split; [|split]].
    + rewrite no_role_no_button; [reflexivity|]. intros r. rewrite Hw. apply Hrole.
    + now apply Hdenied.
    + now apply Hdenied.
    + unfold HodDashboardPage.load, HodDashboard.roleCheck.
      pose proof (Hdenied hod "You do not have HOD access." w Hw) as Hd.
      destruct (Dashboard.roleCheck hod "You do not have HOD access." (au_id NEW) w)
        as [[[|] t] w1]; [discriminate Hd|reflexivity].
  - intros w new_id f Hw Hnet Hphoto (x & Hx & Hdep) Hfresh.
    rewrite handleSubmitIssue_no_photo by assumption.
    rewrite insert_issue_own, Hw.
    replace (existsb (fun i => String.eqb (issue_id i) new_id)
               (issues (set_profiles
                          (profiles d ++ [mkProfile (au_id NEW) cid name mail None])
                          d))) with false.
    2:{ symmetry. apply fresh_id_existsb. exact Hfresh. }
    replace (existsb (fun p => String.eqb (profile_id p) (au_id NEW))
               (profiles (set_profiles
                            (profiles d ++ [mkProfile (au_id NEW) cid name mail None])
                            d))) with true.
    2:{ symmetry. apply existsb_exists. eexists. split.
        - simpl. apply in_app_iff. right. left. reflexivity.
        - simpl. apply String.eqb_refl. }
    replace (existsb (fun x => String.eqb (dept_id x) (Index.departmentId f))
               (departments (set_profiles
                               (profiles d ++ [mkProfile (au_id NEW) cid name mail None])
                               d))) with true.
    2:{ symmetry. apply existsb_exists. exists x. split; [exact Hx|].
        now apply String.eqb_eq. }
    reflexivity.
Qed.

Lemma college_user_roles_reference : user_roles_reference (db Example.world).
Proof.
  intros r Hr.
  assert (H : existsb (fun p => String.eqb (profile_id p) (role_user_id r))
                      (profiles (db Example.world)) = true).
  { revert r Hr. apply Forall_forall.
    repeat (first [apply Forall_nil | apply Forall_cons]); reflexivity. }
  apply existsb_exists in H as (p & Hp & E). apply String.eqb_eq in E. eauto.
Qed.

Lemma X22_witness :
  let NEW := mkAuthUser "erin" (Some "erin@college") (Some "STU002") (Some "Erin") in
  fst (Index.handleSubmitIssue (Some "erin") "i9"
         (Index.mkForm "B216" "FAN-02" "Fan noisy" "" None "d-ee")
         (set_db (snd (handle_new_user NEW (db Example.world))) Example.world))
  = issue_reported.
Proof.
  cbv zeta.
  apply (X22_new_user
           (mkAuthUser "erin" (Some "erin@college") (Some "STU002") (Some "Erin"))
           (db Example.world) college_user_roles_reference eq_refl).
  - reflexivity.
  - reflexivity.
  - reflexivity.
  - eexists. split; [right; right; right; right; left; reflexivity|reflexivity].
  - intros i [<-|[<-|[<-|[]]]]; discriminate.
Defined.

Section ProfileDepartment.

Variables (s : Session) (id dept : uuid) (d : Db).

Lemma set_profiles_same : set_profiles (profiles d) d = d.
Proof. destruct d; reflexivity. Qed.

Lemma profile_target_session p :
  String.eqb (profile_id p) id && profiles_update_using s p = true ->
  profile_id p = id /\ s = Some id.
Proof.
  intros H. apply andb_prop in H as [Hid Hs]. apply String.eqb_eq in Hid.
  split; [exact Hid|]. destruct s as [uid|]; [|discriminate Hs].
  simpl in Hs. apply String.eqb_eq in Hs. congruence.
Qed.

End ProfileDepartment.

(** X23.  The department of a profile is self-assigned.  The update the
    sign-up form sends changes nothing but the department of profiles; it
    changes the profile [id] only in a session of that user, and in any
    other session it changes nothing and is answered without an error.
    In a session of the user, for an existing department, it sets the
    department of the user's profile; a user with the hod role may then
    set the status of every issue of the department chosen. *)
Theorem X23_profile_department_is_self_assigned (s : Session) (id dept : uuid)
    (d : Db) :
  let r := update_profile_department s id dept d in
  (issues (snd r) = issues d /\ upvotes (snd r) = upvotes d /\
   user_roles (snd r) = user_roles d /\ departments (snd r) = departments d /\
   map profile_id (profiles (snd r)) = map profile_id (profiles d)) /\
  (forall p, In p (profiles d) -> profile_id p <> id -> In p (profiles (snd r))) /\
  (s <> Some id -> r = (inr tt, d)) /\
  (s = Some id ->
   (exists x, In x (departments d) /\ dept_id x = dept) ->
   fst r = inr tt /\
   (forall p, In p (profiles (snd r)) -> profile_id p = id ->
              profile_department_id p = Some dept) /\
   (has_role d id hod = true ->
    (exists p, In p (profiles d) /\ profile_id p = id) ->
    forall i, department_id i = dept -> may_set_status (snd r) (Some id) i)).
Proof.
  cbv zeta. unfold update_profile_department.
  set (target := fun p => String.eqb (profile_id p) id && profiles_update_using s p).
  set (g := fun p => if target p
                     then mkProfile (profile_id p) (college_id p) (full_name p)
                                    (email p) (Some dept)
                     else p).
  assert (Hg : forall p, profile_id (g p) = profile_id p).
  { intros p. unfold g. now destruct (target p). }
  assert (Hids : map profile_id (map g (profiles d)) = map profile_id (profiles d)).
  { rewrite map_map. apply map_ext. exact Hg. }
  split; [|split; [|split]].
  - destruct (existsb target (profiles d) && negb _); simpl; repeat split.
    exact Hids.
  - intros p Hp Hne.
    destruct (existsb target (profiles d) && negb _); simpl; [exact Hp|].
    apply in_map_iff. exists p. split; [|exact Hp].
    unfold g. destruct (target p) eqn:E; unfold target in E;
      [|now rewrite E].
    apply profile_target_session in E as [E _]. contradiction.
  - intros Hs.
    assert (Hnone : forall p, In p (profiles d) -> target p = false).
    { intros p _. destruct (target p) eqn:E; [|reflexivity].
      unfold target in E.
      apply profile_target_session in E as [_ E]. contradiction. }
    replace (existsb target (profiles d)) with false.
    2:{ symmetry. destruct (existsb target (profiles d)) eqn:E; [|reflexivity].
        apply existsb_exists in E as (p & Hp & E).
        rewrite (Hnone p Hp) in E. discriminate E. }
    simpl. f_equal. rewrite map_id_on; [apply set_profiles_same|].
    intros p Hp. pose proof (Hnone p Hp) as E. unfold target in E.
    unfold g. now rewrite E.
  - intros Hs (x & Hx & Hdep).
    replace (existsb (fun x => String.eqb (dept_id x) dept) (departments d))
      with true.
    2:{ symmetry. apply existsb_exists. exists x. split; [exact Hx|].
        now apply String.eqb_eq. }
    rewrite andb_false_r. simpl.
    assert (Hset : forall p, In p (map g (profiles d)) -> profile_id p = id ->
                             profile_department_id p = Some dept).
    { intros p' Hp' Hid. apply in_map_iff in Hp' as (p & <- & Hp).
      rewrite Hg in Hid. unfold g, target.
      rewrite Hid, String.eqb_refl, Hs. simpl. rewrite Hid, String.eqb_refl.
      reflexivity. }
    split; [reflexivity|]. split; [exact Hset|].
    intros Hrole (p & Hp & Hid) i Hi. exists id. split; [reflexivity|].
    right. split; [exact Hrole|].
    exists (g p). split; [simpl; now apply in_map|].
    split; [now rewrite Hg|].
    rewrite Hi. apply Hset; [now apply in_map|now rewrite Hg].
Qed.

Lemma X23_witness :
  may_set_status
    (snd (update_profile_department (Some "bob") "bob" "d-me" (db Example.world)))
    (Some "bob") Example.i2.
Proof.
  apply (X23_profile_department_is_self_assigned (Some "bob") "bob" "d-me"
           (db Example.world)).
  - reflexivity.
  - eexists. split; [right; right; left; reflexivity|reflexivity].
  - reflexivity.
  - eexists. split; [right; left; reflexivity|reflexivity].
  - reflexivity.
Defined.
